(** * Approval workflows of the campus management backend

    A shallow embedding of the room-booking and student-leave views of
    [accounts/views.py] together with the model classes of
    [accounts/models.py] they read and write.

    - Model instances are records; a table is the list of its rows in
      insertion order, with the auto-increment counter of its primary key.
    - A view is a function from the request (authenticated user, request
      data, the clock where the view reads it) and the database to the
      response and the new database.
    - Python exceptions are the left summand of a small error monad; a
      [try ... except] is a [match] on the result of the protected block. *)

From Stdlib Require Import String List ZArith Bool Lia PeanoNat.
From Stdlib Require Import Permutation Sorted.
Import ListNotations.

Local Open Scope string_scope.
Local Open Scope Z_scope.

(* ================================================================= *)
(** ** Models ([accounts/models.py]) *)

(** [DateField], [TimeField] and [DateTimeField] values, as the ordinal of
    the day, the offset within the day and the instant. Only their order is
    used by the views. *)
Definition date := Z.
Definition time := Z.
Definition datetime := Z.

(** [class Division]: the (course, semester, division) triple. *)
Record Division := mkDivision {
  div_id : nat;
  div_course : string;
  div_semester : Z;
  div_division : string
}.

(** [class Teacher]: the two scoped authorities; the descriptive fields
    (qualification, department, position, ...) are read by no view below. *)
Record Teacher := mkTeacher {
  is_batch_coordinator : bool;
  coordinator_course : option string;
  coordinator_semester : option Z;
  coordinator_division : option string;
  is_hod : bool;
  hod_course : option string
}.

(** [class Student]: [division] is the foreign key to the student's
    current division. *)
Record Student := mkStudent {
  roll_number : string;
  student_division : Division
}.

(** [class User(AbstractUser)] with its [role] and the two reverse
    one-to-one accessors; an accessor is [None] when the related row is
    absent, in which case reading it raises. *)
Record User := mkUser {
  user_id : nat;
  username : string;
  role : string;
  teacher_profile : option Teacher;
  student_profile : option Student
}.

(** [class Room]. *)
Record Room := mkRoom {
  room_id : nat;
  room_number : string;
  capacity : nat;
  room_type : string
}.

(** [RoomBooking.STATUS_CHOICES]. *)
Inductive BookingStatus :=
| PENDING_COORDINATOR
| PENDING_HOD
| APPROVED
| REJECTED.

(** [class RoomBooking]; [room] and [requested_by] hold the primary keys of
    the rows they reference, [division] is nullable. *)
Record RoomBooking := mkRoomBooking {
  booking_id : nat;
  room : nat;
  requested_by : nat;
  division : option Division;
  purpose : string;
  booking_date : date;
  start_time : time;
  end_time : time;
  status : BookingStatus;
  coordinator_approved : bool;
  hod_approved : bool;
  created_at : datetime
}.

(** [StudentLeave.STATUS_CHOICES]. *)
Inductive LeaveStatus :=
| LEAVE_PENDING
| LEAVE_APPROVED
| LEAVE_REJECTED.

(** [class StudentLeave]; [document] is the name of the uploaded file. *)
Record StudentLeave := mkStudentLeave {
  leave_id : nat;
  leave_student : string;
  leave_division : Division;
  reason : string;
  from_date : date;
  to_date : date;
  document : option string;
  leave_status : LeaveStatus;
  coordinator_remark : option string;
  applied_at : datetime;
  decision_at : option datetime
}.

(** The tables the views touch. *)
Record DB := mkDB {
  rooms : list Room;
  bookings : list RoomBooking;
  next_booking_id : nat;
  leaves : list StudentLeave;
  next_leave_id : nat
}.

Definition BookingStatus_eqb (a b : BookingStatus) : bool :=
  match a, b with
  | PENDING_COORDINATOR, PENDING_COORDINATOR
  | PENDING_HOD, PENDING_HOD
  | APPROVED, APPROVED
  | REJECTED, REJECTED => true
  | _, _ => false
  end.

(* ================================================================= *)
(** ** Exceptions and responses *)

(** The exceptions the views can meet. [ValidationError] carries its
    [message_dict]. *)
Inductive exn :=
| KeyError (key : string)
| Room_DoesNotExist
| RoomBooking_DoesNotExist
| StudentLeave_DoesNotExist
| RelatedObjectDoesNotExist (msg : string)
| ValidationError (message_dict : list (string * list string)).

(** [str(e)]. *)
Definition str (e : exn) : string :=
  match e with
  | KeyError key => "'" ++ key ++ "'"
  | Room_DoesNotExist => "Room matching query does not exist."
  | RoomBooking_DoesNotExist => "RoomBooking matching query does not exist."
  | StudentLeave_DoesNotExist => "StudentLeave matching query does not exist."
  | RelatedObjectDoesNotExist msg => msg
  | ValidationError d => String.concat "; " (flat_map snd d)
  end.

(** The error monad of a [try] block. *)
Definition M (A : Type) : Type := exn + A.

Definition ret {A} (a : A) : M A := inr a.
Definition raise {A} (e : exn) : M A := inl e.
Definition bind {A B} (m : M A) (k : A -> M B) : M B :=
  match m with
  | inl e => inl e
  | inr a => k a
  end.

Declare Scope exn_scope.
Delimit Scope exn_scope with exn.
Notation "x <- m ;; k" := (bind m (fun x => k))
  (at level 61, m at next level, right associativity) : exn_scope.

(** [data[key]] on the request data. *)
Definition getitem {A} (key : string) (v : option A) : M A :=
  match v with
  | Some a => ret a
  | None => raise (KeyError key)
  end.

(** The JSON bodies the views build: [{"error": msg}], [{"message": msg}],
    [{"error": e.message_dict}] and the list of rows of a listing view. *)
Inductive Body :=
| error (msg : string)
| message (msg : string)
| error_dict (d : list (string * list string))
| listing (ids : list nat).

(** [Response(body, status=...)]; the status defaults to 200. *)
Record Response := mkResponse {
  body : Body;
  status_code : nat
}.

(** What a view call ends in: a response, or an exception that no handler
    of the view catches. *)
Inductive Outcome :=
| Returned (r : Response)
| Uncaught (e : exn).

(* ================================================================= *)
(** ** The object managers *)

Local Open Scope exn_scope.

(** [Room.objects.get(id=...)]. *)
Definition Room_objects_get (db : DB) (id : nat) : M Room :=
  match find (fun r => Nat.eqb (room_id r) id) (rooms db) with
  | Some r => ret r
  | None => raise Room_DoesNotExist
  end.

(** [RoomBooking.objects.get(id=...)]. *)
Definition RoomBooking_objects_get (db : DB) (id : nat) : M RoomBooking :=
  match find (fun b => Nat.eqb (booking_id b) id) (bookings db) with
  | Some b => ret b
  | None => raise RoomBooking_DoesNotExist
  end.

(** [StudentLeave.objects.get(id=...)]. *)
Definition StudentLeave_objects_get (db : DB) (id : nat) : M StudentLeave :=
  match find (fun l => Nat.eqb (leave_id l) id) (leaves db) with
  | Some l => ret l
  | None => raise StudentLeave_DoesNotExist
  end.

(** The row filter of the clash query of [request_room]:
    [room=room, booking_date=booking_date, status="APPROVED",
     start_time__lt=end_time, end_time__gt=start_time]. *)
Definition clash_filter (rm : Room) (d : date) (st en : time)
    (b : RoomBooking) : bool :=
  Nat.eqb (room b) (room_id rm)
  && (booking_date b =? d)
  && BookingStatus_eqb (status b) APPROVED
  && (start_time b <? en)
  && (end_time b >? st).

(** [RoomBooking.objects.filter(...).exists()]. *)
Definition clash_exists (db : DB) (rm : Room) (d : date) (st en : time) : bool :=
  existsb (clash_filter rm d st en) (bookings db).

(** [RoomBooking.objects.create(...)]: the row gets the next primary key;
    [coordinator_approved] and [hod_approved] take their default [False],
    [created_at] is [auto_now_add]. *)
Definition RoomBooking_objects_create (now : datetime) (db : DB)
    (rm : Room) (user : User) (dv : option Division) (p : string)
    (d : date) (st en : time) (s : BookingStatus) : DB :=
  let b := {| booking_id := next_booking_id db;
              room := room_id rm;
              requested_by := user_id user;
              division := dv;
              purpose := p;
              booking_date := d;
              start_time := st;
              end_time := en;
              status := s;
              coordinator_approved := false;
              hod_approved := false;
              created_at := now |} in
  {| rooms := rooms db;
     bookings := bookings db ++ [b];
     next_booking_id := S (next_booking_id db);
     leaves := leaves db;
     next_leave_id := next_leave_id db |}.

(** [booking.save()] of a row that has a primary key: the row with that
    key is replaced; were there none, the row would be inserted. *)
Definition RoomBooking_save (b : RoomBooking) (db : DB) : DB :=
  let same := fun r => Nat.eqb (booking_id r) (booking_id b) in
  {| rooms := rooms db;
     bookings := if existsb same (bookings db)
                 then map (fun r => if same r then b else r) (bookings db)
                 else bookings db ++ [b];
     next_booking_id := next_booking_id db;
     leaves := leaves db;
     next_leave_id := next_leave_id db |}.

(** [leave.save()], for a row with a primary key (the update of
    [coordinator_leave_action]). *)
Definition StudentLeave_save (l : StudentLeave) (db : DB) : DB :=
  let same := fun r => Nat.eqb (leave_id r) (leave_id l) in
  {| rooms := rooms db;
     bookings := bookings db;
     next_booking_id := next_booking_id db;
     leaves := if existsb same (leaves db)
               then map (fun r => if same r then l else r) (leaves db)
               else leaves db ++ [l];
     next_leave_id := next_leave_id db |}.

(** [leave.save()] of the unsaved instance of [apply_leave]: an insert
    under the next primary key; [applied_at] is [auto_now_add]. *)
Definition StudentLeave_insert (now : datetime) (l : StudentLeave) (db : DB) : DB :=
  let row := {| leave_id := next_leave_id db;
                leave_student := leave_student l;
                leave_division := leave_division l;
                reason := reason l;
                from_date := from_date l;
                to_date := to_date l;
                document := document l;
                leave_status := leave_status l;
                coordinator_remark := coordinator_remark l;
                applied_at := now;
                decision_at := decision_at l |} in
  {| rooms := rooms db;
     bookings := bookings db;
     next_booking_id := next_booking_id db;
     leaves := leaves db ++ [row];
     next_leave_id := S (next_leave_id db) |}.

(** Attribute assignments on a fetched instance. *)
Definition set_status (s : BookingStatus) (b : RoomBooking) : RoomBooking :=
  {| booking_id := booking_id b; room := room b;
     requested_by := requested_by b; division := division b;
     purpose := purpose b; booking_date := booking_date b;
     start_time := start_time b; end_time := end_time b;
     status := s;
     coordinator_approved := coordinator_approved b;
     hod_approved := hod_approved b; created_at := created_at b |}.

Definition set_coordinator_approved (v : bool) (b : RoomBooking) : RoomBooking :=
  {| booking_id := booking_id b; room := room b;
     requested_by := requested_by b; division := division b;
     purpose := purpose b; booking_date := booking_date b;
     start_time := start_time b; end_time := end_time b;
     status := status b;
     coordinator_approved := v;
     hod_approved := hod_approved b; created_at := created_at b |}.

Definition set_hod_approved (v : bool) (b : RoomBooking) : RoomBooking :=
  {| booking_id := booking_id b; room := room b;
     requested_by := requested_by b; division := division b;
     purpose := purpose b; booking_date := booking_date b;
     start_time := start_time b; end_time := end_time b;
     status := status b;
     coordinator_approved := coordinator_approved b;
     hod_approved := v; created_at := created_at b |}.

Definition set_leave_status (s : LeaveStatus) (l : StudentLeave) : StudentLeave :=
  {| leave_id := leave_id l; leave_student := leave_student l;
     leave_division := leave_division l; reason := reason l;
     from_date := from_date l; to_date := to_date l;
     document := document l;
     leave_status := s;
     coordinator_remark := coordinator_remark l;
     applied_at := applied_at l; decision_at := decision_at l |}.

Definition set_coordinator_remark (r : option string) (l : StudentLeave) : StudentLeave :=
  {| leave_id := leave_id l; leave_student := leave_student l;
     leave_division := leave_division l; reason := reason l;
     from_date := from_date l; to_date := to_date l;
     document := document l;
     leave_status := leave_status l;
     coordinator_remark := r;
     applied_at := applied_at l; decision_at := decision_at l |}.

Definition set_decision_at (t : option datetime) (l : StudentLeave) : StudentLeave :=
  {| leave_id := leave_id l; leave_student := leave_student l;
     leave_division := leave_division l; reason := reason l;
     from_date := from_date l; to_date := to_date l;
     document := document l;
     leave_status := leave_status l;
     coordinator_remark := coordinator_remark l;
     applied_at := applied_at l; decision_at := t |}.

(** [user.student_profile] and [user.teacher_profile]. *)
Definition get_student_profile (user : User) : M Student :=
  match student_profile user with
  | Some s => ret s
  | None => raise (RelatedObjectDoesNotExist "User has no student_profile.")
  end.

Definition get_teacher_profile (user : User) : M Teacher :=
  match teacher_profile user with
  | Some t => ret t
  | None => raise (RelatedObjectDoesNotExist "User has no teacher_profile.")
  end.

(* ================================================================= *)
(** ** Views ([accounts/views.py]) *)

(** [request.data] of [request_room]; a key may be missing. *)
Record BookingData := mkBookingData {
  data_room_id : option nat;
  data_booking_date : option date;
  data_start_time : option time;
  data_end_time : option time;
  data_purpose : option string
}.

(** [request.data] and [request.FILES] of [apply_leave]. *)
Record LeaveData := mkLeaveData {
  data_reason : option string;
  data_from_date : option date;
  data_to_date : option date;
  files_document : option string
}.

(** [request.data.get("action") == s]. *)
Definition action_is (action : option string) (s : string) : bool :=
  match action with
  | Some a => String.eqb a s
  | None => false
  end.

(** [def request_room(request)]. The whole body is inside [try]; the
    handlers are [except Room.DoesNotExist] and [except Exception]. *)
Definition request_room (now : datetime) (user : User) (data : BookingData)
    (db : DB) : Response * DB :=
  let attempt : M (Response * DB) :=
    rid <- getitem "room_id" (data_room_id data) ;;
    rm <- Room_objects_get db rid ;;
    d <- getitem "booking_date" (data_booking_date data) ;;
    st <- getitem "start_time" (data_start_time data) ;;
    en <- getitem "end_time" (data_end_time data) ;;
    if clash_exists db rm d st en then
      ret (mkResponse
             (error "Room already booked for the selected date and time") 400,
           db)
    else if String.eqb (role user) "student" then
      sp <- get_student_profile user ;;
      p <- getitem "purpose" (data_purpose data) ;;
      ret (mkResponse (message "Room request sent to Batch Coordinator") 201,
           RoomBooking_objects_create now db rm user
             (Some (student_division sp)) p d st en PENDING_COORDINATOR)
    else if String.eqb (role user) "teacher" then
      p <- getitem "purpose" (data_purpose data) ;;
      ret (mkResponse (message "Room request sent to HOD") 201,
           RoomBooking_objects_create now db rm user
             None p d st en PENDING_HOD)
    else
      ret (mkResponse (error "Invalid role") 400, db)
  in
  match attempt with
  | inr r => r
  | inl Room_DoesNotExist => (mkResponse (error "Room not found") 404, db)
  | inl e => (mkResponse (error (str e)) 400, db)
  end.

(** The guard [user.role != 'teacher' or not user.teacher_profile.<flag>]
    of the coordinator and HOD views; [or] does not read the profile of a
    user who is not a teacher. *)
Definition not_teacher_with (flag : Teacher -> bool) (user : User) : M bool :=
  if negb (String.eqb (role user) "teacher") then ret true
  else t <- get_teacher_profile user ;; ret (negb (flag t)).

(** [def coordinator_action(request, booking_id)]. The guard is outside
    [try]; the handler is [except RoomBooking.DoesNotExist]. *)
Definition coordinator_action (user : User) (action : option string)
    (id : nat) (db : DB) : Outcome * DB :=
  match not_teacher_with is_batch_coordinator user with
  | inl e => (Uncaught e, db)
  | inr true => (Returned (mkResponse (error "Unauthorized") 403), db)
  | inr false =>
    let attempt : M (Response * DB) :=
      booking <- RoomBooking_objects_get db id ;;
      if action_is action "approve" then
        let booking := set_status PENDING_HOD booking in
        let booking := set_coordinator_approved true booking in
        ret (mkResponse (message "Action completed") 200,
             RoomBooking_save booking db)
      else if action_is action "reject" then
        let booking := set_status REJECTED booking in
        ret (mkResponse (message "Action completed") 200,
             RoomBooking_save booking db)
      else
        ret (mkResponse (error "Invalid action") 400, db)
    in
    match attempt with
    | inr (r, db') => (Returned r, db')
    | inl RoomBooking_DoesNotExist =>
        (Returned (mkResponse (error "Booking not found") 404), db)
    | inl e => (Uncaught e, db)
    end
  end.

(** [def hod_action(request, booking_id)]. *)
Definition hod_action (user : User) (action : option string)
    (id : nat) (db : DB) : Outcome * DB :=
  match not_teacher_with is_hod user with
  | inl e => (Uncaught e, db)
  | inr true => (Returned (mkResponse (error "Only HOD allowed") 403), db)
  | inr false =>
    let attempt : M (Response * DB) :=
      booking <- RoomBooking_objects_get db id ;;
      if action_is action "approve" then
        let booking := set_status APPROVED booking in
        let booking := set_hod_approved true booking in
        ret (mkResponse (message "Final decision recorded") 200,
             RoomBooking_save booking db)
      else if action_is action "reject" then
        let booking := set_status REJECTED booking in
        ret (mkResponse (message "Final decision recorded") 200,
             RoomBooking_save booking db)
      else
        ret (mkResponse (error "Invalid action") 400, db)
    in
    match attempt with
    | inr (r, db') => (Returned r, db')
    | inl RoomBooking_DoesNotExist =>
        (Returned (mkResponse (error "Booking not found") 404), db)
    | inl e => (Uncaught e, db)
    end
  end.

(** [StudentLeave.clean]. *)
Definition StudentLeave_clean (l : StudentLeave) : M unit :=
  if to_date l <? from_date l then
    raise (ValidationError
             [("__all__", ["To date cannot be before From date."])])
  else ret tt.

(** [Model.clean_fields] on a [StudentLeave]: of the fields the view
    fills, [reason] is the one a typed request can get wrong, a
    [TextField] declared without [blank=True]. *)
Definition StudentLeave_clean_fields (l : StudentLeave)
    : list (string * list string) :=
  if String.eqb (reason l) EmptyString
  then [("reason", ["This field cannot be blank."])]
  else [].

(** [leave.full_clean()]: the errors of [clean_fields] and of [clean] are
    collected and raised together. *)
Definition StudentLeave_full_clean (l : StudentLeave) : M unit :=
  let errors :=
    (StudentLeave_clean_fields l ++
     match StudentLeave_clean l with
     | inl (ValidationError d) => d
     | _ => []
     end)%list in
  match errors with
  | [] => ret tt
  | _ => raise (ValidationError errors)
  end.

(** [def apply_leave(request)]. The role guard is outside [try]; the only
    handler is [except ValidationError]. *)
Definition apply_leave (now : datetime) (user : User) (data : LeaveData)
    (db : DB) : Outcome * DB :=
  if negb (String.eqb (role user) "student") then
    (Returned (mkResponse (error "Only students can apply leave") 403), db)
  else
    let attempt : M (Response * DB) :=
      student <- get_student_profile user ;;
      r <- getitem "reason" (data_reason data) ;;
      f <- getitem "from_date" (data_from_date data) ;;
      t <- getitem "to_date" (data_to_date data) ;;
      let leave := {| leave_id := 0;
                      leave_student := roll_number student;
                      leave_division := student_division student;
                      reason := r;
                      from_date := f;
                      to_date := t;
                      document := files_document data;
                      leave_status := LEAVE_PENDING;
                      coordinator_remark := None;
                      applied_at := now;
                      decision_at := None |} in
      _ <- StudentLeave_full_clean leave ;;
      ret (mkResponse (message "Leave request sent to Batch Coordinator") 201,
           StudentLeave_insert now leave db)
    in
    match attempt with
    | inr (r, db') => (Returned r, db')
    | inl (ValidationError d) =>
        (Returned (mkResponse (error_dict d) 400), db)
    | inl e => (Uncaught e, db)
    end.

(** [request.data.get(key, default)]. The entry of the body at [key] is
    [None] when the body has no such key and [Some None] when it has the
    key with a JSON [null]; the result is the Python value, [None] for
    Python's [None]. The default is used for a missing key only. *)
Definition data_get_default {A} (entry : option (option A)) (default : A)
    : option A :=
  match entry with
  | None => Some default
  | Some value => value
  end.

(** [def coordinator_leave_action(request, leave_id)]; [remark] is the
    entry of the body at ["remark"], read by
    [remark = request.data.get("remark", "")] and assigned to the nullable
    column as it is; [now] is the value of [now()] at the call. *)
Definition coordinator_leave_action (now : datetime) (user : User)
    (action : option string) (remark : option (option string))
    (id : nat) (db : DB) : Outcome * DB :=
  match not_teacher_with is_batch_coordinator user with
  | inl e => (Uncaught e, db)
  | inr true => (Returned (mkResponse (error "Unauthorized") 403), db)
  | inr false =>
    let remark := data_get_default remark EmptyString in
    (* the statements after the [if]: remark, decision time, save *)
    let decided (leave : StudentLeave) : Response * DB :=
      let leave := set_coordinator_remark remark leave in
      let leave := set_decision_at (Some now) leave in
      (mkResponse (message "Leave decision recorded") 200,
       StudentLeave_save leave db) in
    let attempt : M (Response * DB) :=
      leave <- StudentLeave_objects_get db id ;;
      if action_is action "approve" then
        ret (decided (set_leave_status LEAVE_APPROVED leave))
      else if action_is action "reject" then
        ret (decided (set_leave_status LEAVE_REJECTED leave))
      else
        ret (mkResponse (error "Invalid action") 400, db)
    in
    match attempt with
    | inr (r, db') => (Returned r, db')
    | inl StudentLeave_DoesNotExist =>
        (Returned (mkResponse (error "Leave not found") 404), db)
    | inl e => (Uncaught e, db)
    end
  end.

(** A lookup [field=value] of a queryset filter on a nullable column or
    across a nullable join: [value=None] selects the rows where it is
    null. *)
Definition lookup {A} (eqb : A -> A -> bool) (field value : option A) : bool :=
  match value, field with
  | None, None => true
  | Some v, Some f => eqb f v
  | _, _ => false
  end.

(** [def coordinator_requests(request)]; the listing carries the ["id"] of
    each row it serialises. *)
Definition coordinator_requests (user : User) (db : DB) : Outcome :=
  match not_teacher_with is_batch_coordinator user with
  | inl e => Uncaught e
  | inr true => Returned (mkResponse (error "Unauthorized") 403)
  | inr false =>
    match get_teacher_profile user with
    | inl e => Uncaught e
    | inr t =>
      let selected (b : RoomBooking) : bool :=
        BookingStatus_eqb (status b) PENDING_COORDINATOR
        && lookup String.eqb (option_map div_course (division b))
             (coordinator_course t)
        && lookup Z.eqb (option_map div_semester (division b))
             (coordinator_semester t)
        && lookup String.eqb (option_map div_division (division b))
             (coordinator_division t) in
      Returned (mkResponse
                  (listing (map booking_id (filter selected (bookings db))))
                  200)
    end
  end.

(** [def hod_requests(request)]: of the [PENDING_HOD] rows, one with a
    division is skipped when the division's course is not the HOD's. *)
Definition hod_requests (user : User) (db : DB) : Outcome :=
  match not_teacher_with is_hod user with
  | inl e => Uncaught e
  | inr true => Returned (mkResponse (error "Only HOD allowed") 403)
  | inr false =>
    match get_teacher_profile user with
    | inl e => Uncaught e
    | inr t =>
      let skipped (b : RoomBooking) : bool :=
        match division b with
        | Some dv =>
            match hod_course t with
            | Some c => negb (String.eqb (div_course dv) c)
            | None => true
            end
        | None => false
        end in
      let pending (b : RoomBooking) : bool :=
        BookingStatus_eqb (status b) PENDING_HOD in
      Returned (mkResponse
                  (listing (map booking_id
                     (filter (fun b => negb (skipped b))
                        (filter pending (bookings db)))))
                  200)
    end
  end.

(** The requests of the two workflows, as [backend/urls.py] routes them. *)
Inductive Request :=
| POST_request_room (now : datetime) (user : User) (data : BookingData)
| POST_coordinator_action (user : User) (action : option string) (id : nat)
| POST_hod_action (user : User) (action : option string) (id : nat)
| POST_apply_leave (now : datetime) (user : User) (data : LeaveData)
| POST_coordinator_leave_action (now : datetime) (user : User)
    (action : option string) (remark : option (option string)) (id : nat).

(** The database after a request has been served. *)
Definition serve (db : DB) (r : Request) : DB :=
  match r with
  | POST_request_room now user data => snd (request_room now user data db)
  | POST_coordinator_action user action id =>
      snd (coordinator_action user action id db)
  | POST_hod_action user action id => snd (hod_action user action id db)
  | POST_apply_leave now user data => snd (apply_leave now user data db)
  | POST_coordinator_leave_action now user action remark id =>
      snd (coordinator_leave_action now user action remark id db)
  end.

(** Requests served one after the other. *)
Definition serve_all (db : DB) (rs : list Request) : DB :=
  fold_left serve rs db.

(* ================================================================= *)
(** ** The error responses of the workflows *)

(** The clash response of [request_room]. *)
Definition Conflict : Response :=
  mkResponse (error "Room already booked for the selected date and time") 400.

(** The response of [request_room] to a role that is neither student nor
    teacher. *)
Definition Invalid_role : Response := mkResponse (error "Invalid role") 400.

(** The response of the decision views to an action that is neither
    ["approve"] nor ["reject"]. *)
Definition Invalid_action : Response := mkResponse (error "Invalid action") 400.

(** The responses of the guards of the coordinator and HOD views. *)
Definition Unauthorized : Response := mkResponse (error "Unauthorized") 403.
Definition Only_HOD_allowed : Response :=
  mkResponse (error "Only HOD allowed") 403.

(** Request data with every key present. *)
Definition booking_data (rid : nat) (d : date) (st en : time) (p : string)
    : BookingData :=
  mkBookingData (Some rid) (Some d) (Some st) (Some en) (Some p).

(** An approved booking of room [rid] on day [d] whose interval
    [[start_time, end_time)] overlaps [[st, en)]. *)
Definition overlapping_approved (rid : nat) (d : date) (st en : time)
    (b : RoomBooking) : Prop :=
  room b = rid /\ booking_date b = d /\ status b = APPROVED
  /\ st < end_time b /\ en > start_time b.

(** Referential integrity of [RoomBooking.room] (a [PROTECT] foreign key):
    every booking references a row of the room table. *)
Definition rooms_referenced (db : DB) : Prop :=
  forall b, In b (bookings db) ->
    exists r, In r (rooms db) /\ room_id r = room b.

(** The database with the bookings that are not approved taken out. *)
Definition approved_only (db : DB) : DB :=
  {| rooms := rooms db;
     bookings := filter (fun b => BookingStatus_eqb (status b) APPROVED)
                   (bookings db);
     next_booking_id := next_booking_id db;
     leaves := leaves db;
     next_leave_id := next_leave_id db |}.

(** The primary keys handed out so far are below the counter. *)
Definition keys_below_counter (db : DB) : Prop :=
  forall b, In b (bookings db) -> (booking_id b < next_booking_id db)%nat.

(** A call answered with status 200. *)
Definition answered_200 (o : Outcome) : Prop :=
  exists r, o = Returned r /\ status_code r = 200%nat.

(** Between two versions of a booking, each approval flag is as it was or
    has been set. *)
Definition flags_kept_or_set (b b' : RoomBooking) : Prop :=
  (coordinator_approved b' = coordinator_approved b
   \/ coordinator_approved b' = true)
  /\ (hod_approved b' = hod_approved b \/ hod_approved b' = true).

(* ================================================================= *)
(** ** The other views of the two workflows, and the room administration *)

(** [queryset.order_by(...)]: the rows sorted by the order [le] of the
    listed columns; rows that agree on them keep the table's order. *)
Fixpoint insert_by {A} (le : A -> A -> bool) (x : A) (l : list A) : list A :=
  match l with
  | [] => [x]
  | y :: l' => if le x y then x :: y :: l' else y :: insert_by le x l'
  end.

Definition order_by {A} (le : A -> A -> bool) (l : list A) : list A :=
  fold_right (insert_by le) [] l.

(** The order of a nullable column, nulls first (SQLite). *)
Definition nullable_le (a b : option Z) : bool :=
  match a, b with
  | None, _ => true
  | Some _, None => false
  | Some x, Some y => x <=? y
  end.

(** [order_by('booking_date', 'start_time')]. *)
Definition by_date_then_start (a b : RoomBooking) : bool :=
  (booking_date a <? booking_date b)
  || ((booking_date a =? booking_date b) && (start_time a <=? start_time b)).

(** [order_by('-decision_at')]. *)
Definition by_decision_desc (a b : StudentLeave) : bool :=
  nullable_le (decision_at b) (decision_at a).

(** [order_by('-applied_at')]. *)
Definition by_applied_desc (a b : StudentLeave) : bool :=
  applied_at b <=? applied_at a.

(** What a listing view without ["id"] in its rows ends in: the rows it
    serialises, in order, or the outcome of its guard. *)
Inductive Listed (A : Type) :=
| Rows (rows : list A)
| Denied (o : Outcome).

Arguments Rows {A} rows.
Arguments Denied {A} o.

(** [def room_booking_log(request)]: the rows the view serialises; it has
    no guard and always answers 200. *)
Definition room_booking_log (db : DB) : list RoomBooking :=
  order_by by_date_then_start
    (filter (fun b => BookingStatus_eqb (status b) APPROVED) (bookings db)).

(** [def my_room_requests(request)]: no guard; the bookings whose
    [requested_by] is the user. *)
Definition my_room_requests (user : User) (db : DB) : Outcome :=
  Returned (mkResponse
              (listing (map booking_id
                 (filter (fun b => Nat.eqb (requested_by b) (user_id user))
                    (bookings db))))
              200).

Definition LeaveStatus_eqb (a b : LeaveStatus) : bool :=
  match a, b with
  | LEAVE_PENDING, LEAVE_PENDING
  | LEAVE_APPROVED, LEAVE_APPROVED
  | LEAVE_REJECTED, LEAVE_REJECTED => true
  | _, _ => false
  end.

(** [def leave_log(request)]: for a teacher who is batch coordinator or
    HOD, the approved leaves, latest decision first. *)
Definition leave_log (user : User) (db : DB) : Listed StudentLeave :=
  match not_teacher_with (fun t => is_batch_coordinator t || is_hod t) user with
  | inl e => Denied (Uncaught e)
  | inr true =>
      Denied (Returned
                (mkResponse
                   (error "Only Batch Coordinators or HOD can view leave log")
                   403))
  | inr false =>
      Rows (order_by by_decision_desc
              (filter (fun l => LeaveStatus_eqb (leave_status l) LEAVE_APPROVED)
                 (leaves db)))
  end.

(** [def my_leaves(request)]: a student's own leaves, latest application
    first. The profile is read after the role test and outside any [try]. *)
Definition my_leaves (user : User) (db : DB) : Outcome :=
  if negb (String.eqb (role user) "student") then
    Returned (mkResponse (error "Unauthorized") 403)
  else
    match get_student_profile user with
    | inl e => Uncaught e
    | inr sp =>
      Returned (mkResponse
                  (listing (map leave_id
                     (order_by by_applied_desc
                        (filter (fun l => String.eqb (leave_student l)
                                            (roll_number sp))
                           (leaves db)))))
                  200)
    end.

(** [def coordinator_leave_requests(request)]: the pending leaves of the
    coordinator's division. *)
Definition coordinator_leave_requests (user : User) (db : DB) : Outcome :=
  match not_teacher_with is_batch_coordinator user with
  | inl e => Uncaught e
  | inr true => Returned (mkResponse (error "Unauthorized") 403)
  | inr false =>
    match get_teacher_profile user with
    | inl e => Uncaught e
    | inr t =>
      let selected (l : StudentLeave) : bool :=
        LeaveStatus_eqb (leave_status l) LEAVE_PENDING
        && lookup String.eqb (Some (div_course (leave_division l)))
             (coordinator_course t)
        && lookup Z.eqb (Some (div_semester (leave_division l)))
             (coordinator_semester t)
        && lookup String.eqb (Some (div_division (leave_division l)))
             (coordinator_division t) in
      Returned (mkResponse
                  (listing (map leave_id (filter selected (leaves db))))
                  200)
    end
  end.

(** What [int()] raises on a value that is no number;
    [IntegerField.get_prep_value] raises it again under the same class. *)
Inductive IntError := ValueError | TypeError.

(** The exceptions that [room.save()] and [room.delete()] raise and
    [manage_room] does not catch: [int()] failing on the capacity; an
    integer that SQLite cannot bind; a NOT NULL, CHECK or UNIQUE constraint
    of the room table; a booking that protects the room. *)
Inductive UncaughtError :=
| Conversion (e : IntError)
| OverflowError
| IntegrityError
| ProtectedError.

(** What a [manage_room] call ends in. *)
Inductive AdminOutcome :=
| Answered (r : Response)
| Crashed (e : UncaughtError).

(** The methods [manage_room] accepts ([api_view(['PUT', 'DELETE'])]). *)
Inductive Method := PUT | DELETE.

(** A value of the body for ["capacity"] that is not null, as [int()]
    takes it: the integer, or the exception. *)
Definition IntValue : Type := (IntError + Z)%type.

(** [request.data] of a [PUT] on a room: for each key, no entry, a JSON
    null, or a value (for the two [CharField]s the string that is
    saved). *)
Record RoomData := mkRoomData {
  data_room_number : option (option string);
  data_capacity : option (option IntValue);
  data_room_type : option (option string)
}.

(** [IntegerField.get_prep_value]: [None] stays, any other value goes
    through [int()]. *)
Definition get_prep_value (value : option IntValue)
    : UncaughtError + option Z :=
  match value with
  | None => inr None
  | Some (inl e) => inl (Conversion e)
  | Some (inr z) => inr (Some z)
  end.

(** The integers SQLite stores, on 64 bits; the [sqlite3] module raises
    [OverflowError] when it is given another one as a parameter. *)
Definition sqlite_integer (z : Z) : bool := (- 2 ^ 63 <=? z) && (z <? 2 ^ 63).

(** [room.save()] of the fetched room of key [id], after the three
    assignments have left the Python values [number], [cap] and [type] in
    its fields. The values are prepared, then bound as parameters of the
    UPDATE, then the table's constraints are tested: the three columns are
    NOT NULL, [capacity] is a [PositiveIntegerField] and has the check
    [capacity >= 0], and [room_number] is [unique]. *)
Definition Room_save (id : nat) (number : option string)
    (cap : option IntValue) (type : option string) (db : DB)
    : UncaughtError + DB :=
  match get_prep_value cap with
  | inl e => inl e
  | inr cap =>
    if match cap with Some z => negb (sqlite_integer z) | None => false end
    then inl OverflowError
    else
      match number, cap, type with
      | Some n, Some z, Some t =>
          if (z <? 0)
             || existsb (fun x => negb (Nat.eqb (room_id x) id)
                                  && String.eqb (room_number x) n)
                  (rooms db)
          then inl IntegrityError
          else
            let r := mkRoom id n (Z.to_nat z) t in
            inr {| rooms := map (fun x => if Nat.eqb (room_id x) id
                                          then r else x) (rooms db);
                   bookings := bookings db;
                   next_booking_id := next_booking_id db;
                   leaves := leaves db;
                   next_leave_id := next_leave_id db |}
      | _, _, _ => inl IntegrityError
      end
  end.

(** [room.delete()]: [RoomBooking.room] is [on_delete=PROTECT], so the
    deletion fails while a booking references the room. *)
Definition Room_delete (r : Room) (db : DB) : UncaughtError + DB :=
  if existsb (fun b => Nat.eqb (room b) (room_id r)) (bookings db)
  then inl ProtectedError
  else inr {| rooms := filter (fun x => negb (Nat.eqb (room_id x) (room_id r)))
                         (rooms db);
              bookings := bookings db;
              next_booking_id := next_booking_id db;
              leaves := leaves db;
              next_leave_id := next_leave_id db |}.

(** [def manage_room(request, room_id)]. In [PUT], each field is assigned
    [request.data.get(key, room.field)]: the field as it is when the body
    has no such key, Python's [None] for a JSON null. *)
Definition manage_room (user : User) (method : Method) (data : RoomData)
    (id : nat) (db : DB) : AdminOutcome * DB :=
  if negb (String.eqb (role user) "admin") then
    (Answered (mkResponse (error "Only admin allowed") 403), db)
  else
    match Room_objects_get db id with
    | inl _ => (Answered (mkResponse (error "Room not found") 404), db)
    | inr rm =>
      match method with
      | PUT =>
        let number :=
          data_get_default (data_room_number data) (room_number rm) in
        let cap :=
          data_get_default (data_capacity data)
            (inr (Z.of_nat (capacity rm))) in
        let type := data_get_default (data_room_type data) (room_type rm) in
        match Room_save (room_id rm) number cap type db with
        | inl e => (Crashed e, db)
        | inr db' =>
            (Answered (mkResponse (message "Room updated successfully") 200),
             db')
        end
      | DELETE =>
        match Room_delete rm db with
        | inl e => (Crashed e, db)
        | inr db' =>
            (Answered (mkResponse (message "Room deleted successfully") 200),
             db')
        end
      end
    end.

(** The requests that write the three tables: those of the workflows and
    the room administration. *)
Inductive AnyRequest :=
| Workflow (r : Request)
| Manage_room (user : User) (method : Method) (data : RoomData) (id : nat).

Definition serve_any (db : DB) (r : AnyRequest) : DB :=
  match r with
  | Workflow r => serve db r
  | Manage_room user method data id => snd (manage_room user method data id db)
  end.

Definition serve_any_all (db : DB) (rs : list AnyRequest) : DB :=
  fold_left serve_any rs db.

(* ================================================================= *)
(** ** Model validation ([accounts/models.py]) and the promotion action
       ([accounts/admin.py]) *)

(** Truth value of a nullable [CharField] and of a nullable
    [IntegerField]: [None], the empty string and zero are false. *)
Definition truthy_str (s : option string) : bool :=
  match s with
  | Some s => negb (String.eqb s EmptyString)
  | None => false
  end.

Definition truthy_int (z : option Z) : bool :=
  match z with
  | Some z => negb (z =? 0)
  | None => false
  end.

(** [raise ValidationError(msg)], as [full_clean] files it. *)
Definition invalid {A} (msg : string) : M A :=
  raise (ValidationError [("__all__", [msg])]).

(** [Teacher.clean]. *)
Definition Teacher_clean (t : Teacher) : M unit :=
  _ <- (if is_batch_coordinator t then
          if negb (truthy_str (coordinator_course t)) then
            invalid "Batch Coordinator must have a course."
          else if negb (truthy_int (coordinator_semester t)) then
            invalid "Batch Coordinator must have a semester."
          else if negb (truthy_str (coordinator_division t)) then
            invalid "Batch Coordinator must have a division."
          else ret tt
        else
          if truthy_str (coordinator_course t)
             || truthy_int (coordinator_semester t)
             || truthy_str (coordinator_division t)
          then invalid
                 "Coordinator fields allowed only if teacher is Batch Coordinator."
          else ret tt) ;;
  if is_hod t && negb (truthy_str (hod_course t)) then
    invalid "HOD must be assigned a course."
  else if negb (is_hod t) && truthy_str (hod_course t) then
    invalid "Only HOD can have hod_course."
  else ret tt.

(** A row of the student table: the profile with the columns
    [Student.clean] and the promotion action read and write. *)
Record StudentRow := mkStudentRow {
  student_pk : nat;
  student_profile_of : Student;
  student_course : string;
  student_semester : Z
}.

(** [Student.clean]. *)
Definition Student_clean (s : StudentRow) : M unit :=
  if negb (student_semester s =? 1) then
    invalid "New students must be in Semester 1."
  else if negb (String.eqb
                  (div_course (student_division (student_profile_of s)))
                  (student_course s)) then
    invalid "Division course mismatch."
  else if negb (div_semester (student_division (student_profile_of s)) =? 1) then
    invalid "Division must be Semester 1."
  else ret tt.

(** The messages [promote_students] hands to [modeladmin.message_user],
    with the values its f-strings print. *)
Inductive AdminMessage :=
| Already_in_semester_4 (roll : string)
| Division_does_not_exist (letter : string) (next_semester : Z)
| Promoted_successfully (success_count : nat).

(** [Division.objects.get(course=..., semester=..., division=...)]; the
    triple is [unique_together]. *)
Definition Division_objects_get (divisions : list Division)
    (c : string) (s : Z) (l : string) : option Division :=
  find (fun d => String.eqb (div_course d) c && (div_semester d =? s)
                 && String.eqb (div_division d) l) divisions.

(** [student.save()] of a fetched row. *)
Definition StudentRow_save (s : StudentRow) (table : list StudentRow)
    : list StudentRow :=
  map (fun r => if Nat.eqb (student_pk r) (student_pk s) then s else r) table.

(** The state the loop of [promote_students] carries: the student table,
    the messages sent so far, and [success_count]. *)
Record Promotion := mkPromotion {
  table : list StudentRow;
  messages : list AdminMessage;
  success_count : nat
}.

(** One turn of [for student in queryset]. *)
Definition promote_one (divisions : list Division) (st : Promotion)
    (student : StudentRow) : Promotion :=
  if student_semester student >=? 4 then
    mkPromotion (table st)
      (messages st ++ [Already_in_semester_4
                         (roll_number (student_profile_of student))])
      (success_count st)
  else
    let next_semester := student_semester student + 1 in
    let letter := div_division (student_division (student_profile_of student)) in
    match Division_objects_get divisions (student_course student)
            next_semester letter with
    | None =>
        mkPromotion (table st)
          (messages st ++ [Division_does_not_exist letter next_semester])
          (success_count st)
    | Some next_division =>
        let student :=
          {| student_pk := student_pk student;
             student_profile_of :=
               {| roll_number := roll_number (student_profile_of student);
                  student_division := next_division |};
             student_course := student_course student;
             student_semester := next_semester |} in
        mkPromotion (StudentRow_save student (table st))
          (messages st) (S (success_count st))
    end.

(** [def promote_students(modeladmin, request, queryset)]: the student
    table and the messages after the action. *)
Definition promote_students (divisions : list Division)
    (queryset : list StudentRow) (students : list StudentRow)
    : list StudentRow * list AdminMessage :=
  let st := fold_left (promote_one divisions) queryset
              (mkPromotion students [] 0) in
  (table st,
   match success_count st with
   | O => messages st
   | S _ => (messages st ++ [Promoted_successfully (success_count st)])%list
   end).

(* ================================================================= *)
(** ** Consistency of the tables *)

(** The primary keys of the leaves handed out so far are below the
    counter. *)
Definition leave_keys_below_counter (db : DB) : Prop :=
  forall l, In l (leaves db) -> (leave_id l < next_leave_id db)%nat.

(** Primary keys are unique and below their counters, and every booking
    references a room that exists. *)
Definition tables_consistent (db : DB) : Prop :=
  keys_below_counter db
  /\ NoDup (map booking_id (bookings db))
  /\ leave_keys_below_counter db
  /\ NoDup (map leave_id (leaves db))
  /\ rooms_referenced db.

(** What the status of a booking says about its other columns. *)
Definition position_consistent (b : RoomBooking) : Prop :=
  match status b with
  | PENDING_COORDINATOR =>
      division b <> None
      /\ coordinator_approved b = false /\ hod_approved b = false
  | PENDING_HOD => coordinator_approved b = true \/ division b = None
  | APPROVED => hod_approved b = true
  | REJECTED => True
  end.

(** What holds of every stored leave. A decided leave may have a null
    remark (the decision's body had a JSON null for it), a pending one
    has no other. *)
Definition leave_consistent (l : StudentLeave) : Prop :=
  from_date l <= to_date l
  /\ reason l <> EmptyString
  /\ (leave_status l = LEAVE_PENDING <-> decision_at l = None)
  /\ (leave_status l = LEAVE_PENDING -> coordinator_remark l = None).

(** Two versions of a booking that differ at most in the status and the
    approval flags. *)
Definition same_request (b b' : RoomBooking) : Prop :=
  booking_id b' = booking_id b /\ room b' = room b
  /\ requested_by b' = requested_by b /\ division b' = division b
  /\ purpose b' = purpose b /\ booking_date b' = booking_date b
  /\ start_time b' = start_time b /\ end_time b' = end_time b
  /\ created_at b' = created_at b.

(** Two versions of a leave that differ at most in the status, the remark
    and the decision time. *)
Definition same_application (l l' : StudentLeave) : Prop :=
  leave_id l' = leave_id l /\ leave_student l' = leave_student l
  /\ leave_division l' = leave_division l /\ reason l' = reason l
  /\ from_date l' = from_date l /\ to_date l' = to_date l
  /\ document l' = document l /\ applied_at l' = applied_at l.

(** Room keys and room numbers are unique. *)
Definition rooms_unique (db : DB) : Prop :=
  NoDup (map room_id (rooms db)) /\ NoDup (map room_number (rooms db)).

(** The order of [order_by('booking_date', 'start_time')], as a
    relation. *)
Definition date_then_start (a b : RoomBooking) : Prop :=
  booking_date a < booking_date b
  \/ (booking_date a = booking_date b /\ start_time a <= start_time b).

(** The order of [order_by('-decision_at')], as a relation: [a] was
    decided no earlier than [b]; a leave without decision time comes
    last. *)
Definition latest_decision_first (a b : StudentLeave) : Prop :=
  match decision_at b, decision_at a with
  | None, _ => True
  | Some _, None => False
  | Some x, Some y => x <= y
  end.

(** The order of [order_by('-applied_at')], as a relation. *)
Definition latest_application_first (a b : StudentLeave) : Prop :=
  applied_at b <= applied_at a.

(** The coordinator scope of a teacher is exactly the division. *)
Definition scope_is (t : Teacher) (dv : Division) : Prop :=
  coordinator_course t = Some (div_course dv)
  /\ coordinator_semester t = Some (div_semester dv)
  /\ coordinator_division t = Some (div_division dv).

(** The ids a listing view answers with: [ids] when the answer is a 200
    listing. *)
Definition lists (o : Outcome) (ids : list nat) : Prop :=
  o = Returned (mkResponse (listing ids) 200).

(** The division letter of a student row. *)
Definition student_letter (s : StudentRow) : string :=
  div_division (student_division (student_profile_of s)).

(** The student is below semester 4 and the division of the next
    semester, same course and letter, exists. *)
Definition promotable (divisions : list Division) (s : StudentRow) : bool :=
  negb (student_semester s >=? 4)
  && match Division_objects_get divisions (student_course s)
             (student_semester s + 1) (student_letter s) with
     | Some _ => true
     | None => false
     end.

(** The message for a student who is not promoted. *)
Definition skip_message (s : StudentRow) : AdminMessage :=
  if student_semester s >=? 4
  then Already_in_semester_4 (roll_number (student_profile_of s))
  else Division_does_not_exist (student_letter s) (student_semester s + 1).

(** Row [r] is row [s] promoted: one semester up, in a division of the
    table that has the student's course, the new semester and the old
    letter; key, roll number and course as before. *)
Definition promoted_from (divisions : list Division) (s r : StudentRow)
    : Prop :=
  student_pk r = student_pk s
  /\ roll_number (student_profile_of r) = roll_number (student_profile_of s)
  /\ student_course r = student_course s
  /\ student_semester s < 4
  /\ student_semester r = student_semester s + 1
  /\ In (student_division (student_profile_of r)) divisions
  /\ div_course (student_division (student_profile_of r)) = student_course s
  /\ div_semester (student_division (student_profile_of r))
     = student_semester r
  /\ student_letter r = student_letter s.

(* ================================================================= *)
(** ** Sample data *)

(** Times are minutes after midnight, dates are day ordinals
    (738893 is 2024-01-08, 738895 is 2024-01-10). *)
Definition room_R : Room := mkRoom 1 "R" 40 "lab".

Definition MCA_1_A : Division := mkDivision 1 "MCA" 1 "A".
Definition MCA_1_B : Division := mkDivision 2 "MCA" 1 "B".

Definition student_A : User :=
  mkUser 10 "asha" "student" None (Some (mkStudent "MCA-01" MCA_1_A)).

Definition student_B : User :=
  mkUser 11 "bala" "student" None (Some (mkStudent "MCA-02" MCA_1_B)).

Definition plain_teacher : User :=
  mkUser 20 "tara" "teacher"
    (Some (mkTeacher false None None None false None)) None.

Definition coordinator_A : User :=
  mkUser 21 "chitra" "teacher"
    (Some (mkTeacher true (Some "MCA") (Some 1) (Some "A") false None)) None.

Definition hod_MCA : User :=
  mkUser 22 "hari" "teacher"
    (Some (mkTeacher false None None None true (Some "MCA"))) None.

Definition hod_MMS : User :=
  mkUser 23 "mala" "teacher"
    (Some (mkTeacher false None None None true (Some "MMS"))) None.

Definition admin_user : User := mkUser 1 "root" "admin" None None.

Definition day_D : date := 738895.

(** A database with room R and no booking or leave. *)
Definition db_empty : DB := mkDB [room_R] [] 1 [] 1.

(** A booking of room R on day D with the given requester, division,
    interval and workflow position. *)
Definition sample_booking (id who : nat) (dv : option Division)
    (st en : time) (s : BookingStatus) (c h : bool) : RoomBooking :=
  mkRoomBooking id 1 who dv "seminar" day_D st en s c h 0.

(** Room R is approved for 10:00-11:00 on day D (a teacher's request). *)
Definition db_approved : DB :=
  mkDB [room_R] [sample_booking 1 20 None 600 660 APPROVED false true] 2 [] 1.

(** A student of division (MCA, 1, B) has asked for room R; the request
    waits for the coordinator. *)
Definition db_pending_B : DB :=
  mkDB [room_R]
    [sample_booking 1 11 (Some MCA_1_B) 600 660 PENDING_COORDINATOR false false]
    2 [] 1.

(** The same request after the coordinator's approval: it waits for the
    HOD. *)
Definition db_pending_hod_B : DB :=
  mkDB [room_R]
    [sample_booking 1 11 (Some MCA_1_B) 600 660 PENDING_HOD true false]
    2 [] 1.

(** The request of a student of division (MCA, 1, A) for room R, in the
    given workflow position. *)
Definition db_request_A (s : BookingStatus) (c h : bool) : DB :=
  mkDB [room_R] [sample_booking 1 10 (Some MCA_1_A) 600 660 s c h] 2 [] 1.

(** A leave of a student of (MCA, 1, A), in the given position. *)
Definition sample_leave (s : LeaveStatus) (remark : option string)
    (decided : option datetime) : StudentLeave :=
  mkStudentLeave 1 "MCA-01" MCA_1_A "fever" 738893 738895 None s remark
    50 decided.

Definition db_leave (l : StudentLeave) : DB := mkDB [room_R] [] 1 [l] 2.

(** The division table and two rows of the student table: student A in
    (MCA, 1, A), whose next division exists, and student B in (MCA, 1, B),
    whose next division does not. *)
Definition MCA_2_A : Division := mkDivision 3 "MCA" 2 "A".

Definition division_table : list Division := [MCA_1_A; MCA_1_B; MCA_2_A].

Definition row_A : StudentRow :=
  mkStudentRow 1 (mkStudent "MCA-01" MCA_1_A) "MCA" 1.

Definition row_B : StudentRow :=
  mkStudentRow 2 (mkStudent "MCA-02" MCA_1_B) "MCA" 1.

(* ================================================================= *)
(** ** Basic facts *)

Lemma BookingStatus_eqb_eq (a b : BookingStatus) :
  BookingStatus_eqb a b = true <-> a = b.
Proof. destruct a, b; simpl; split; congruence. Qed.

Lemma clash_filter_spec (rm : Room) (d : date) (st en : time) (b : RoomBooking) :
  clash_filter rm d st en b = true <->
  overlapping_approved (room_id rm) d st en b.
Proof.
  unfold clash_filter, overlapping_approved.
  rewrite !andb_true_iff, Nat.eqb_eq, Z.eqb_eq, BookingStatus_eqb_eq,
    Z.ltb_lt, Z.gtb_lt.
  intuition lia.
Qed.

Lemma clash_exists_spec (db : DB) (rm : Room) (d : date) (st en : time) :
  clash_exists db rm d st en = true <->
  exists b, In b (bookings db) /\ overlapping_approved (room_id rm) d st en b.
Proof.
  unfold clash_exists. rewrite existsb_exists.
  split; intros [b [Hin H]]; exists b; split; auto;
    now apply clash_filter_spec.
Qed.

Lemma clash_exists_approved_only (db : DB) (rm : Room) (d : date) (st en : time) :
  clash_exists (approved_only db) rm d st en = clash_exists db rm d st en.
Proof.
  unfold clash_exists, approved_only; simpl.
  induction (bookings db) as [|b l IH]; simpl; [reflexivity|].
  destruct (BookingStatus_eqb (status b) APPROVED) eqn:E; simpl.
  - now rewrite IH.
  - rewrite IH. unfold clash_filter at 2. rewrite E.
    now rewrite !andb_false_r, ?andb_false_l.
Qed.

Lemma Room_objects_get_inr (db : DB) (id : nat) (rm : Room) :
  Room_objects_get db id = inr rm -> In rm (rooms db) /\ room_id rm = id.
Proof.
  unfold Room_objects_get.
  destruct (find _ (rooms db)) as [r|] eqn:E; [|discriminate].
  intros H; injection H as <-.
  apply find_some in E. now rewrite Nat.eqb_eq in E.
Qed.

Lemma Room_objects_get_found (db : DB) (r : Room) :
  In r (rooms db) -> exists rm, Room_objects_get db (room_id r) = inr rm.
Proof.
  intros Hin. unfold Room_objects_get.
  destruct (find _ (rooms db)) as [rm|] eqn:E; [now exists rm|].
  apply (find_none _ _ E) in Hin. now rewrite Nat.eqb_refl in Hin.
Qed.

(** [request_room] on complete data for a room that exists. *)
Lemma request_room_found now user db rid rm d st en p :
  Room_objects_get db rid = inr rm ->
  request_room now user (booking_data rid d st en p) db =
  if clash_exists db rm d st en then (Conflict, db)
  else if String.eqb (role user) "student" then
    match student_profile user with
    | Some sp =>
        (mkResponse (message "Room request sent to Batch Coordinator") 201,
         RoomBooking_objects_create now db rm user
           (Some (student_division sp)) p d st en PENDING_COORDINATOR)
    | None => (mkResponse (error "User has no student_profile.") 400, db)
    end
  else if String.eqb (role user) "teacher" then
    (mkResponse (message "Room request sent to HOD") 201,
     RoomBooking_objects_create now db rm user None p d st en PENDING_HOD)
  else (Invalid_role, db).
Proof.
  intros Hrm. unfold request_room, booking_data; simpl. rewrite Hrm; simpl.
  destruct (clash_exists db rm d st en); [reflexivity|].
  destruct (String.eqb (role user) "student").
  - unfold get_student_profile. now destruct (student_profile user).
  - now destruct (String.eqb (role user) "teacher").
Qed.

(** [request_room] on complete data for a room that does not exist. *)
Lemma request_room_not_found now user db rid d st en p :
  Room_objects_get db rid = inl Room_DoesNotExist ->
  request_room now user (booking_data rid d st en p) db =
  (mkResponse (error "Room not found") 404, db).
Proof.
  intros Hrm. unfold request_room, booking_data; simpl. now rewrite Hrm.
Qed.

Lemma Room_objects_get_cases (db : DB) (id : nat) :
  (exists rm, Room_objects_get db id = inr rm) \/
  Room_objects_get db id = inl Room_DoesNotExist.
Proof.
  unfold Room_objects_get. destruct (find _ (rooms db)); eauto.
Qed.

Section ClashCheck.

Variables (now : datetime) (user : User) (db : DB).
Variables (rid : nat) (d : date) (st en : time) (p : string).

Let data := booking_data rid d st en p.

(** C1. On a database whose bookings reference existing rooms,
    [request_room] answers with the clash response exactly when some
    APPROVED booking of the same room and date overlaps the requested
    half-open interval ([st < end2] and [en > start2]); the response is
    the same when every booking that is not APPROVED is taken out of the
    table; and a student (with a profile) or a teacher asking for an
    existing room whose approved bookings of that day all end at or
    before [st] or begin at or after [en] gets the booking created. *)
Theorem request_room_conflict_iff_approved_overlap
    (Hfk : rooms_referenced db) :
  (fst (request_room now user data db) = Conflict <->
   exists b, In b (bookings db) /\ overlapping_approved rid d st en b)
  /\ fst (request_room now user data (approved_only db)) =
     fst (request_room now user data db)
  /\ ((exists r, In r (rooms db) /\ room_id r = rid) ->
      (role user = "teacher" \/
       role user = "student" /\ student_profile user <> None) ->
      (forall b, In b (bookings db) ->
         room b = rid -> booking_date b = d -> status b = APPROVED ->
         end_time b <= st \/ en <= start_time b) ->
      status_code (fst (request_room now user data db)) = 201%nat
      /\ exists b, bookings (snd (request_room now user data db)) =
                   (bookings db ++ [b])%list
                   /\ start_time b = st /\ end_time b = en).
Proof.
  subst data. split; [|split].
  - destruct (Room_objects_get_cases db rid) as [[rm Hrm]|Hno].
    + rewrite (request_room_found now user db rid rm d st en p Hrm).
      destruct (Room_objects_get_inr _ _ _ Hrm) as [_ Hid].
      rewrite <- Hid, <- clash_exists_spec.
      destruct (clash_exists db rm d st en); simpl.
      * tauto.
      * split; [|discriminate]. intros H; exfalso; revert H.
        destruct (String.eqb (role user) "student");
          [destruct (student_profile user)|
           destruct (String.eqb (role user) "teacher")];
          simpl; discriminate.
    + rewrite (request_room_not_found now user db rid d st en p Hno); simpl.
      split; [discriminate|].
      intros [b [Hin [Hroom _]]]. exfalso.
      destruct (Hfk b Hin) as [r [Hr Hrid]].
      destruct (Room_objects_get_found db r Hr) as [rm Hrm].
      rewrite Hrid, Hroom in Hrm. congruence.
  - destruct (Room_objects_get_cases db rid) as [[rm Hrm]|Hno].
    + assert (Hrm' : Room_objects_get (approved_only db) rid = inr rm)
        by exact Hrm.
      rewrite (request_room_found now user db rid rm d st en p Hrm).
      rewrite (request_room_found now user _ rid rm d st en p Hrm').
      rewrite clash_exists_approved_only.
      destruct (clash_exists db rm d st en); [reflexivity|].
      destruct (String.eqb (role user) "student");
        [destruct (student_profile user)|
         destruct (String.eqb (role user) "teacher")]; reflexivity.
    + assert (Hno' : Room_objects_get (approved_only db) rid
                     = inl Room_DoesNotExist) by exact Hno.
      rewrite (request_room_not_found now user db rid d st en p Hno).
      now rewrite (request_room_not_found now user _ rid d st en p Hno').
  - intros [r [Hr Hrid]] Hrole Hfree.
    destruct (Room_objects_get_found db r Hr) as [rm Hrm].
    rewrite Hrid in Hrm.
    rewrite (request_room_found now user db rid rm d st en p Hrm).
    destruct (Room_objects_get_inr _ _ _ Hrm) as [_ Hid].
    destruct (clash_exists db rm d st en) eqn:Hclash.
    + exfalso. apply clash_exists_spec in Hclash.
      destruct Hclash as [b [Hin [H1 [H2 [H3 [H4 H5]]]]]].
      rewrite Hid in H1. destruct (Hfree b Hin H1 H2 H3); lia.
    + destruct Hrole as [Ht|[Hs Hsp]].
      * rewrite Ht; simpl. split; [reflexivity|]. eexists; split;
          [reflexivity|]. now simpl.
      * rewrite Hs; simpl. destruct (student_profile user) as [sp|];
          [|congruence]. simpl. split; [reflexivity|]. eexists; split;
          [reflexivity|]. now simpl.
Qed.

End ClashCheck.

Lemma rooms_referenced_db_approved : rooms_referenced db_approved.
Proof.
  intros b [<-|[]]. exists room_R. split; [now left|reflexivity].
Qed.

(** The spec's clash example, on the sample data: with room R approved for
    10:00-11:00, a student's request for 10:30-11:30 gets the clash
    response and one for 11:00-12:00 is created. *)
Lemma request_room_conflict_iff_approved_overlap_witness :
  rooms_referenced db_approved
  /\ fst (request_room 5 student_A (booking_data 1 day_D 630 690 "club") db_approved)
     = Conflict
  /\ status_code
       (fst (request_room 5 student_A (booking_data 1 day_D 660 720 "club")
               db_approved)) = 201%nat.
Proof.
  split; [exact rooms_referenced_db_approved|]. split.
  - destruct (request_room_conflict_iff_approved_overlap 5 student_A
                db_approved 1 day_D 630 690 "club"
                rooms_referenced_db_approved) as [Hiff _].
    apply Hiff.
    exists (sample_booking 1 20 None 600 660 APPROVED false true).
    split; [now left|]. unfold overlapping_approved; simpl.
    repeat split; reflexivity.
  - destruct (request_room_conflict_iff_approved_overlap 5 student_A
                db_approved 1 day_D 660 720 "club"
                rooms_referenced_db_approved) as [_ [_ Hfree]].
    apply Hfree.
    + exists room_R. split; [now left|reflexivity].
    + right. split; [reflexivity|discriminate].
    + intros b [<-|[]] _ _ _. left. simpl. lia.
Defined.

Section Creation.

Variables (now : datetime) (user : User) (data : BookingData) (db : DB).

(** What a [request_room] call comes to: either a creation, answered
    with 201, by a student (with the division of the profile, for the
    coordinator) or by a teacher (without division, for the HOD); or an
    answer other than 201 with the database as it was. *)
Lemma request_room_cases :
  (exists m rm dv p d st en s,
     request_room now user data db =
     (mkResponse (message m) 201,
      RoomBooking_objects_create now db rm user dv p d st en s)
     /\ (role user = "student"
         /\ (exists sp, student_profile user = Some sp
                        /\ dv = Some (student_division sp))
         /\ s = PENDING_COORDINATOR
         \/ role user = "teacher" /\ dv = None /\ s = PENDING_HOD))
  \/ (snd (request_room now user data db) = db
      /\ status_code (fst (request_room now user data db)) <> 201%nat).
Proof.
  unfold request_room.
  destruct data as [orid od ost oen op]; simpl.
  destruct orid as [rid|]; simpl; [|right; split; [reflexivity|discriminate]].
  destruct (Room_objects_get db rid) as [e|rm]; simpl;
    [right; destruct e; split; (reflexivity || discriminate)|].
  destruct od as [d|]; simpl; [|right; split; [reflexivity|discriminate]].
  destruct ost as [st|]; simpl; [|right; split; [reflexivity|discriminate]].
  destruct oen as [en|]; simpl; [|right; split; [reflexivity|discriminate]].
  destruct (clash_exists db rm d st en); simpl;
    [right; split; [reflexivity|discriminate]|].
  destruct (String.eqb (role user) "student") eqn:Hs; simpl.
  - unfold get_student_profile.
    destruct (student_profile user) as [sp|]; simpl;
      [|right; split; [reflexivity|discriminate]].
    destruct op as [p|]; simpl; [|right; split; [reflexivity|discriminate]].
    left. apply String.eqb_eq in Hs.
    do 8 eexists. split; [reflexivity|]. left. eauto.
  - destruct (String.eqb (role user) "teacher") eqn:Ht; simpl;
      [|right; split; [reflexivity|discriminate]].
    destruct op as [p|]; simpl; [|right; split; [reflexivity|discriminate]].
    left. apply String.eqb_eq in Ht.
    do 8 eexists. split; [reflexivity|]. right. eauto.
Qed.

(** C6. A [request_room] call answered with 201 has appended exactly one
    booking, with both approval flags false; the requester is a teacher
    or a student; for a teacher the booking is in PENDING_HOD with no
    division, for a student it is in PENDING_COORDINATOR with the
    division of the student's profile. *)
Theorem request_room_initial_state (resp : Response) (db' : DB) :
  request_room now user data db = (resp, db') ->
  status_code resp = 201%nat ->
  exists b,
    bookings db' = (bookings db ++ [b])%list
    /\ coordinator_approved b = false /\ hod_approved b = false
    /\ (role user = "teacher" \/ role user = "student")
    /\ (role user = "teacher" ->
        status b = PENDING_HOD /\ division b = None)
    /\ (role user = "student" ->
        status b = PENDING_COORDINATOR
        /\ exists sp, student_profile user = Some sp
                      /\ division b = Some (student_division sp)).
Proof.
  intros Hrun H201.
  destruct request_room_cases
    as [(m & rm & dv & p & d & st & en & s & Heq & Hrole)|[_ Hne]].
  - rewrite Heq in Hrun. injection Hrun as <- <-.
    eexists. split; [reflexivity|]. simpl.
    destruct Hrole as [(Hr & (sp & Hsp & ->) & ->)|(Hr & -> & ->)];
      rewrite Hr; (split; [reflexivity|]); (split; [reflexivity|]);
      (split; [auto|]); split; try discriminate.
    + intros _. split; [reflexivity|]. now exists sp.
    + intros _. now split.
  - rewrite Hrun in Hne. simpl in Hne. contradiction.
Qed.

(** C8, as the code has it. For a requester whose role is neither
    student nor teacher, [request_room] creates nothing and leaves the
    database as it was; the clash check comes before the role test, so on
    complete data for an existing room the response is the clash response
    when an approved booking overlaps the slot, and the invalid-role
    response otherwise. *)
Theorem request_room_other_role :
  role user <> "student" -> role user <> "teacher" ->
  snd (request_room now user data db) = db
  /\ forall rid d st en p,
       data = booking_data rid d st en p ->
       (exists r, In r (rooms db) /\ room_id r = rid) ->
       ((exists b, In b (bookings db) /\ overlapping_approved rid d st en b) ->
        fst (request_room now user data db) = Conflict)
       /\ (~ (exists b, In b (bookings db)
                        /\ overlapping_approved rid d st en b) ->
           fst (request_room now user data db) = Invalid_role).
Proof.
  intros Hs Ht. apply String.eqb_neq in Hs, Ht. split.
  - destruct request_room_cases
      as [(m & rm & dv & p & d & st & en & s & _ & Hrole)|[H _]];
      [|exact H].
    apply String.eqb_neq in Hs, Ht.
    destruct Hrole as [(Hr & _)|(Hr & _)]; contradiction.
  - intros rid d st en p -> [r [Hr Hrid]].
    destruct (Room_objects_get_found db r Hr) as [rm Hrm].
    rewrite Hrid in Hrm.
    rewrite (request_room_found now user db rid rm d st en p Hrm).
    destruct (Room_objects_get_inr _ _ _ Hrm) as [_ Hid].
    rewrite <- Hid, <- clash_exists_spec.
    destruct (clash_exists db rm d st en); simpl.
    + split; [reflexivity|]. intros H; now contradiction H.
    + split; [discriminate|]. now rewrite Hs, Ht.
Qed.

End Creation.

(** The two hypotheses and the conclusion of C6 on the sample data: a
    student's and a teacher's request for the free room R. *)
Lemma request_room_initial_state_witness :
  (exists b,
     bookings (snd (request_room 5 student_A
                      (booking_data 1 day_D 600 660 "club") db_empty)) = [b]
     /\ status b = PENDING_COORDINATOR /\ division b = Some MCA_1_A
     /\ coordinator_approved b = false /\ hod_approved b = false)
  /\ (exists b,
     bookings (snd (request_room 5 plain_teacher
                      (booking_data 1 day_D 600 660 "talk") db_empty)) = [b]
     /\ status b = PENDING_HOD /\ division b = None
     /\ coordinator_approved b = false /\ hod_approved b = false).
Proof.
  split.
  - destruct (request_room_initial_state 5 student_A
                (booking_data 1 day_D 600 660 "club") db_empty
                (mkResponse (message "Room request sent to Batch Coordinator") 201)
                (snd (request_room 5 student_A
                        (booking_data 1 day_D 600 660 "club") db_empty))
                eq_refl eq_refl)
      as (b & Hb & Hc & Hh & _ & _ & Hs).
    destruct (Hs eq_refl) as (Hst & sp & Hsp & Hdv).
    exists b. injection Hsp as <-. auto.
  - destruct (request_room_initial_state 5 plain_teacher
                (booking_data 1 day_D 600 660 "talk") db_empty
                (mkResponse (message "Room request sent to HOD") 201)
                (snd (request_room 5 plain_teacher
                        (booking_data 1 day_D 600 660 "talk") db_empty))
                eq_refl eq_refl)
      as (b & Hb & Hc & Hh & _ & Ht & _).
    destruct (Ht eq_refl) as (Hst & Hdv).
    exists b. auto.
Defined.

(** C8 as stated fails: with room R approved for 10:00-11:00, an admin's
    request for 10:30-11:30 is answered with the clash response, not with
    the invalid-role response (nor with a 403). *)
Lemma request_room_admin_gets_conflict :
  role admin_user <> "student" /\ role admin_user <> "teacher"
  /\ fst (request_room 5 admin_user (booking_data 1 day_D 630 690 "party")
            db_approved) = Conflict
  /\ Conflict <> Invalid_role
  /\ status_code Conflict <> 403%nat
  /\ ~ (forall now user data db,
          role user <> "student" -> role user <> "teacher" ->
          fst (request_room now user data db) <> Conflict).
Proof.
  repeat split; try discriminate.
  intros H.
  apply (H 5 admin_user (booking_data 1 day_D 630 690 "party") db_approved);
    (discriminate || reflexivity).
Qed.

(** The hypotheses and the conclusion of the amended C8 on the sample
    data: the admin's clashing request, and the admin's request for the
    free slot 11:00-12:00. *)
Lemma request_room_other_role_witness :
  snd (request_room 5 admin_user (booking_data 1 day_D 660 720 "party")
         db_approved) = db_approved
  /\ fst (request_room 5 admin_user (booking_data 1 day_D 660 720 "party")
            db_approved) = Invalid_role.
Proof.
  destruct (request_room_other_role 5 admin_user
              (booking_data 1 day_D 660 720 "party") db_approved)
    as [Hdb Hresp]; [discriminate|discriminate|].
  split; [exact Hdb|].
  apply (Hresp 1%nat day_D 660 720 "party" eq_refl).
  - exists room_R. split; [now left|reflexivity].
  - intros (b & [<-|[]] & (_ & _ & _ & H & _)). simpl in H. lia.
Defined.

(* ================================================================= *)
(** ** Fetching and saving rows *)

Section Rows.

Variables (A : Type) (key : A -> nat).

Let has (i : nat) (r : A) : bool := Nat.eqb (key r) i.

(** [UPDATE ... WHERE id = key row]. *)
Let replace (row : A) (r : A) : A := if has (key row) r then row else r.

Lemma find_replace_same (row : A) (l : list A) (r : A) :
  find (has (key row)) l = Some r ->
  find (has (key row)) (map (replace row) l) = Some row.
Proof.
  unfold replace, has.
  induction l as [|x l IH]; simpl; [discriminate|].
  destruct (Nat.eqb (key x) (key row)) eqn:E; simpl.
  - intros _. now rewrite Nat.eqb_refl.
  - now rewrite E.
Qed.

Lemma find_replace_other (row : A) (i : nat) (l : list A) :
  i <> key row ->
  find (has i) (map (replace row) l) = find (has i) l.
Proof.
  intros Hi. unfold replace, has.
  induction l as [|x l IH]; simpl; [reflexivity|].
  destruct (Nat.eqb (key x) (key row)) eqn:E; simpl.
  - apply Nat.eqb_eq in E.
    assert (H1 : Nat.eqb (key row) i = false)
      by (apply Nat.eqb_neq; congruence).
    assert (H2 : Nat.eqb (key x) i = false)
      by (apply Nat.eqb_neq; congruence).
    now rewrite H1, H2, IH.
  - now rewrite IH.
Qed.

Lemma find_existsb (i : nat) (l : list A) (r : A) :
  find (has i) l = Some r -> existsb (has i) l = true.
Proof.
  intros H. apply find_some in H. apply existsb_exists. now exists r.
Qed.

Lemma find_app_some (i : nat) (l l' : list A) (r : A) :
  find (has i) l = Some r -> find (has i) (l ++ l') = Some r.
Proof.
  induction l as [|x l IH]; simpl; [discriminate|].
  destruct (has i x); auto.
Qed.

Lemma find_app_other (i : nat) (l : list A) (row : A) :
  i <> key row -> find (has i) (l ++ [row]) = find (has i) l.
Proof.
  intros Hi. induction l as [|x l IH]; simpl.
  - unfold has. apply not_eq_sym, Nat.eqb_neq in Hi. now rewrite Hi.
  - now rewrite IH.
Qed.

Lemma find_app_fresh (i : nat) (l l' : list A) :
  (forall r, In r l -> key r <> i) ->
  find (has i) (l ++ l') = find (has i) l'.
Proof.
  unfold has. induction l as [|x l IH]; simpl; intros Hl; [reflexivity|].
  assert (E : Nat.eqb (key x) i = false) by (apply Nat.eqb_neq; auto).
  rewrite E. auto.
Qed.

Lemma find_key (i : nat) (l : list A) (r : A) :
  find (has i) l = Some r -> In r l /\ key r = i.
Proof.
  intros H. apply find_some in H. unfold has in H.
  now rewrite Nat.eqb_eq in H.
Qed.

End Rows.

Lemma RoomBooking_objects_get_inr (db : DB) (id : nat) (b : RoomBooking) :
  RoomBooking_objects_get db id = inr b ->
  find (fun r => Nat.eqb (booking_id r) id) (bookings db) = Some b
  /\ In b (bookings db) /\ booking_id b = id.
Proof.
  unfold RoomBooking_objects_get.
  destruct (find _ (bookings db)) as [r|] eqn:E; [|discriminate].
  intros H; injection H as <-. split; [reflexivity|].
  exact (find_key _ booking_id id (bookings db) r E).
Qed.

(** A saved booking is what a later fetch of its key returns. *)
Lemma RoomBooking_get_save_same (db : DB) (id : nat) (b b' : RoomBooking) :
  RoomBooking_objects_get db id = inr b -> booking_id b' = id ->
  RoomBooking_objects_get (RoomBooking_save b' db) id = inr b'.
Proof.
  intros Hget Hid. apply RoomBooking_objects_get_inr in Hget.
  destruct Hget as [Hfind _]. subst id.
  unfold RoomBooking_objects_get, RoomBooking_save; simpl.
  rewrite (find_existsb _ booking_id _ _ b Hfind).
  now rewrite (find_replace_same _ booking_id b' (bookings db) b Hfind).
Qed.

(** Saving a booking leaves the fetch of every other key as it was. *)
Lemma RoomBooking_get_save_other (db : DB) (id : nat) (b' : RoomBooking) :
  id <> booking_id b' ->
  RoomBooking_objects_get (RoomBooking_save b' db) id =
  RoomBooking_objects_get db id.
Proof.
  intros Hid. unfold RoomBooking_objects_get, RoomBooking_save; simpl.
  destruct (existsb _ (bookings db)).
  - now rewrite (find_replace_other _ booking_id b' id (bookings db) Hid).
  - now rewrite (find_app_other _ booking_id id (bookings db) b' Hid).
Qed.

Lemma StudentLeave_objects_get_inr (db : DB) (id : nat) (l : StudentLeave) :
  StudentLeave_objects_get db id = inr l ->
  find (fun r => Nat.eqb (leave_id r) id) (leaves db) = Some l
  /\ In l (leaves db) /\ leave_id l = id.
Proof.
  unfold StudentLeave_objects_get.
  destruct (find _ (leaves db)) as [r|] eqn:E; [|discriminate].
  intros H; injection H as <-. split; [reflexivity|].
  exact (find_key _ leave_id id (leaves db) r E).
Qed.

(** A saved leave is what a later fetch of its key returns. *)
Lemma StudentLeave_get_save_same (db : DB) (id : nat) (l l' : StudentLeave) :
  StudentLeave_objects_get db id = inr l -> leave_id l' = id ->
  StudentLeave_objects_get (StudentLeave_save l' db) id = inr l'.
Proof.
  intros Hget Hid. apply StudentLeave_objects_get_inr in Hget.
  destruct Hget as [Hfind _]. subst id.
  unfold StudentLeave_objects_get, StudentLeave_save; simpl.
  rewrite (find_existsb _ leave_id _ _ l Hfind).
  now rewrite (find_replace_same _ leave_id l' (leaves db) l Hfind).
Qed.

(** Saving a leave leaves the fetch of every other key as it was. *)
Lemma StudentLeave_get_save_other (db : DB) (id : nat) (l' : StudentLeave) :
  id <> leave_id l' ->
  StudentLeave_objects_get (StudentLeave_save l' db) id =
  StudentLeave_objects_get db id.
Proof.
  intros Hid. unfold StudentLeave_objects_get, StudentLeave_save; simpl.
  destruct (existsb _ (leaves db)).
  - now rewrite (find_replace_other _ leave_id l' id (leaves db) Hid).
  - now rewrite (find_app_other _ leave_id id (leaves db) l' Hid).
Qed.

(* ================================================================= *)
(** ** Decisions on bookings *)

Lemma action_is_true (action : option string) (s : string) :
  action_is action s = true <-> action = Some s.
Proof.
  destruct action as [a|]; simpl.
  - rewrite String.eqb_eq. split; congruence.
  - split; discriminate.
Qed.

Lemma action_is_false (action : option string) (s : string) :
  action <> Some s -> action_is action s = false.
Proof.
  intros H. destruct (action_is action s) eqn:E; [|reflexivity].
  apply action_is_true in E. contradiction.
Qed.

(** The guard lets a teacher through exactly when the flag is set. *)
Lemma not_teacher_with_teacher (flag : Teacher -> bool) (user : User)
    (t : Teacher) :
  role user = "teacher" -> teacher_profile user = Some t ->
  not_teacher_with flag user = inr (negb (flag t)).
Proof.
  intros Hr Hp. unfold not_teacher_with, get_teacher_profile.
  now rewrite Hr, Hp.
Qed.

(** Closes a goal [~ answered_200 o] for an outcome that is an uncaught
    exception or a response with another status. *)
Ltac not_200 :=
  let r := fresh "r" in
  let H := fresh "H" in
  let Hs := fresh "Hs" in
  intros (r & H & Hs);
  first [discriminate H | injection H as <-; discriminate Hs].

(** What a [coordinator_action] call comes to: an approval or a rejection
    saved on the fetched row, or no change of the database. *)
Lemma coordinator_action_cases user action id db :
  (exists b, RoomBooking_objects_get db id = inr b
     /\ action = Some "approve"
     /\ coordinator_action user action id db =
        (Returned (mkResponse (message "Action completed") 200),
         RoomBooking_save
           (set_coordinator_approved true (set_status PENDING_HOD b)) db))
  \/ (exists b, RoomBooking_objects_get db id = inr b
     /\ action = Some "reject"
     /\ coordinator_action user action id db =
        (Returned (mkResponse (message "Action completed") 200),
         RoomBooking_save (set_status REJECTED b) db))
  \/ (snd (coordinator_action user action id db) = db
      /\ ~ answered_200 (fst (coordinator_action user action id db))).
Proof.
  unfold coordinator_action.
  destruct (not_teacher_with is_batch_coordinator user) as [e|[|]];
    simpl; try (right; right; split; [reflexivity|not_200]).
  destruct (RoomBooking_objects_get db id) as [e|b]; simpl;
    [destruct e; right; right; (split; [reflexivity|not_200])|].
  destruct (action_is action "approve") eqn:Ha; simpl.
  - apply action_is_true in Ha. left. now exists b.
  - destruct (action_is action "reject") eqn:Hr; simpl;
      [|right; right; split; [reflexivity|not_200]].
    apply action_is_true in Hr. right; left. now exists b.
Qed.

(** The same for [hod_action]. *)
Lemma hod_action_cases user action id db :
  (exists b, RoomBooking_objects_get db id = inr b
     /\ action = Some "approve"
     /\ hod_action user action id db =
        (Returned (mkResponse (message "Final decision recorded") 200),
         RoomBooking_save
           (set_hod_approved true (set_status APPROVED b)) db))
  \/ (exists b, RoomBooking_objects_get db id = inr b
     /\ action = Some "reject"
     /\ hod_action user action id db =
        (Returned (mkResponse (message "Final decision recorded") 200),
         RoomBooking_save (set_status REJECTED b) db))
  \/ (snd (hod_action user action id db) = db
      /\ ~ answered_200 (fst (hod_action user action id db))).
Proof.
  unfold hod_action.
  destruct (not_teacher_with is_hod user) as [e|[|]];
    simpl; try (right; right; split; [reflexivity|not_200]).
  destruct (RoomBooking_objects_get db id) as [e|b]; simpl;
    [destruct e; right; right; (split; [reflexivity|not_200])|].
  destruct (action_is action "approve") eqn:Ha; simpl.
  - apply action_is_true in Ha. left. now exists b.
  - destruct (action_is action "reject") eqn:Hr; simpl;
      [|right; right; split; [reflexivity|not_200]].
    apply action_is_true in Hr. right; left. now exists b.
Qed.

Section BookingDecision.

Variables (user : User) (t : Teacher) (id : nat) (db : DB) (b : RoomBooking).

Hypothesis Hrole : role user = "teacher".
Hypothesis Hprofile : teacher_profile user = Some t.
Hypothesis Hget : RoomBooking_objects_get db id = inr b.

(** [coordinator_action] for a batch coordinator on a booking that
    exists. *)
Lemma coordinator_action_found (action : option string) :
  is_batch_coordinator t = true ->
  coordinator_action user action id db =
  if action_is action "approve" then
    (Returned (mkResponse (message "Action completed") 200),
     RoomBooking_save
       (set_coordinator_approved true (set_status PENDING_HOD b)) db)
  else if action_is action "reject" then
    (Returned (mkResponse (message "Action completed") 200),
     RoomBooking_save (set_status REJECTED b) db)
  else (Returned Invalid_action, db).
Proof.
  intros Hflag. unfold coordinator_action.
  rewrite (not_teacher_with_teacher _ user t Hrole Hprofile), Hflag, Hget.
  simpl. destruct (action_is action "approve"); [reflexivity|].
  now destruct (action_is action "reject").
Qed.

(** [hod_action] for an HOD on a booking that exists. *)
Lemma hod_action_found (action : option string) :
  is_hod t = true ->
  hod_action user action id db =
  if action_is action "approve" then
    (Returned (mkResponse (message "Final decision recorded") 200),
     RoomBooking_save (set_hod_approved true (set_status APPROVED b)) db)
  else if action_is action "reject" then
    (Returned (mkResponse (message "Final decision recorded") 200),
     RoomBooking_save (set_status REJECTED b) db)
  else (Returned Invalid_action, db).
Proof.
  intros Hflag. unfold hod_action.
  rewrite (not_teacher_with_teacher _ user t Hrole Hprofile), Hflag, Hget.
  simpl. destruct (action_is action "approve"); [reflexivity|].
  now destruct (action_is action "reject").
Qed.

(** The decision views do not read the current status. For a teacher
    with the batch-coordinator flag and a booking that exists, in whatever
    status: approve is answered with 200 and leaves the booking in
    PENDING_HOD with [coordinator_approved] set, reject is answered with
    200 and leaves it in REJECTED, and any other action is answered with
    the invalid-action response and changes nothing. For a teacher with
    the HOD flag likewise, approve leading to APPROVED with [hod_approved]
    set. No other field of the booking changes. *)
Lemma booking_decision_from_any_status :
  (is_batch_coordinator t = true ->
   (fst (coordinator_action user (Some "approve") id db)
      = Returned (mkResponse (message "Action completed") 200)
    /\ RoomBooking_objects_get
         (snd (coordinator_action user (Some "approve") id db)) id
       = inr (set_coordinator_approved true (set_status PENDING_HOD b)))
   /\ (fst (coordinator_action user (Some "reject") id db)
         = Returned (mkResponse (message "Action completed") 200)
       /\ RoomBooking_objects_get
            (snd (coordinator_action user (Some "reject") id db)) id
          = inr (set_status REJECTED b))
   /\ (forall action,
         action <> Some "approve" -> action <> Some "reject" ->
         coordinator_action user action id db = (Returned Invalid_action, db)))
  /\ (is_hod t = true ->
      (fst (hod_action user (Some "approve") id db)
         = Returned (mkResponse (message "Final decision recorded") 200)
       /\ RoomBooking_objects_get
            (snd (hod_action user (Some "approve") id db)) id
          = inr (set_hod_approved true (set_status APPROVED b)))
      /\ (fst (hod_action user (Some "reject") id db)
            = Returned (mkResponse (message "Final decision recorded") 200)
          /\ RoomBooking_objects_get
               (snd (hod_action user (Some "reject") id db)) id
             = inr (set_status REJECTED b))
      /\ (forall action,
            action <> Some "approve" -> action <> Some "reject" ->
            hod_action user action id db = (Returned Invalid_action, db))).
Proof.
  pose proof (RoomBooking_objects_get_inr db id b Hget) as (_ & _ & Hid).
  split; intros Hflag.
  - rewrite !(coordinator_action_found _ Hflag); simpl.
    repeat split.
    + now apply (RoomBooking_get_save_same db id b).
    + now apply (RoomBooking_get_save_same db id b).
    + intros action Ha Hr. rewrite (coordinator_action_found _ Hflag).
      now rewrite (action_is_false _ _ Ha), (action_is_false _ _ Hr).
  - rewrite !(hod_action_found _ Hflag); simpl.
    repeat split.
    + now apply (RoomBooking_get_save_same db id b).
    + now apply (RoomBooking_get_save_same db id b).
    + intros action Ha Hr. rewrite (hod_action_found _ Hflag).
      now rewrite (action_is_false _ _ Ha), (action_is_false _ _ Hr).
Qed.

End BookingDecision.

(** C2 on the code. The request of a student of (MCA, 1, A) for room R
    has had its final decision. The listings select by status, so
    [coordinator_requests] shows it to no coordinator and [hod_requests]
    to no HOD, not even to the ones of its division and course. Yet the
    decision views never read the status: on the APPROVED request, the
    coordinator's approve is answered with 200 and takes it back to
    PENDING_HOD, and the HOD's reject is answered with 200 and takes it to
    REJECTED; on the REJECTED request the HOD's approve is answered with
    200 and takes it to APPROVED. No call is refused and none leaves the
    booking as it was. An action that is neither approve nor reject is
    refused with the invalid-action response and changes nothing. *)
Theorem decision_on_decided_booking_accepted :
  coordinator_requests coordinator_A (db_request_A APPROVED true true)
    = Returned (mkResponse (listing []) 200)
  /\ hod_requests hod_MCA (db_request_A APPROVED true true)
     = Returned (mkResponse (listing []) 200)
  /\ hod_requests hod_MCA (db_request_A REJECTED true false)
     = Returned (mkResponse (listing []) 200)
  /\ coordinator_action coordinator_A (Some "approve") 1
       (db_request_A APPROVED true true)
     = (Returned (mkResponse (message "Action completed") 200),
        db_request_A PENDING_HOD true true)
  /\ hod_action hod_MCA (Some "reject") 1 (db_request_A APPROVED true true)
     = (Returned (mkResponse (message "Final decision recorded") 200),
        db_request_A REJECTED true true)
  /\ hod_action hod_MCA (Some "approve") 1 (db_request_A REJECTED true false)
     = (Returned (mkResponse (message "Final decision recorded") 200),
        db_request_A APPROVED true true)
  /\ coordinator_action coordinator_A (Some "cancel") 1
       (db_request_A APPROVED true true)
     = (Returned Invalid_action, db_request_A APPROVED true true)
  /\ hod_action hod_MCA None 1 (db_request_A APPROVED true true)
     = (Returned Invalid_action, db_request_A APPROVED true true).
Proof. repeat split. Qed.

(** C3 on the code. The coordinator of (MCA, 1, A) is not shown the
    pending request of division (MCA, 1, B) by [coordinator_requests], yet
    [coordinator_action] lets that coordinator approve it: the answer is
    200, the booking moves to PENDING_HOD and its [coordinator_approved]
    is set. *)
Theorem coordinator_action_outside_scope :
  coordinator_requests coordinator_A db_pending_B
    = Returned (mkResponse (listing []) 200)
  /\ division (sample_booking 1 11 (Some MCA_1_B) 600 660
                 PENDING_COORDINATOR false false) = Some MCA_1_B
  /\ coordinator_action coordinator_A (Some "approve") 1 db_pending_B
     = (Returned (mkResponse (message "Action completed") 200),
        mkDB [room_R]
          [sample_booking 1 11 (Some MCA_1_B) 600 660 PENDING_HOD true false]
          2 [] 1)
  /\ coordinator_action coordinator_A (Some "reject") 1 db_pending_B
     = (Returned (mkResponse (message "Action completed") 200),
        mkDB [room_R]
          [sample_booking 1 11 (Some MCA_1_B) 600 660 REJECTED false false]
          2 [] 1).
Proof. repeat split. Qed.

(** C5 on the code. The student request of division (MCA, 1, B) waits for
    the HOD. [hod_requests] shows it to the HOD of MCA and not to the HOD of
    MMS, yet [hod_action] lets the HOD of MMS approve it: the answer is
    200, the booking moves to APPROVED and its [hod_approved] is set. *)
Theorem hod_action_outside_course :
  hod_requests hod_MCA db_pending_hod_B
    = Returned (mkResponse (listing [1%nat]) 200)
  /\ hod_requests hod_MMS db_pending_hod_B
     = Returned (mkResponse (listing []) 200)
  /\ hod_action hod_MMS (Some "approve") 1 db_pending_hod_B
     = (Returned (mkResponse (message "Final decision recorded") 200),
        mkDB [room_R]
          [sample_booking 1 11 (Some MCA_1_B) 600 660 APPROVED true true]
          2 [] 1).
Proof. repeat split. Qed.

(** For a booking without division (a teacher's request) every HOD is
    let through, and so is, for a student's request, the HOD of the
    division's course. *)
Lemma hod_action_any_hod user t id db b :
  role user = "teacher" -> teacher_profile user = Some t ->
  is_hod t = true ->
  RoomBooking_objects_get db id = inr b ->
  fst (hod_action user (Some "approve") id db)
    = Returned (mkResponse (message "Final decision recorded") 200)
  /\ fst (hod_action user (Some "reject") id db)
     = Returned (mkResponse (message "Final decision recorded") 200).
Proof.
  intros Hr Hp Hh Hg.
  now rewrite !(hod_action_found user t id db b Hr Hp Hg _ Hh).
Qed.

(** The decision views read the flag of the teacher's profile and no
    other field of it: two teachers with the same flag get the same answer
    and leave the same database, whatever their scopes. *)
Lemma coordinator_action_reads_flag_only u1 u2 t1 t2 action id db :
  role u1 = "teacher" -> teacher_profile u1 = Some t1 ->
  role u2 = "teacher" -> teacher_profile u2 = Some t2 ->
  is_batch_coordinator t1 = is_batch_coordinator t2 ->
  coordinator_action u1 action id db = coordinator_action u2 action id db.
Proof.
  intros Hr1 Hp1 Hr2 Hp2 Hflag. unfold coordinator_action.
  rewrite (not_teacher_with_teacher _ u1 t1 Hr1 Hp1).
  rewrite (not_teacher_with_teacher _ u2 t2 Hr2 Hp2).
  now rewrite Hflag.
Qed.

Lemma hod_action_reads_flag_only u1 u2 t1 t2 action id db :
  role u1 = "teacher" -> teacher_profile u1 = Some t1 ->
  role u2 = "teacher" -> teacher_profile u2 = Some t2 ->
  is_hod t1 = is_hod t2 ->
  hod_action u1 action id db = hod_action u2 action id db.
Proof.
  intros Hr1 Hp1 Hr2 Hp2 Hflag. unfold hod_action.
  rewrite (not_teacher_with_teacher _ u1 t1 Hr1 Hp1).
  rewrite (not_teacher_with_teacher _ u2 t2 Hr2 Hp2).
  now rewrite Hflag.
Qed.

(* ================================================================= *)
(** ** Leaves *)

Section LeaveApplication.

Variables (now : datetime) (user : User) (sp : Student) (db : DB).
Variables (r : string) (f t : date) (doc : option string).

Hypothesis Hrole : role user = "student".
Hypothesis Hprofile : student_profile user = Some sp.

Let data := mkLeaveData (Some r) (Some f) (Some t) doc.

(** C7. For a student with a profile: when [to_date < from_date],
    [apply_leave] answers 400 with the message dictionary of a
    [ValidationError] that holds the message of [StudentLeave.clean], and
    leaves the database as it was; when [to_date >= from_date] (equality
    included) and the reason is not blank, it answers 201 and has
    appended one leave, in PENDING, with the division of the student's
    profile, the dates and reason of the request, and no decision. *)
Theorem apply_leave_date_order :
  (t < f ->
   exists d,
     apply_leave now user data db
       = (Returned (mkResponse (error_dict d) 400), db)
     /\ In ("__all__", ["To date cannot be before From date."]) d)
  /\ (f <= t -> r <> EmptyString ->
      exists l,
        apply_leave now user data db
          = (Returned
               (mkResponse (message "Leave request sent to Batch Coordinator")
                  201),
             mkDB (rooms db) (bookings db) (next_booking_id db)
               (leaves db ++ [l]) (S (next_leave_id db)))
        /\ leave_status l = LEAVE_PENDING
        /\ leave_division l = student_division sp
        /\ from_date l = f /\ to_date l = t /\ reason l = r
        /\ coordinator_remark l = None /\ decision_at l = None).
Proof.
  subst data. unfold apply_leave, get_student_profile.
  rewrite Hrole, Hprofile; simpl.
  unfold StudentLeave_full_clean, StudentLeave_clean,
    StudentLeave_clean_fields; simpl.
  split.
  - intros Hlt. apply Z.ltb_lt in Hlt. rewrite Hlt; simpl.
    destruct (String.eqb r EmptyString); simpl;
      eexists; (split; [reflexivity|]); simpl; auto.
  - intros Hle Hr. apply Z.ltb_ge in Hle. rewrite Hle; simpl.
    apply String.eqb_neq in Hr. rewrite Hr; simpl.
    eexists. split; [reflexivity|]. simpl. repeat split.
Qed.

End LeaveApplication.

(** The spec's example of C7: a student of (MCA, 1, A) asking for leave
    from 2024-01-10 to 2024-01-08 is refused, from 2024-01-08 to 2024-01-10
    and for the single day 2024-01-10 the leave is recorded. *)
Lemma apply_leave_date_order_witness :
  (exists d,
     apply_leave 50 student_A
       (mkLeaveData (Some "fever") (Some 738895) (Some 738893) None) db_empty
     = (Returned (mkResponse (error_dict d) 400), db_empty))
  /\ (exists l,
        snd (apply_leave 50 student_A
               (mkLeaveData (Some "fever") (Some 738893) (Some 738895) None)
               db_empty)
        = mkDB [room_R] [] 1 [l] 2
        /\ leave_status l = LEAVE_PENDING /\ leave_division l = MCA_1_A)
  /\ (exists l,
        snd (apply_leave 50 student_A
               (mkLeaveData (Some "fever") (Some 738895) (Some 738895) None)
               db_empty)
        = mkDB [room_R] [] 1 [l] 2
        /\ leave_status l = LEAVE_PENDING /\ leave_division l = MCA_1_A).
Proof.
  split; [|split].
  - destruct (apply_leave_date_order 50 student_A (mkStudent "MCA-01" MCA_1_A)
                db_empty "fever" 738895 738893 None eq_refl eq_refl)
      as [Hbad _].
    destruct (Hbad ltac:(lia)) as (d & Hd & _). now exists d.
  - destruct (apply_leave_date_order 50 student_A (mkStudent "MCA-01" MCA_1_A)
                db_empty "fever" 738893 738895 None eq_refl eq_refl)
      as [_ Hok].
    destruct (Hok ltac:(lia) ltac:(discriminate)) as (l & Hl & Hs & Hd & _).
    exists l. split; [exact (f_equal snd Hl)|auto].
  - destruct (apply_leave_date_order 50 student_A (mkStudent "MCA-01" MCA_1_A)
                db_empty "fever" 738895 738895 None eq_refl eq_refl)
      as [_ Hok].
    destruct (Hok ltac:(lia) ltac:(discriminate)) as (l & Hl & Hs & Hd & _).
    exists l. split; [exact (f_equal snd Hl)|auto].
Defined.

Section LeaveDecision.

Variables (now : datetime) (user : User) (t : Teacher) (id : nat) (db : DB).
Variables (l : StudentLeave) (remark : option (option string)).

Hypothesis Hrole : role user = "teacher".
Hypothesis Hprofile : teacher_profile user = Some t.
Hypothesis Hflag : is_batch_coordinator t = true.
Hypothesis Hget : StudentLeave_objects_get db id = inr l.

(** The leave as the view saves it: the new status, the remark of the
    request (empty when the key is missing, null when it is a JSON null)
    and the time of the call. *)
Let decided (s : LeaveStatus) : StudentLeave :=
  set_decision_at (Some now)
    (set_coordinator_remark (data_get_default remark EmptyString)
       (set_leave_status s l)).

(** [coordinator_leave_action] for a batch coordinator on a leave that
    exists. *)
Lemma coordinator_leave_action_found (action : option string) :
  coordinator_leave_action now user action remark id db =
  if action_is action "approve" then
    (Returned (mkResponse (message "Leave decision recorded") 200),
     StudentLeave_save (decided LEAVE_APPROVED) db)
  else if action_is action "reject" then
    (Returned (mkResponse (message "Leave decision recorded") 200),
     StudentLeave_save (decided LEAVE_REJECTED) db)
  else (Returned Invalid_action, db).
Proof.
  unfold coordinator_leave_action.
  rewrite (not_teacher_with_teacher _ user t Hrole Hprofile), Hflag, Hget.
  simpl. destruct (action_is action "approve"); [reflexivity|].
  now destruct (action_is action "reject").
Qed.

(** [coordinator_leave_action] does not read the current status. For a
    teacher with the batch-coordinator flag and a leave that exists, in
    whatever status: approve and reject are answered with 200 and leave
    the leave in APPROVED and REJECTED, with [coordinator_remark] the
    remark of the request and [decision_at] the time of the call, whatever
    these fields held before; any other action is answered with the
    invalid-action response and changes nothing. *)
Lemma leave_decision_from_any_status :
  (fst (coordinator_leave_action now user (Some "approve") remark id db)
     = Returned (mkResponse (message "Leave decision recorded") 200)
   /\ StudentLeave_objects_get
        (snd (coordinator_leave_action now user (Some "approve") remark id db))
        id
      = inr (decided LEAVE_APPROVED))
  /\ (fst (coordinator_leave_action now user (Some "reject") remark id db)
        = Returned (mkResponse (message "Leave decision recorded") 200)
      /\ StudentLeave_objects_get
           (snd (coordinator_leave_action now user (Some "reject") remark id db))
           id
         = inr (decided LEAVE_REJECTED))
  /\ (forall action,
        action <> Some "approve" -> action <> Some "reject" ->
        coordinator_leave_action now user action remark id db
          = (Returned Invalid_action, db)).
Proof.
  pose proof (StudentLeave_objects_get_inr db id l Hget) as (_ & _ & Hid).
  rewrite !coordinator_leave_action_found; simpl.
  repeat split.
  - now apply (StudentLeave_get_save_same db id l).
  - now apply (StudentLeave_get_save_same db id l).
  - intros action Ha Hr. rewrite coordinator_leave_action_found.
    now rewrite (action_is_false _ _ Ha), (action_is_false _ _ Hr).
Qed.

End LeaveDecision.

(** C4 on the code. From PENDING the view does what is specified: the
    coordinator's approve with remark "ok" at time 60 is answered with 200
    and records APPROVED, the remark and the time. The leave so decided is
    no longer shown by [coordinator_leave_requests], which selects the
    PENDING leaves. Yet [coordinator_leave_action] never reads the status:
    a reject sent at time 70 is answered with 200 and overwrites the
    status, the remark and the decision time, and so does one whose body
    has no remark (the remark becomes empty) or a null remark (the remark
    becomes null again, on a decided leave). *)
Theorem decision_on_decided_leave_accepted :
  coordinator_leave_action 60 coordinator_A (Some "approve") (Some (Some "ok"))
    1 (db_leave (sample_leave LEAVE_PENDING None None))
    = (Returned (mkResponse (message "Leave decision recorded") 200),
       db_leave (sample_leave LEAVE_APPROVED (Some "ok") (Some 60)))
  /\ coordinator_leave_requests coordinator_A
       (db_leave (sample_leave LEAVE_PENDING None None))
     = Returned (mkResponse (listing [1%nat]) 200)
  /\ coordinator_leave_requests coordinator_A
       (db_leave (sample_leave LEAVE_APPROVED (Some "ok") (Some 60)))
     = Returned (mkResponse (listing []) 200)
  /\ coordinator_leave_action 70 coordinator_A (Some "reject") (Some (Some "no"))
       1 (db_leave (sample_leave LEAVE_APPROVED (Some "ok") (Some 60)))
     = (Returned (mkResponse (message "Leave decision recorded") 200),
        db_leave (sample_leave LEAVE_REJECTED (Some "no") (Some 70)))
  /\ coordinator_leave_action 70 coordinator_A (Some "reject") None
       1 (db_leave (sample_leave LEAVE_APPROVED (Some "ok") (Some 60)))
     = (Returned (mkResponse (message "Leave decision recorded") 200),
        db_leave (sample_leave LEAVE_REJECTED (Some EmptyString) (Some 70)))
  /\ coordinator_leave_action 70 coordinator_A (Some "approve") (Some None)
       1 (db_leave (sample_leave LEAVE_APPROVED (Some "ok") (Some 60)))
     = (Returned (mkResponse (message "Leave decision recorded") 200),
        db_leave (sample_leave LEAVE_APPROVED None (Some 70))).
Proof. repeat split. Qed.

(* ================================================================= *)
(** ** Approval does not look at the other bookings *)

(** The row [RoomBooking.objects.create] appends. *)
Lemma RoomBooking_objects_create_bookings now db rm user dv p d st en s :
  bookings (RoomBooking_objects_create now db rm user dv p d st en s) =
  (bookings db ++
   [mkRoomBooking (next_booking_id db) (room_id rm) (user_id user) dv p d
      st en s false false now])%list.
Proof. reflexivity. Qed.

(** The created row is fetched under the key the counter held. *)
Lemma RoomBooking_get_created now db rm user dv p d st en s :
  keys_below_counter db ->
  RoomBooking_objects_get
    (RoomBooking_objects_create now db rm user dv p d st en s)
    (next_booking_id db)
  = inr (mkRoomBooking (next_booking_id db) (room_id rm) (user_id user) dv p d
           st en s false false now).
Proof.
  intros Hk. unfold RoomBooking_objects_get.
  rewrite RoomBooking_objects_create_bookings.
  rewrite (find_app_fresh _ booking_id).
  - simpl. now rewrite Nat.eqb_refl.
  - intros r Hr. apply Hk in Hr. lia.
Qed.

(** A creation keeps the keys below the counter. *)
Lemma keys_below_counter_create now db rm user dv p d st en s :
  keys_below_counter db ->
  keys_below_counter (RoomBooking_objects_create now db rm user dv p d st en s).
Proof.
  intros Hk b. rewrite RoomBooking_objects_create_bookings. simpl.
  rewrite in_app_iff. intros [Hb|[<-|[]]]; simpl.
  - apply Hk in Hb. lia.
  - lia.
Qed.

(** A creation leaves the fetch of the rows that were there as it was. *)
Lemma RoomBooking_get_create_old now db rm user dv p d st en s id b :
  RoomBooking_objects_get db id = inr b ->
  RoomBooking_objects_get
    (RoomBooking_objects_create now db rm user dv p d st en s) id = inr b.
Proof.
  intros Hget. apply RoomBooking_objects_get_inr in Hget.
  destruct Hget as [Hfind _]. unfold RoomBooking_objects_get.
  rewrite RoomBooking_objects_create_bookings.
  now rewrite (find_app_some _ booking_id id _ _ b Hfind).
Qed.

(** A row that is not approved does not change the clash query. *)
Lemma clash_exists_create_pending now db rm' user dv p' d' st' en' s
    rm d st en :
  s <> APPROVED ->
  clash_exists (RoomBooking_objects_create now db rm' user dv p' d' st' en' s)
    rm d st en
  = clash_exists db rm d st en.
Proof.
  intros Hs. unfold clash_exists.
  rewrite RoomBooking_objects_create_bookings, existsb_app; simpl.
  unfold clash_filter at 2; simpl.
  assert (E : BookingStatus_eqb s APPROVED = false) by (destruct s; simpl; congruence).
  rewrite E. now rewrite !andb_false_r, ?orb_false_r.
Qed.

Section NoRecheck.

Variables (now : datetime) (requester hod : User) (th : Teacher) (db : DB).
Variables (rm : Room) (d : date) (s1 e1 s2 e2 : time) (p1 p2 : string).

Hypothesis Hkeys : keys_below_counter db.
Hypothesis Hroom : Room_objects_get db (room_id rm) = inr rm.
Hypothesis Hrequester : role requester = "teacher".
Hypothesis Hhod : role hod = "teacher".
Hypothesis Hprofile : teacher_profile hod = Some th.
Hypothesis Hflag : is_hod th = true.
Hypothesis Hfree1 :
  forall b, In b (bookings db) ->
    ~ overlapping_approved (room_id rm) d s1 e1 b.
Hypothesis Hfree2 :
  forall b, In b (bookings db) ->
    ~ overlapping_approved (room_id rm) d s2 e2 b.
Hypothesis Hoverlap : s1 < e2 /\ s2 < e1.

Let n := next_booking_id db.

Let requests : list Request :=
  [POST_request_room now requester (booking_data (room_id rm) d s1 e1 p1);
   POST_request_room now requester (booking_data (room_id rm) d s2 e2 p2);
   POST_hod_action hod (Some "approve") n;
   POST_hod_action hod (Some "approve") (S n)].

(** C9. Take a room that exists and two intervals of one day that
    overlap each other and no approved booking of the room. A teacher's
    two requests for them are both created (the first, still pending,
    does not block the second); after an HOD has approved the first,
    the approval of the second is accepted as well; the database then
    holds two APPROVED bookings of the same room and date whose
    half-open intervals overlap. *)
Theorem approvals_can_overlap :
  exists b1 b2,
    RoomBooking_objects_get (serve_all db requests) n = inr b1
    /\ RoomBooking_objects_get (serve_all db requests) (S n) = inr b2
    /\ In b1 (bookings (serve_all db requests))
    /\ In b2 (bookings (serve_all db requests))
    /\ booking_id b1 <> booking_id b2
    /\ status b1 = APPROVED /\ status b2 = APPROVED
    /\ room b1 = room_id rm /\ room b2 = room_id rm
    /\ booking_date b1 = d /\ booking_date b2 = d
    /\ start_time b1 = s1 /\ end_time b1 = e1
    /\ start_time b2 = s2 /\ end_time b2 = e2
    /\ start_time b1 < end_time b2 /\ start_time b2 < end_time b1.
Proof.
  assert (Hno : forall st en,
             (forall b, In b (bookings db) ->
                ~ overlapping_approved (room_id rm) d st en b) ->
             clash_exists db rm d st en = false).
  { intros st en Hfree. destruct (clash_exists db rm d st en) eqn:E; auto.
    apply clash_exists_spec in E. destruct E as (b & Hin & Hb).
    now apply Hfree in Hb. }
  assert (Hnot : String.eqb (role requester) "student" = false)
    by now rewrite Hrequester.
  assert (Hteach : String.eqb (role requester) "teacher" = true)
    by now rewrite Hrequester.
  set (r1 := mkRoomBooking n (room_id rm) (user_id requester) None p1 d
               s1 e1 PENDING_HOD false false now).
  set (r2 := mkRoomBooking (S n) (room_id rm) (user_id requester) None p2 d
               s2 e2 PENDING_HOD false false now).
  set (a1 := set_hod_approved true (set_status APPROVED r1)).
  set (a2 := set_hod_approved true (set_status APPROVED r2)).
  set (db1 := RoomBooking_objects_create now db rm requester None p1 d
                s1 e1 PENDING_HOD).
  set (db2 := RoomBooking_objects_create now db1 rm requester None p2 d
                s2 e2 PENDING_HOD).
  set (db3 := RoomBooking_save a1 db2).
  set (db4 := RoomBooking_save a2 db3).
  (* the two creations: the first request is pending and does not clash *)
  assert (Hkeys1 : keys_below_counter db1)
    by now apply keys_below_counter_create.
  assert (Hroom1 : Room_objects_get db1 (room_id rm) = inr rm) by exact Hroom.
  assert (Hget2 : RoomBooking_objects_get db2 (S n) = inr r2)
    by now apply (RoomBooking_get_created now db1).
  assert (Hget1 : RoomBooking_objects_get db2 n = inr r1)
    by now apply RoomBooking_get_create_old, RoomBooking_get_created.
  (* the two approvals: no clash check stands in the way of the second *)
  assert (Hget3 : RoomBooking_objects_get db3 n = inr a1)
    by now apply (RoomBooking_get_save_same db2 n r1 a1 Hget1).
  assert (Hget3' : RoomBooking_objects_get db3 (S n) = inr r2).
  { unfold db3. rewrite RoomBooking_get_save_other; [exact Hget2|].
    simpl. lia. }
  assert (Hget4 : RoomBooking_objects_get db4 (S n) = inr a2)
    by now apply (RoomBooking_get_save_same db3 (S n) r2 a2 Hget3').
  assert (Hget4' : RoomBooking_objects_get db4 n = inr a1).
  { unfold db4. rewrite RoomBooking_get_save_other; [exact Hget3|].
    simpl. lia. }
  assert (Hrun : serve_all db requests = db4).
  { subst requests. unfold serve_all; simpl.
    rewrite (request_room_found now requester db (room_id rm) rm d s1 e1 p1
               Hroom).
    rewrite (Hno s1 e1 Hfree1), Hnot, Hteach; simpl. fold db1.
    rewrite (request_room_found now requester db1 (room_id rm) rm d s2 e2 p2
               Hroom1).
    unfold db1 at 1. rewrite clash_exists_create_pending by discriminate.
    rewrite (Hno s2 e2 Hfree2), Hnot, Hteach; simpl. fold db2.
    rewrite (hod_action_found hod th n db2 r1 Hhod Hprofile Hget1 _ Hflag).
    simpl. fold a1. fold db3.
    rewrite (hod_action_found hod th (S n) db3 r2 Hhod Hprofile Hget3' _
               Hflag).
    reflexivity. }
  rewrite Hrun. exists a1, a2.
  destruct (RoomBooking_objects_get_inr db4 n a1 Hget4') as (_ & Hin1 & _).
  destruct (RoomBooking_objects_get_inr db4 (S n) a2 Hget4) as (_ & Hin2 & _).
  repeat split; try assumption; try reflexivity; simpl; try lia.
Qed.

End NoRecheck.

(** The hypotheses and the conclusion of C9 on the sample data: two
    teacher requests for room R, 10:00-11:00 and 10:30-11:30 of day D, both
    approved by the HOD of MCA. *)
Lemma approvals_can_overlap_witness :
  exists b1 b2,
    In b1 (bookings
      (serve_all db_empty
         [POST_request_room 5 plain_teacher (booking_data 1 day_D 600 660 "talk");
          POST_request_room 5 plain_teacher (booking_data 1 day_D 630 690 "exam");
          POST_hod_action hod_MCA (Some "approve") 1;
          POST_hod_action hod_MCA (Some "approve") 2]))
    /\ In b2 (bookings
      (serve_all db_empty
         [POST_request_room 5 plain_teacher (booking_data 1 day_D 600 660 "talk");
          POST_request_room 5 plain_teacher (booking_data 1 day_D 630 690 "exam");
          POST_hod_action hod_MCA (Some "approve") 1;
          POST_hod_action hod_MCA (Some "approve") 2]))
    /\ booking_id b1 <> booking_id b2
    /\ status b1 = APPROVED /\ status b2 = APPROVED
    /\ room b1 = 1%nat /\ room b2 = 1%nat
    /\ booking_date b1 = day_D /\ booking_date b2 = day_D
    /\ start_time b1 < end_time b2 /\ start_time b2 < end_time b1.
Proof.
  destruct (approvals_can_overlap 5 plain_teacher hod_MCA
              (mkTeacher false None None None true (Some "MCA"))
              db_empty room_R day_D 600 660 630 690 "talk" "exam"
              (fun b (H : In b []) => match H with end)
              eq_refl eq_refl eq_refl eq_refl eq_refl
              (fun b (H : In b []) => match H with end)
              (fun b (H : In b []) => match H with end)
              (conj eq_refl eq_refl))
    as (b1 & b2 & _ & _ & H1 & H2 & Hne & Hs1 & Hs2 & Hr1 & Hr2 & Hd1 & Hd2
        & _ & _ & _ & _ & Ho1 & Ho2).
  exists b1, b2. repeat split; assumption.
Defined.

(** The same with student requests, which pass the coordinator first: two
    students of (MCA, 1, A) ask for room R, 10:00-11:00 and 10:30-11:30 of
    day D; the coordinator and then the HOD approve both. *)
Example approvals_can_overlap_student_flow :
  bookings
    (serve_all db_empty
       [POST_request_room 5 student_A (booking_data 1 day_D 600 660 "club");
        POST_request_room 6 student_A (booking_data 1 day_D 630 690 "quiz");
        POST_coordinator_action coordinator_A (Some "approve") 1;
        POST_hod_action hod_MCA (Some "approve") 1;
        POST_coordinator_action coordinator_A (Some "approve") 2;
        POST_hod_action hod_MCA (Some "approve") 2])
  = [mkRoomBooking 1 1 10 (Some MCA_1_A) "club" day_D 600 660 APPROVED
       true true 5;
     mkRoomBooking 2 1 10 (Some MCA_1_A) "quiz" day_D 630 690 APPROVED
       true true 6].
Proof. reflexivity. Qed.

(* ================================================================= *)
(** ** The approval flags *)

Lemma flags_kept_or_set_refl (b : RoomBooking) : flags_kept_or_set b b.
Proof. split; now left. Qed.

Lemma flags_kept_or_set_trans (a b c : RoomBooking) :
  flags_kept_or_set a b -> flags_kept_or_set b c -> flags_kept_or_set a c.
Proof.
  unfold flags_kept_or_set.
  intros [[H1|H1] [H2|H2]] [[H3|H3] [H4|H4]]; split;
    (left; congruence) || (right; congruence).
Qed.

(** The fetch of a booking reads the booking table only. *)
Lemma RoomBooking_objects_get_ext (db db' : DB) (id : nat) :
  bookings db' = bookings db ->
  RoomBooking_objects_get db' id = RoomBooking_objects_get db id.
Proof. intros H. unfold RoomBooking_objects_get. now rewrite H. Qed.

(** The leave views do not write the booking table. *)
Lemma apply_leave_bookings now user data db :
  bookings (snd (apply_leave now user data db)) = bookings db.
Proof.
  unfold apply_leave.
  destruct (negb (String.eqb (role user) "student")); [reflexivity|].
  unfold get_student_profile.
  destruct (student_profile user) as [sp|]; [|reflexivity]. simpl.
  destruct data as [[r|] [f|] [t|] doc]; simpl; try reflexivity.
  destruct (StudentLeave_full_clean _) as [[]|[]]; reflexivity.
Qed.

Lemma coordinator_leave_action_bookings now user action remark id db :
  bookings (snd (coordinator_leave_action now user action remark id db))
  = bookings db.
Proof.
  unfold coordinator_leave_action.
  destruct (not_teacher_with is_batch_coordinator user) as [e|[|]];
    try reflexivity.
  destruct (StudentLeave_objects_get db id) as [[]|l]; simpl; try reflexivity.
  destruct (action_is action "approve"); [reflexivity|].
  destruct (action_is action "reject"); reflexivity.
Qed.

(** A saved decision, seen from any key: the decided booking under its own
    key, every other booking as it was. *)
Lemma RoomBooking_get_after_save db id0 b0 m id b :
  RoomBooking_objects_get db id0 = inr b0 ->
  booking_id m = booking_id b0 ->
  RoomBooking_objects_get db id = inr b ->
  RoomBooking_objects_get (RoomBooking_save m db) id
  = inr (if Nat.eqb id id0 then m else b)
  /\ (Nat.eqb id id0 = true -> b = b0).
Proof.
  intros H0 Hm Hb.
  destruct (RoomBooking_objects_get_inr db id0 b0 H0) as (_ & _ & Hid0).
  destruct (Nat.eqb id id0) eqn:E.
  - apply Nat.eqb_eq in E. subst id. split.
    + apply (RoomBooking_get_save_same db id0 b0 m H0). congruence.
    + intros _. congruence.
  - apply Nat.eqb_neq in E. split; [|discriminate].
    rewrite RoomBooking_get_save_other; [exact Hb|congruence].
Qed.

(** One request keeps or sets the flags of every booking there is. *)
Lemma serve_flags (db : DB) (r : Request) (id : nat) (b : RoomBooking) :
  RoomBooking_objects_get db id = inr b ->
  exists b', RoomBooking_objects_get (serve db r) id = inr b'
             /\ flags_kept_or_set b b'.
Proof.
  intros Hget. destruct r as [now user data|user action id0|user action id0
                              |now user data|now user action remark id0]; simpl.
  - destruct (request_room_cases now user data db)
      as [(m & rm & dv & p & d & st & en & s & Heq & _)|[Heq _]];
      rewrite Heq; simpl; exists b; split;
      auto using flags_kept_or_set_refl, RoomBooking_get_create_old.
  - destruct (coordinator_action_cases user action id0 db)
      as [(b0 & H0 & _ & Heq)|[(b0 & H0 & _ & Heq)|[Heq _]]];
      rewrite Heq; simpl;
      try (exists b; split; auto using flags_kept_or_set_refl; fail).
    + destruct (RoomBooking_get_after_save db id0 b0
                  (set_coordinator_approved true (set_status PENDING_HOD b0))
                  id b H0 eq_refl Hget) as [Hg Hsame].
      eexists; split; [exact Hg|].
      destruct (Nat.eqb id id0); [|apply flags_kept_or_set_refl].
      rewrite (Hsame eq_refl). split; simpl; auto.
    + destruct (RoomBooking_get_after_save db id0 b0
                  (set_status REJECTED b0) id b H0 eq_refl Hget)
        as [Hg Hsame].
      eexists; split; [exact Hg|].
      destruct (Nat.eqb id id0); [|apply flags_kept_or_set_refl].
      rewrite (Hsame eq_refl). split; simpl; auto.
  - destruct (hod_action_cases user action id0 db)
      as [(b0 & H0 & _ & Heq)|[(b0 & H0 & _ & Heq)|[Heq _]]];
      rewrite Heq; simpl;
      try (exists b; split; auto using flags_kept_or_set_refl; fail).
    + destruct (RoomBooking_get_after_save db id0 b0
                  (set_hod_approved true (set_status APPROVED b0))
                  id b H0 eq_refl Hget) as [Hg Hsame].
      eexists; split; [exact Hg|].
      destruct (Nat.eqb id id0); [|apply flags_kept_or_set_refl].
      rewrite (Hsame eq_refl). split; simpl; auto.
    + destruct (RoomBooking_get_after_save db id0 b0
                  (set_status REJECTED b0) id b H0 eq_refl Hget)
        as [Hg Hsame].
      eexists; split; [exact Hg|].
      destruct (Nat.eqb id id0); [|apply flags_kept_or_set_refl].
      rewrite (Hsame eq_refl). split; simpl; auto.
  - exists b. split; [|apply flags_kept_or_set_refl].
    rewrite (RoomBooking_objects_get_ext db _ id
               (apply_leave_bookings now user data db)). exact Hget.
  - exists b. split; [|apply flags_kept_or_set_refl].
    rewrite (RoomBooking_objects_get_ext db _ id
               (coordinator_leave_action_bookings now user action remark id0 db)).
    exact Hget.
Qed.

(** C10. The approval flags of a booking only ever go from false to true.
    A booking that [request_room] creates has both flags false, and a
    [request_room] call answered with 201 has created one. Whatever
    request is served, every booking of the database is still there and
    each of its flags is as it was or has been set; so after any sequence
    of requests a flag that was true is true. A coordinator's approve
    answered with 200 has set [coordinator_approved] of the booking, an
    HOD's approve answered with 200 has set [hod_approved], and a reject
    answered with 200 has left both flags as they were. The approve of a
    teacher with the batch-coordinator flag on a booking that exists is
    answered with 200, and so sets [coordinator_approved] and keeps
    [hod_approved]; the approve of a teacher with the HOD flag is answered
    with 200, and so sets [hod_approved] and keeps
    [coordinator_approved]. *)
Theorem approval_flags_monotone :
  (forall now user data db,
     snd (request_room now user data db) = db
     \/ exists b,
          bookings (snd (request_room now user data db))
            = (bookings db ++ [b])%list
          /\ coordinator_approved b = false /\ hod_approved b = false)
  /\ (forall db r id b,
        RoomBooking_objects_get db id = inr b ->
        exists b', RoomBooking_objects_get (serve db r) id = inr b'
                   /\ flags_kept_or_set b b')
  /\ (forall rs db id b,
        RoomBooking_objects_get db id = inr b ->
        exists b', RoomBooking_objects_get (serve_all db rs) id = inr b'
                   /\ (coordinator_approved b = true ->
                       coordinator_approved b' = true)
                   /\ (hod_approved b = true -> hod_approved b' = true))
  /\ (forall user id db,
        answered_200 (fst (coordinator_action user (Some "approve") id db)) ->
        exists b b',
          RoomBooking_objects_get db id = inr b
          /\ RoomBooking_objects_get
               (snd (coordinator_action user (Some "approve") id db)) id
             = inr b'
          /\ coordinator_approved b' = true
          /\ hod_approved b' = hod_approved b)
  /\ (forall user id db,
        answered_200 (fst (hod_action user (Some "approve") id db)) ->
        exists b b',
          RoomBooking_objects_get db id = inr b
          /\ RoomBooking_objects_get
               (snd (hod_action user (Some "approve") id db)) id
             = inr b'
          /\ hod_approved b' = true
          /\ coordinator_approved b' = coordinator_approved b)
  /\ (forall user id db,
        (answered_200 (fst (coordinator_action user (Some "reject") id db)) ->
         exists b b',
           RoomBooking_objects_get db id = inr b
           /\ RoomBooking_objects_get
                (snd (coordinator_action user (Some "reject") id db)) id
              = inr b'
           /\ coordinator_approved b' = coordinator_approved b
           /\ hod_approved b' = hod_approved b)
        /\ (answered_200 (fst (hod_action user (Some "reject") id db)) ->
            exists b b',
              RoomBooking_objects_get db id = inr b
              /\ RoomBooking_objects_get
                   (snd (hod_action user (Some "reject") id db)) id
                 = inr b'
              /\ coordinator_approved b' = coordinator_approved b
              /\ hod_approved b' = hod_approved b))
  /\ (forall now user data db,
        status_code (fst (request_room now user data db)) = 201%nat ->
        exists b,
          bookings (snd (request_room now user data db))
            = (bookings db ++ [b])%list
          /\ booking_id b = next_booking_id db
          /\ coordinator_approved b = false /\ hod_approved b = false)
  /\ (forall user t id db b,
        role user = "teacher" -> teacher_profile user = Some t ->
        is_batch_coordinator t = true ->
        RoomBooking_objects_get db id = inr b ->
        fst (coordinator_action user (Some "approve") id db)
          = Returned (mkResponse (message "Action completed") 200)
        /\ exists b',
             RoomBooking_objects_get
               (snd (coordinator_action user (Some "approve") id db)) id
             = inr b'
             /\ coordinator_approved b' = true
             /\ hod_approved b' = hod_approved b)
  /\ (forall user t id db b,
        role user = "teacher" -> teacher_profile user = Some t ->
        is_hod t = true ->
        RoomBooking_objects_get db id = inr b ->
        fst (hod_action user (Some "approve") id db)
          = Returned (mkResponse (message "Final decision recorded") 200)
        /\ exists b',
             RoomBooking_objects_get
               (snd (hod_action user (Some "approve") id db)) id
             = inr b'
             /\ hod_approved b' = true
             /\ coordinator_approved b' = coordinator_approved b).
Proof.
  split; [|split; [|split; [|split; [|split; [|split; [|split; [|split]]]]]]].
  - intros now user data db.
    destruct (request_room_cases now user data db)
      as [(m & rm & dv & p & d & st & en & s & Heq & _)|[Heq _]];
      [right|now left].
    rewrite Heq; simpl. eexists. split; [reflexivity|]. now split.
  - exact serve_flags.
  - induction rs as [|r rs IH]; intros db id b Hget; simpl.
    + exists b. auto.
    + destruct (serve_flags db r id b Hget) as (b1 & H1 & [Hc Hh]).
      destruct (IH (serve db r) id b1 H1) as (b' & H' & Hc' & Hh').
      exists b'. split; [exact H'|]. split; intros Ht.
      * apply Hc'. destruct Hc; congruence.
      * apply Hh'. destruct Hh; congruence.
  - intros user id db H200.
    destruct (coordinator_action_cases user (Some "approve") id db)
      as [(b0 & H0 & _ & Heq)|[(b0 & _ & Ha & _)|[_ Hno]]];
      [|discriminate|contradiction].
    exists b0. eexists. split; [exact H0|]. rewrite Heq; simpl.
    destruct (RoomBooking_objects_get_inr db id b0 H0) as (_ & _ & Hid).
    split; [apply (RoomBooking_get_save_same db id b0); [exact H0|exact Hid]|].
    now split.
  - intros user id db H200.
    destruct (hod_action_cases user (Some "approve") id db)
      as [(b0 & H0 & _ & Heq)|[(b0 & _ & Ha & _)|[_ Hno]]];
      [|discriminate|contradiction].
    exists b0. eexists. split; [exact H0|]. rewrite Heq; simpl.
    destruct (RoomBooking_objects_get_inr db id b0 H0) as (_ & _ & Hid).
    split; [apply (RoomBooking_get_save_same db id b0); [exact H0|exact Hid]|].
    now split.
  - intros user id db. split; intros H200.
    + destruct (coordinator_action_cases user (Some "reject") id db)
        as [(b0 & _ & Ha & _)|[(b0 & H0 & _ & Heq)|[_ Hno]]];
        [discriminate| |contradiction].
      exists b0. eexists. split; [exact H0|]. rewrite Heq; simpl.
      destruct (RoomBooking_objects_get_inr db id b0 H0) as (_ & _ & Hid).
      split; [apply (RoomBooking_get_save_same db id b0); [exact H0|exact Hid]|].
      now split.
    + destruct (hod_action_cases user (Some "reject") id db)
        as [(b0 & _ & Ha & _)|[(b0 & H0 & _ & Heq)|[_ Hno]]];
        [discriminate| |contradiction].
      exists b0. eexists. split; [exact H0|]. rewrite Heq; simpl.
      destruct (RoomBooking_objects_get_inr db id b0 H0) as (_ & _ & Hid).
      split; [apply (RoomBooking_get_save_same db id b0); [exact H0|exact Hid]|].
      now split.
  - intros now user data db H201.
    destruct (request_room_cases now user data db)
      as [(m & rm & dv & p & d & st & en & s & Heq & _)|[_ Hno]];
      [|contradiction].
    rewrite Heq; simpl. eexists. split; [reflexivity|]. now repeat split.
  - intros user t id db b Hrole Hprofile Hflag Hget.
    rewrite (coordinator_action_found user t id db b Hrole Hprofile Hget
               (Some "approve") Hflag); simpl.
    split; [reflexivity|].
    destruct (RoomBooking_objects_get_inr db id b Hget) as (_ & _ & Hid).
    exists (set_coordinator_approved true (set_status PENDING_HOD b)).
    split; [apply (RoomBooking_get_save_same db id b); [exact Hget|exact Hid]|].
    now split.
  - intros user t id db b Hrole Hprofile Hflag Hget.
    rewrite (hod_action_found user t id db b Hrole Hprofile Hget
               (Some "approve") Hflag); simpl.
    split; [reflexivity|].
    destruct (RoomBooking_objects_get_inr db id b Hget) as (_ & _ & Hid).
    exists (set_hod_approved true (set_status APPROVED b)).
    split; [apply (RoomBooking_get_save_same db id b); [exact Hget|exact Hid]|].
    now split.
Qed.

(** C10 on the sample data. The request of a student of (MCA, 1, A) for
    room R is created with both flags false; the coordinator's approve
    sets [coordinator_approved] on it and the HOD's approve then sets
    [hod_approved]; and on the request of division (MCA, 1, B) that
    carries the coordinator's approval, [coordinator_approved] is still
    set after the HOD and then a coordinator have rejected it. *)
Lemma approval_flags_monotone_witness :
  (exists b,
     bookings (snd (request_room 0 student_A
                      (booking_data 1 day_D 600 660 "seminar") db_empty))
     = [b]
     /\ coordinator_approved b = false /\ hod_approved b = false)
  /\ (fst (coordinator_action coordinator_A (Some "approve") 1
             (db_request_A PENDING_COORDINATOR false false))
      = Returned (mkResponse (message "Action completed") 200)
      /\ exists b',
           RoomBooking_objects_get
             (snd (coordinator_action coordinator_A (Some "approve") 1
                     (db_request_A PENDING_COORDINATOR false false))) 1
           = inr b'
           /\ coordinator_approved b' = true /\ hod_approved b' = false)
  /\ (fst (hod_action hod_MCA (Some "approve") 1
             (db_request_A PENDING_HOD true false))
      = Returned (mkResponse (message "Final decision recorded") 200)
      /\ exists b',
           RoomBooking_objects_get
             (snd (hod_action hod_MCA (Some "approve") 1
                     (db_request_A PENDING_HOD true false))) 1
           = inr b'
           /\ hod_approved b' = true /\ coordinator_approved b' = true)
  /\ (exists b',
        RoomBooking_objects_get
          (serve_all db_pending_hod_B
             [POST_hod_action hod_MCA (Some "reject") 1;
              POST_coordinator_action coordinator_A (Some "reject") 1]) 1
        = inr b'
        /\ coordinator_approved b' = true).
Proof.
  destruct approval_flags_monotone
    as (_ & _ & Hrun & _ & _ & _ & Hnew & Hcoord & Hhod).
  split; [|split; [|split]].
  - destruct (Hnew 0 student_A (booking_data 1 day_D 600 660 "seminar")
                db_empty eq_refl) as (b & Hb & _ & Hc & Hh).
    exists b. split; [exact Hb|]. split; [exact Hc|exact Hh].
  - exact (Hcoord coordinator_A
             (mkTeacher true (Some "MCA") (Some 1) (Some "A") false None)
             1%nat (db_request_A PENDING_COORDINATOR false false)
             (sample_booking 1 10 (Some MCA_1_A) 600 660
                PENDING_COORDINATOR false false)
             eq_refl eq_refl eq_refl eq_refl).
  - exact (Hhod hod_MCA (mkTeacher false None None None true (Some "MCA"))
             1%nat (db_request_A PENDING_HOD true false)
             (sample_booking 1 10 (Some MCA_1_A) 600 660
                PENDING_HOD true false)
             eq_refl eq_refl eq_refl eq_refl).
  - destruct (Hrun [POST_hod_action hod_MCA (Some "reject") 1;
                    POST_coordinator_action coordinator_A (Some "reject") 1]
                db_pending_hod_B 1%nat
                (sample_booking 1 11 (Some MCA_1_B) 600 660 PENDING_HOD true
                   false)
                eq_refl) as (b' & Hget & Hc & _).
    exists b'. split; [exact Hget|]. apply Hc. reflexivity.
Defined.

(* ================================================================= *)
(** ** Ordered listings *)

Section OrderBy.

Variables (A : Type) (le : A -> A -> bool).

Hypothesis le_total : forall a b, le a b = false -> le b a = true.
Hypothesis le_trans : forall a b c, le a b = true -> le b c = true -> le a c = true.

Lemma insert_by_perm (x : A) (l : list A) :
  Permutation (x :: l) (insert_by le x l).
Proof.
  induction l as [|y l IH]; simpl; [reflexivity|].
  destruct (le x y); [reflexivity|].
  rewrite perm_swap. now constructor.
Qed.

Lemma order_by_perm (l : list A) : Permutation l (order_by le l).
Proof.
  induction l as [|x l IH]; simpl; [constructor|].
  rewrite <- insert_by_perm. now constructor.
Qed.

Lemma insert_by_sorted (x : A) (l : list A) :
  StronglySorted (fun a b => le a b = true) l ->
  StronglySorted (fun a b => le a b = true) (insert_by le x l).
Proof.
  induction l as [|y l IH]; simpl; intros Hs.
  - repeat constructor.
  - inversion Hs as [|? ? Hs' Hall]; subst.
    destruct (le x y) eqn:E.
    + constructor; [exact Hs|]. constructor; [exact E|].
      rewrite Forall_forall in *. intros z Hz. eauto.
    + constructor; [auto|].
      rewrite Forall_forall in *. intros z Hz.
      apply (Permutation_in _ (Permutation_sym (insert_by_perm x l))) in Hz.
      destruct Hz as [<-|Hz]; auto.
Qed.

Lemma order_by_sorted (l : list A) :
  StronglySorted (fun a b => le a b = true) (order_by le l).
Proof.
  induction l as [|x l IH]; simpl; [constructor|].
  now apply insert_by_sorted.
Qed.

End OrderBy.

Lemma StronglySorted_weaken (A : Type) (R S : A -> A -> Prop) (l : list A) :
  (forall a b, R a b -> S a b) -> StronglySorted R l -> StronglySorted S l.
Proof.
  intros HRS. induction 1 as [|a l Hs IH Hall]; constructor; auto.
  rewrite Forall_forall in *. auto.
Qed.

Lemma by_date_then_start_spec (a b : RoomBooking) :
  by_date_then_start a b = true <-> date_then_start a b.
Proof.
  unfold by_date_then_start, date_then_start.
  rewrite orb_true_iff, andb_true_iff, Z.ltb_lt, Z.eqb_eq, Z.leb_le.
  tauto.
Qed.

Lemma by_date_then_start_total (a b : RoomBooking) :
  by_date_then_start a b = false -> by_date_then_start b a = true.
Proof.
  intros H. apply by_date_then_start_spec.
  assert (Hn : ~ date_then_start a b)
    by (rewrite <- by_date_then_start_spec; congruence).
  unfold date_then_start in *. lia.
Qed.

Lemma by_date_then_start_trans (a b c : RoomBooking) :
  by_date_then_start a b = true -> by_date_then_start b c = true ->
  by_date_then_start a c = true.
Proof.
  rewrite !by_date_then_start_spec. unfold date_then_start. lia.
Qed.

Lemma nullable_le_total (a b : option Z) :
  nullable_le a b = false -> nullable_le b a = true.
Proof.
  destruct a, b; simpl; try congruence.
  rewrite Z.leb_gt, Z.leb_le. lia.
Qed.

Lemma nullable_le_trans (a b c : option Z) :
  nullable_le a b = true -> nullable_le b c = true -> nullable_le a c = true.
Proof.
  destruct a, b, c; simpl; try congruence.
  rewrite !Z.leb_le. lia.
Qed.

(** X1. [room_booking_log] shows the approved bookings and nothing else,
    each as often as the table holds it, in ascending order of
    (booking_date, start_time). *)
Theorem room_booking_log_sorted_approved (db : DB) :
  Permutation
    (filter (fun b => BookingStatus_eqb (status b) APPROVED) (bookings db))
    (room_booking_log db)
  /\ StronglySorted date_then_start (room_booking_log db)
  /\ (forall b, In b (room_booking_log db) <->
                In b (bookings db) /\ status b = APPROVED).
Proof.
  unfold room_booking_log.
  set (approved := filter _ (bookings db)).
  assert (Hp : Permutation approved (order_by by_date_then_start approved))
    by apply order_by_perm.
  split; [exact Hp|]. split.
  - eapply StronglySorted_weaken;
      [|apply order_by_sorted;
        [exact by_date_then_start_total|exact by_date_then_start_trans]].
    intros a b. apply by_date_then_start_spec.
  - intros b. split.
    + intros H. apply (Permutation_in _ (Permutation_sym Hp)) in H.
      unfold approved in H. apply filter_In in H.
      now rewrite BookingStatus_eqb_eq in H.
    + intros [Hin Hs]. apply (Permutation_in _ Hp).
      apply filter_In. now rewrite BookingStatus_eqb_eq.
Qed.

Lemma LeaveStatus_eqb_eq (a b : LeaveStatus) :
  LeaveStatus_eqb a b = true <-> a = b.
Proof. destruct a, b; simpl; split; congruence. Qed.

Lemma by_decision_desc_spec (a b : StudentLeave) :
  by_decision_desc a b = true <-> latest_decision_first a b.
Proof.
  unfold by_decision_desc, latest_decision_first, nullable_le.
  destruct (decision_at b), (decision_at a); try rewrite Z.leb_le;
    intuition congruence.
Qed.

(** The guard of a view that wants a teacher with a flag set: what it
    answers, by role, profile and flag. *)
Lemma not_teacher_with_cases (flag : Teacher -> bool) (user : User) :
  (role user <> "teacher" /\ not_teacher_with flag user = inr true)
  \/ (role user = "teacher" /\ teacher_profile user = None
      /\ not_teacher_with flag user
         = inl (RelatedObjectDoesNotExist "User has no teacher_profile."))
  \/ (exists t, role user = "teacher" /\ teacher_profile user = Some t
                /\ not_teacher_with flag user = inr (negb (flag t))).
Proof.
  unfold not_teacher_with, get_teacher_profile.
  destruct (String.eqb (role user) "teacher") eqn:E; simpl.
  - apply String.eqb_eq in E. right.
    destruct (teacher_profile user) as [t|]; [right; now exists t|now left].
  - apply String.eqb_neq in E. now left.
Qed.

(** X2. [leave_log] refuses with 403 exactly the users who are not
    teachers and the teachers who are neither batch coordinator nor HOD;
    to the others it shows every approved leave, of whatever division,
    and nothing else, the latest decision first. *)
Theorem leave_log_guard_and_order (user : User) (db : DB) :
  (leave_log user db
     = Denied (Returned
                 (mkResponse
                    (error "Only Batch Coordinators or HOD can view leave log")
                    403))
   <-> role user <> "teacher"
       \/ exists t, teacher_profile user = Some t
                    /\ is_batch_coordinator t = false /\ is_hod t = false)
  /\ (forall t, role user = "teacher" -> teacher_profile user = Some t ->
        is_batch_coordinator t = true \/ is_hod t = true ->
        exists rows,
          leave_log user db = Rows rows
          /\ Permutation
               (filter (fun l => LeaveStatus_eqb (leave_status l) LEAVE_APPROVED)
                  (leaves db)) rows
          /\ StronglySorted latest_decision_first rows
          /\ (forall l, In l rows <->
                        In l (leaves db) /\ leave_status l = LEAVE_APPROVED)).
Proof.
  unfold leave_log. split.
  - destruct (not_teacher_with_cases
                (fun t => is_batch_coordinator t || is_hod t) user)
      as [[Hr ->]|[(Hr & Hp & ->)|(t & Hr & Hp & ->)]].
    + split; auto.
    + split; [discriminate|].
      intros [H|(t & Ht & _)]; congruence.
    + destruct (is_batch_coordinator t) eqn:Hc, (is_hod t) eqn:Hh; simpl;
        (split; [try discriminate|]).
      all: try (intros [H|(t' & Ht' & Hc' & Hh')]; [congruence|];
                assert (t' = t) by congruence; subst; congruence).
      intros _. right. now exists t.
  - intros t Hr Hp Hflag.
    rewrite (not_teacher_with_teacher _ user t Hr Hp).
    assert (E : is_batch_coordinator t || is_hod t = true)
      by (destruct Hflag as [-> | ->]; auto using orb_true_r).
    rewrite E; simpl.
    set (approved := filter _ (leaves db)).
    assert (Hperm : Permutation approved (order_by by_decision_desc approved))
      by apply order_by_perm.
    eexists. split; [reflexivity|]. split; [exact Hperm|]. split.
    + eapply StronglySorted_weaken; [|apply order_by_sorted].
      * intros a b. apply by_decision_desc_spec.
      * intros a b. apply nullable_le_total.
      * intros a b c H1 H2. unfold by_decision_desc in *.
        eapply nullable_le_trans; eauto.
    + intros l. split.
      * intros H. apply (Permutation_in _ (Permutation_sym Hperm)) in H.
        unfold approved in H. apply filter_In in H.
        now rewrite LeaveStatus_eqb_eq in H.
      * intros [Hin Hs]. apply (Permutation_in _ Hperm).
        apply filter_In. now rewrite LeaveStatus_eqb_eq.
Qed.

(** X2 on the sample data: the HOD of MMS is shown the approved leave of
    a student of (MCA, 1, A). *)
Lemma leave_log_guard_and_order_witness :
  exists rows,
    leave_log hod_MMS
      (db_leave (sample_leave LEAVE_APPROVED (Some "ok") (Some 60)))
    = Rows rows
    /\ In (sample_leave LEAVE_APPROVED (Some "ok") (Some 60)) rows.
Proof.
  destruct (leave_log_guard_and_order hod_MMS
              (db_leave (sample_leave LEAVE_APPROVED (Some "ok") (Some 60))))
    as [_ H].
  destruct (H (mkTeacher false None None None true (Some "MMS"))
              eq_refl eq_refl (or_intror eq_refl))
    as (rows & Hrows & _ & _ & Hin).
  exists rows. split; [exact Hrows|].
  apply Hin. split; [now left|reflexivity].
Defined.

(** X3. [my_leaves] answers 403 to every user who is not a student and
    fails with an uncaught exception for a student without profile; to a
    student with a profile it lists the leaves filed under the student's
    roll number and no other, the latest application first. *)
Theorem my_leaves_own_leaves (user : User) (db : DB) :
  (role user <> "student" ->
   my_leaves user db = Returned (mkResponse (error "Unauthorized") 403))
  /\ (role user = "student" -> student_profile user = None ->
      my_leaves user db
      = Uncaught (RelatedObjectDoesNotExist "User has no student_profile."))
  /\ (forall sp, role user = "student" -> student_profile user = Some sp ->
        exists rows,
          my_leaves user db
          = Returned (mkResponse (listing (map leave_id rows)) 200)
          /\ StronglySorted latest_application_first rows
          /\ (forall l, In l rows <->
                        In l (leaves db)
                        /\ leave_student l = roll_number sp)).
Proof.
  unfold my_leaves, get_student_profile. split; [|split].
  - intros Hr. apply String.eqb_neq in Hr. now rewrite Hr.
  - intros Hr Hp. now rewrite Hr, Hp.
  - intros sp Hr Hp. rewrite Hr, Hp; simpl.
    set (own := filter _ (leaves db)).
    assert (Hperm : Permutation own (order_by by_applied_desc own))
      by apply order_by_perm.
    eexists. split; [reflexivity|]. split.
    + eapply StronglySorted_weaken; [|apply order_by_sorted].
      * intros a b. unfold by_applied_desc, latest_application_first.
        apply Z.leb_le.
      * intros a b. unfold by_applied_desc. rewrite Z.leb_gt, Z.leb_le. lia.
      * intros a b c. unfold by_applied_desc. rewrite !Z.leb_le. lia.
    + intros l. split.
      * intros H. apply (Permutation_in _ (Permutation_sym Hperm)) in H.
        unfold own in H. apply filter_In in H.
        now rewrite String.eqb_eq in H.
      * intros [Hin Hs]. apply (Permutation_in _ Hperm).
        apply filter_In. now rewrite String.eqb_eq.
Qed.

(** X3 on the sample data: student A sees the leave filed under MCA-01,
    student B does not. *)
Lemma my_leaves_own_leaves_witness :
  my_leaves student_A (db_leave (sample_leave LEAVE_PENDING None None))
    = Returned (mkResponse (listing [1%nat]) 200)
  /\ my_leaves student_B (db_leave (sample_leave LEAVE_PENDING None None))
     = Returned (mkResponse (listing []) 200)
  /\ my_leaves plain_teacher (db_leave (sample_leave LEAVE_PENDING None None))
     = Returned (mkResponse (error "Unauthorized") 403).
Proof.
  split; [reflexivity|]. split; [reflexivity|].
  apply (my_leaves_own_leaves plain_teacher
           (db_leave (sample_leave LEAVE_PENDING None None))).
  discriminate.
Defined.

(* ================================================================= *)
(** ** What a request does to the tables *)

(** [UPDATE ... WHERE id = ...] on the booking table. *)
Lemma RoomBooking_save_bookings (b0 b' : RoomBooking) (db : DB) :
  In b0 (bookings db) -> booking_id b' = booking_id b0 ->
  bookings (RoomBooking_save b' db)
  = map (fun r => if Nat.eqb (booking_id r) (booking_id b') then b' else r)
      (bookings db).
Proof.
  intros Hin Hid. unfold RoomBooking_save; simpl.
  assert (E : existsb (fun r => Nat.eqb (booking_id r) (booking_id b'))
                (bookings db) = true).
  { apply existsb_exists. exists b0. split; [exact Hin|].
    rewrite Hid. apply Nat.eqb_refl. }
  now rewrite E.
Qed.

(** [UPDATE ... WHERE id = ...] on the leave table. *)
Lemma StudentLeave_save_leaves (l0 l' : StudentLeave) (db : DB) :
  In l0 (leaves db) -> leave_id l' = leave_id l0 ->
  leaves (StudentLeave_save l' db)
  = map (fun r => if Nat.eqb (leave_id r) (leave_id l') then l' else r)
      (leaves db).
Proof.
  intros Hin Hid. unfold StudentLeave_save; simpl.
  assert (E : existsb (fun r => Nat.eqb (leave_id r) (leave_id l'))
                (leaves db) = true).
  { apply existsb_exists. exists l0. split; [exact Hin|].
    rewrite Hid. apply Nat.eqb_refl. }
  now rewrite E.
Qed.

(** A creation by [request_room]: the room is one of the table, a
    student's request has a division and waits for the coordinator, a
    teacher's has none and waits for the HOD. *)
Lemma request_room_created_row now user data db :
  status_code (fst (request_room now user data db)) = 201%nat ->
  exists rm dv p d st en s,
    In rm (rooms db)
    /\ snd (request_room now user data db)
       = RoomBooking_objects_create now db rm user dv p d st en s
    /\ (s = PENDING_COORDINATOR /\ dv <> None
        \/ s = PENDING_HOD /\ dv = None).
Proof.
  unfold request_room.
  destruct data as [orid od ost oen op]; simpl.
  destruct orid as [rid|]; simpl; [|discriminate].
  destruct (Room_objects_get db rid) as [e|rm] eqn:Hrm; simpl;
    [destruct e; discriminate|].
  apply Room_objects_get_inr in Hrm. destruct Hrm as [Hin _].
  destruct od as [d|]; simpl; [|discriminate].
  destruct ost as [st|]; simpl; [|discriminate].
  destruct oen as [en|]; simpl; [|discriminate].
  destruct (clash_exists db rm d st en); simpl; [discriminate|].
  destruct (String.eqb (role user) "student"); simpl.
  - unfold get_student_profile.
    destruct (student_profile user) as [sp|]; simpl; [|discriminate].
    destruct op as [p|]; simpl; [|discriminate].
    intros _. do 7 eexists. split; [exact Hin|]. split; [reflexivity|].
    left. split; [reflexivity|discriminate].
  - destruct (String.eqb (role user) "teacher"); simpl; [|discriminate].
    destruct op as [p|]; simpl; [|discriminate].
    intros _. do 7 eexists. split; [exact Hin|]. split; [reflexivity|].
    right. split; reflexivity.
Qed.

(** What a request of the workflows does to the booking table: nothing;
    or it appends one pending row under the counter's key, for a room
    that exists; or it rewrites the rows of one key with a decided version
    of a row that was there. *)
Lemma serve_bookings (db : DB) (r : Request) :
  (bookings (serve db r) = bookings db
   /\ next_booking_id (serve db r) = next_booking_id db)
  \/ (exists b,
        bookings (serve db r) = (bookings db ++ [b])%list
        /\ next_booking_id (serve db r) = S (next_booking_id db)
        /\ booking_id b = next_booking_id db
        /\ (exists rm, In rm (rooms db) /\ room_id rm = room b)
        /\ coordinator_approved b = false /\ hod_approved b = false
        /\ (status b = PENDING_COORDINATOR /\ division b <> None
            \/ status b = PENDING_HOD /\ division b = None))
  \/ (exists b0 b',
        RoomBooking_objects_get db (booking_id b0) = inr b0
        /\ In b0 (bookings db)
        /\ bookings (serve db r)
           = map (fun x => if Nat.eqb (booking_id x) (booking_id b')
                           then b' else x) (bookings db)
        /\ next_booking_id (serve db r) = next_booking_id db
        /\ same_request b0 b'
        /\ (status b' = PENDING_HOD /\ coordinator_approved b' = true
            \/ status b' = APPROVED /\ hod_approved b' = true
            \/ status b' = REJECTED)).
Proof.
  destruct r as [now user data|user action id0|user action id0
                |now user data|now user action remark id0]; simpl.
  - destruct (request_room_cases now user data db)
      as [(m & rm & dv & p & d & st & en & s & Heq & _)|[Heq _]].
    + right; left.
      assert (H201 : status_code (fst (request_room now user data db))
                     = 201%nat) by now rewrite Heq.
      destruct (request_room_created_row now user data db H201)
        as (rm' & dv' & p' & d' & st' & en' & s' & Hin & Hdb & Hs).
      rewrite Hdb. eexists. split; [reflexivity|]. simpl.
      repeat split; auto. now exists rm'.
    + left. now rewrite Heq.
  - destruct (coordinator_action_cases user action id0 db)
      as [(b0 & H0 & _ & Heq)|[(b0 & H0 & _ & Heq)|[Heq _]]];
      rewrite Heq; simpl; [| |now left].
    + right; right.
      destruct (RoomBooking_objects_get_inr db id0 b0 H0) as (_ & Hin & Hid).
      exists b0, (set_coordinator_approved true (set_status PENDING_HOD b0)).
      split; [now rewrite Hid|]. split; [exact Hin|].
      split; [exact (RoomBooking_save_bookings b0 (set_coordinator_approved true (set_status PENDING_HOD b0)) db Hin eq_refl)|].
      split; [reflexivity|]. split; [repeat split|]. left. now split.
    + right; right.
      destruct (RoomBooking_objects_get_inr db id0 b0 H0) as (_ & Hin & Hid).
      exists b0, (set_status REJECTED b0).
      split; [now rewrite Hid|]. split; [exact Hin|].
      split; [exact (RoomBooking_save_bookings b0 (set_status REJECTED b0) db Hin eq_refl)|].
      split; [reflexivity|]. split; [repeat split|]. right; right. reflexivity.
  - destruct (hod_action_cases user action id0 db)
      as [(b0 & H0 & _ & Heq)|[(b0 & H0 & _ & Heq)|[Heq _]]];
      rewrite Heq; simpl; [| |now left].
    + right; right.
      destruct (RoomBooking_objects_get_inr db id0 b0 H0) as (_ & Hin & Hid).
      exists b0, (set_hod_approved true (set_status APPROVED b0)).
      split; [now rewrite Hid|]. split; [exact Hin|].
      split; [exact (RoomBooking_save_bookings b0 (set_hod_approved true (set_status APPROVED b0)) db Hin eq_refl)|].
      split; [reflexivity|]. split; [repeat split|]. right; left. now split.
    + right; right.
      destruct (RoomBooking_objects_get_inr db id0 b0 H0) as (_ & Hin & Hid).
      exists b0, (set_status REJECTED b0).
      split; [now rewrite Hid|]. split; [exact Hin|].
      split; [exact (RoomBooking_save_bookings b0 (set_status REJECTED b0) db Hin eq_refl)|].
      split; [reflexivity|]. split; [repeat split|]. right; right. reflexivity.
  - left. split; [apply apply_leave_bookings|].
    unfold apply_leave.
    destruct (negb (String.eqb (role user) "student")); [reflexivity|].
    unfold get_student_profile.
    destruct (student_profile user) as [sp|]; [|reflexivity]. simpl.
    destruct data as [[r|] [f|] [t|] doc]; simpl; try reflexivity.
    destruct (StudentLeave_full_clean _) as [[]|[]]; reflexivity.
  - left. split; [apply coordinator_leave_action_bookings|].
    unfold coordinator_leave_action.
    destruct (not_teacher_with is_batch_coordinator user) as [e|[|]];
      try reflexivity.
    destruct (StudentLeave_objects_get db id0) as [[]|l]; simpl;
      try reflexivity.
    destruct (action_is action "approve"); [reflexivity|].
    destruct (action_is action "reject"); reflexivity.
Qed.

(** What an [apply_leave] call comes to: a leave filed for a student with
    a profile, a non-blank reason and dates in order; or the database as
    it was. *)
Lemma apply_leave_cases now user data db :
  (exists sp r f t,
     role user = "student" /\ student_profile user = Some sp
     /\ data_reason data = Some r /\ data_from_date data = Some f
     /\ data_to_date data = Some t
     /\ r <> EmptyString /\ f <= t
     /\ apply_leave now user data db
        = (Returned
             (mkResponse (message "Leave request sent to Batch Coordinator")
                201),
           StudentLeave_insert now
             (mkStudentLeave 0 (roll_number sp) (student_division sp) r f t
                (files_document data) LEAVE_PENDING None now None) db))
  \/ (snd (apply_leave now user data db) = db
      /\ forall r, fst (apply_leave now user data db) = Returned r ->
                   status_code r <> 201%nat).
Proof.
  unfold apply_leave.
  destruct (String.eqb (role user) "student") eqn:Hr; simpl;
    [|right; split; [reflexivity|intros r H; injection H as <-; discriminate]].
  apply String.eqb_eq in Hr. unfold get_student_profile.
  destruct (student_profile user) as [sp|]; simpl;
    [|right; split; [reflexivity|discriminate]].
  destruct data as [[r|] [f|] [t|] doc]; simpl;
    try (right; split; [reflexivity|discriminate]).
  unfold StudentLeave_full_clean, StudentLeave_clean,
    StudentLeave_clean_fields; simpl.
  destruct (String.eqb r EmptyString) eqn:Eb, (t <? f) eqn:Ed; simpl;
    try (right; split;
         [reflexivity|intros x H; injection H as <-; discriminate]).
  left. apply String.eqb_neq in Eb. apply Z.ltb_ge in Ed.
  exists sp, r, f, t. repeat split; auto.
Qed.

(** What a [coordinator_leave_action] call comes to: an approval or a
    rejection saved on the fetched leave, or the database as it was. *)
Lemma coordinator_leave_action_cases now user action remark id db :
  (exists l s,
     StudentLeave_objects_get db id = inr l
     /\ (action = Some "approve" /\ s = LEAVE_APPROVED
         \/ action = Some "reject" /\ s = LEAVE_REJECTED)
     /\ coordinator_leave_action now user action remark id db
        = (Returned (mkResponse (message "Leave decision recorded") 200),
           StudentLeave_save
             (set_decision_at (Some now)
                (set_coordinator_remark
                   (data_get_default remark EmptyString)
                   (set_leave_status s l))) db))
  \/ (snd (coordinator_leave_action now user action remark id db) = db
      /\ ~ answered_200
             (fst (coordinator_leave_action now user action remark id db))).
Proof.
  unfold coordinator_leave_action.
  destruct (not_teacher_with is_batch_coordinator user) as [e|[|]];
    simpl; try (right; split; [reflexivity|not_200]).
  destruct (StudentLeave_objects_get db id) as [e|l]; simpl;
    [destruct e; right; (split; [reflexivity|not_200])|].
  destruct (action_is action "approve") eqn:Ha; simpl.
  - apply action_is_true in Ha. left. exists l, LEAVE_APPROVED. auto.
  - destruct (action_is action "reject") eqn:Hr; simpl;
      [|right; split; [reflexivity|not_200]].
    apply action_is_true in Hr. left. exists l, LEAVE_REJECTED. auto.
Qed.

(** What a request of the workflows does to the leave table: nothing; or
    it appends one pending leave under the counter's key; or it rewrites
    the rows of one key with a decided version of a leave that was
    there. *)
Lemma serve_leaves (db : DB) (r : Request) :
  (leaves (serve db r) = leaves db
   /\ next_leave_id (serve db r) = next_leave_id db)
  \/ (exists l,
        leaves (serve db r) = (leaves db ++ [l])%list
        /\ next_leave_id (serve db r) = S (next_leave_id db)
        /\ leave_id l = next_leave_id db
        /\ leave_status l = LEAVE_PENDING
        /\ decision_at l = None /\ coordinator_remark l = None
        /\ from_date l <= to_date l /\ reason l <> EmptyString)
  \/ (exists l0 l',
        StudentLeave_objects_get db (leave_id l0) = inr l0
        /\ In l0 (leaves db)
        /\ leaves (serve db r)
           = map (fun x => if Nat.eqb (leave_id x) (leave_id l')
                           then l' else x) (leaves db)
        /\ next_leave_id (serve db r) = next_leave_id db
        /\ same_application l0 l'
        /\ (leave_status l' = LEAVE_APPROVED
            \/ leave_status l' = LEAVE_REJECTED)
        /\ decision_at l' <> None).
Proof.
  destruct r as [now user data|user action id0|user action id0
                |now user data|now user action remark id0]; simpl.
  - left.
    destruct (request_room_cases now user data db)
      as [(m & rm & dv & p & d & st & en & s & Heq & _)|[Heq _]];
      rewrite Heq; simpl; auto.
  - left.
    destruct (coordinator_action_cases user action id0 db)
      as [(b0 & _ & _ & Heq)|[(b0 & _ & _ & Heq)|[Heq _]]];
      rewrite Heq; simpl; auto.
  - left.
    destruct (hod_action_cases user action id0 db)
      as [(b0 & _ & _ & Heq)|[(b0 & _ & _ & Heq)|[Heq _]]];
      rewrite Heq; simpl; auto.
  - destruct (apply_leave_cases now user data db)
      as [(sp & rs & f & t & _ & _ & _ & _ & _ & Hrs & Hft & Heq)|[Heq _]].
    + right; left. rewrite Heq; simpl. eexists. split; [reflexivity|].
      simpl. repeat split; auto.
    + left. now rewrite Heq.
  - destruct (coordinator_leave_action_cases now user action remark id0 db)
      as [(l & s & Hl & Hs & Heq)|[Heq _]].
    + right; right. rewrite Heq; simpl.
      destruct (StudentLeave_objects_get_inr db id0 l Hl) as (_ & Hin & Hid).
      set (l' := set_decision_at (Some now)
                   (set_coordinator_remark
                      (data_get_default remark EmptyString)
                      (set_leave_status s l))).
      exists l, l'.
      split; [now rewrite Hid|]. split; [exact Hin|].
      split; [exact (StudentLeave_save_leaves l l' db Hin eq_refl)|].
      split; [reflexivity|]. split; [repeat split|]. simpl.
      split; [destruct Hs as [[_ ->]|[_ ->]]; auto|]. discriminate.
    + left. now rewrite Heq.
Qed.

(** No request of the workflows writes the room table. *)
Lemma serve_rooms (db : DB) (r : Request) : rooms (serve db r) = rooms db.
Proof.
  destruct r as [now user data|user action id0|user action id0
                |now user data|now user action remark id0]; simpl.
  - destruct (request_room_cases now user data db)
      as [(m & rm & dv & p & d & st & en & s & Heq & _)|[Heq _]];
      now rewrite Heq.
  - destruct (coordinator_action_cases user action id0 db)
      as [(b0 & _ & _ & Heq)|[(b0 & _ & _ & Heq)|[Heq _]]]; now rewrite Heq.
  - destruct (hod_action_cases user action id0 db)
      as [(b0 & _ & _ & Heq)|[(b0 & _ & _ & Heq)|[Heq _]]]; now rewrite Heq.
  - destruct (apply_leave_cases now user data db)
      as [(sp & rs & f & t & _ & _ & _ & _ & _ & _ & _ & Heq)|[Heq _]];
      now rewrite Heq.
  - destruct (coordinator_leave_action_cases now user action remark id0 db)
      as [(l & s & _ & _ & Heq)|[Heq _]]; now rewrite Heq.
Qed.

Section Replace.

Variables (A : Type) (key : A -> nat) (row : A).

Let replaced (x : A) : A := if Nat.eqb (key x) (key row) then row else x.

Lemma map_replace_keys (l : list A) :
  map key (map replaced l) = map key l.
Proof.
  unfold replaced. induction l as [|x l IH]; simpl; [reflexivity|].
  rewrite IH. destruct (Nat.eqb (key x) (key row)) eqn:E; [|reflexivity].
  apply Nat.eqb_eq in E. now rewrite E.
Qed.

Lemma in_map_replace (l : list A) (x : A) :
  In x (map replaced l) ->
  (x = row /\ exists y, In y l /\ key y = key row) \/ In x l.
Proof.
  unfold replaced. rewrite in_map_iff. intros (y & Hy & Hin).
  destruct (Nat.eqb (key y) (key row)) eqn:E.
  - apply Nat.eqb_eq in E. left. split; [congruence|]. now exists y.
  - right. congruence.
Qed.

Lemma replace_in_map (l : list A) (y : A) :
  In y l -> In (replaced y) (map replaced l).
Proof. apply in_map. Qed.

End Replace.

(** What a [manage_room] call does: it never writes the booking and leave
    tables; the room table is as it was, or one room has been rewritten
    under its key with a number no other room holds, or one room that no
    booking references has been removed. *)
Lemma manage_room_cases user method data id db :
  bookings (snd (manage_room user method data id db)) = bookings db
  /\ next_booking_id (snd (manage_room user method data id db))
     = next_booking_id db
  /\ leaves (snd (manage_room user method data id db)) = leaves db
  /\ next_leave_id (snd (manage_room user method data id db))
     = next_leave_id db
  /\ (rooms (snd (manage_room user method data id db)) = rooms db
      \/ (exists rm rm',
            In rm (rooms db) /\ room_id rm' = room_id rm
            /\ (forall x, In x (rooms db) -> room_id x <> room_id rm' ->
                          room_number x <> room_number rm')
            /\ rooms (snd (manage_room user method data id db))
               = map (fun x => if Nat.eqb (room_id x) (room_id rm')
                               then rm' else x) (rooms db))
      \/ (exists rm,
            In rm (rooms db)
            /\ (forall b, In b (bookings db) -> room b <> room_id rm)
            /\ rooms (snd (manage_room user method data id db))
               = filter (fun x => negb (Nat.eqb (room_id x) (room_id rm)))
                   (rooms db))).
Proof.
  unfold manage_room.
  destruct (negb (String.eqb (role user) "admin")); simpl; [tauto|].
  destruct (Room_objects_get db id) as [e|rm] eqn:Hrm; simpl; [tauto|].
  apply Room_objects_get_inr in Hrm. destruct Hrm as [Hin _].
  destruct method.
  - unfold Room_save.
    destruct (get_prep_value _) as [e|[z|]]; simpl; [tauto| |];
      destruct (data_get_default (data_room_number data) (room_number rm))
        as [n|]; simpl; try tauto;
      (destruct (negb (sqlite_integer z)); simpl; [tauto|]); try tauto.
    destruct (data_get_default (data_room_type data) (room_type rm))
      as [t|]; simpl; [|tauto].
    destruct (z <? 0); simpl; [tauto|].
    destruct (existsb
                (fun x => negb (Nat.eqb (room_id x) (room_id rm))
                          && String.eqb (room_number x) n)
                (rooms db)) eqn:E; simpl; [tauto|].
    repeat split. right; left.
    exists rm, (mkRoom (room_id rm) n (Z.to_nat z) t).
    split; [exact Hin|]. split; [reflexivity|]. split; [|reflexivity].
    simpl. intros x Hx Hne Hnum.
    assert (Hex : existsb
              (fun x => negb (Nat.eqb (room_id x) (room_id rm))
                        && String.eqb (room_number x) n)
              (rooms db) = true).
    { apply existsb_exists. exists x. split; [exact Hx|].
      apply andb_true_iff. split.
      - apply negb_true_iff, Nat.eqb_neq. exact Hne.
      - apply String.eqb_eq. exact Hnum. }
    congruence.
  - unfold Room_delete.
    destruct (existsb (fun b => Nat.eqb (room b) (room_id rm)) (bookings db))
      eqn:E; simpl; [tauto|].
    repeat split. right; right. exists rm.
    split; [exact Hin|]. split; [|reflexivity].
    intros b Hb Hroom.
    assert (Hex : existsb (fun b => Nat.eqb (room b) (room_id rm))
                    (bookings db) = true).
    { apply existsb_exists. exists b. split; [exact Hb|].
      now apply Nat.eqb_eq. }
    congruence.
Qed.

Lemma tables_consistent_serve (db : DB) (r : Request) :
  tables_consistent db -> tables_consistent (serve db r).
Proof.
  intros (Hk & Hn & Hlk & Hln & Hfk).
  unfold tables_consistent, keys_below_counter, leave_keys_below_counter,
    rooms_referenced.
  rewrite serve_rooms.
  assert (HB : keys_below_counter (serve db r)
               /\ NoDup (map booking_id (bookings (serve db r)))
               /\ rooms_referenced
                    (mkDB (rooms db) (bookings (serve db r)) 0 [] 0)).
  { destruct (serve_bookings db r)
      as [[Hb Hc]|[(b & Hb & Hc & Hid & (rm & Hrm & Hroom) & _)
                  |(b0 & b' & _ & Hin & Hb & Hc & Hsame & _)]].
    - unfold keys_below_counter, rooms_referenced; simpl.
      rewrite Hb, Hc. auto.
    - unfold keys_below_counter, rooms_referenced; simpl.
      rewrite Hb, Hc. split; [|split].
      + intros x Hx. apply in_app_iff in Hx.
        destruct Hx as [Hx|[<-|[]]]; [apply Hk in Hx|]; lia.
      + rewrite map_app; simpl.
        apply Permutation_NoDup with (l := (booking_id b :: map booking_id (bookings db))%list).
        * apply Permutation_cons_append.
        * constructor; [|exact Hn].
          rewrite in_map_iff. intros (y & Hy & Hyin).
          apply Hk in Hyin. lia.
      + intros x Hx. apply in_app_iff in Hx.
        destruct Hx as [Hx|[<-|[]]]; [now apply Hfk|].
        now exists rm.
    - unfold keys_below_counter, rooms_referenced; simpl.
      rewrite Hb, Hc. destruct Hsame as (Hid & Hroom & _).
      split; [|split].
      + intros x Hx. apply in_map_replace in Hx.
        destruct Hx as [[-> _]|Hx]; [|now apply Hk].
        rewrite Hid. now apply Hk.
      + now rewrite map_replace_keys.
      + intros x Hx. apply in_map_replace in Hx.
        destruct Hx as [[-> _]|Hx]; [|now apply Hfk].
        rewrite Hroom. now apply Hfk. }
  assert (HL : leave_keys_below_counter (serve db r)
               /\ NoDup (map leave_id (leaves (serve db r)))).
  { destruct (serve_leaves db r)
      as [[Hl Hc]|[(l & Hl & Hc & Hid & _)
                  |(l0 & l' & _ & Hin & Hl & Hc & Hsame & _)]].
    - unfold leave_keys_below_counter. rewrite Hl, Hc. auto.
    - unfold leave_keys_below_counter. rewrite Hl, Hc. split.
      + intros x Hx. apply in_app_iff in Hx.
        destruct Hx as [Hx|[<-|[]]]; [apply Hlk in Hx|]; lia.
      + rewrite map_app; simpl.
        apply Permutation_NoDup with (l := (leave_id l :: map leave_id (leaves db))%list).
        * apply Permutation_cons_append.
        * constructor; [|exact Hln].
          rewrite in_map_iff. intros (y & Hy & Hyin).
          apply Hlk in Hyin. lia.
    - unfold leave_keys_below_counter. rewrite Hl, Hc.
      destruct Hsame as (Hid & _). split.
      + intros x Hx. apply in_map_replace in Hx.
        destruct Hx as [[-> _]|Hx]; [|now apply Hlk].
        rewrite Hid. now apply Hlk.
      + now rewrite map_replace_keys. }
  destruct HB as (HB1 & HB2 & HB3). destruct HL as (HL1 & HL2).
  repeat split; auto.
Qed.

Lemma tables_consistent_serve_any (db : DB) (r : AnyRequest) :
  tables_consistent db -> tables_consistent (serve_any db r).
Proof.
  destruct r as [r|user method data id]; simpl;
    [apply tables_consistent_serve|].
  intros (Hk & Hn & Hlk & Hln & Hfk).
  destruct (manage_room_cases user method data id db)
    as (Hb & Hbc & Hl & Hlc & Hrooms).
  unfold tables_consistent, keys_below_counter, leave_keys_below_counter,
    rooms_referenced.
  rewrite Hb, Hbc, Hl, Hlc. repeat split; auto.
  intros b Hin. destruct (Hfk b Hin) as (r & Hr & Hroom).
  destruct Hrooms as [->|[(rm & rm' & _ & _ & _ & ->)|(rm & _ & Hfree & ->)]].
  - now exists r.
  - exists (if Nat.eqb (room_id r) (room_id rm') then rm' else r).
    split;
      [exact (in_map (fun x => if Nat.eqb (room_id x) (room_id rm')
                               then rm' else x) _ _ Hr)|].
    destruct (Nat.eqb (room_id r) (room_id rm')) eqn:E; [|exact Hroom].
    apply Nat.eqb_eq in E. congruence.
  - exists r. split; [|exact Hroom].
    apply filter_In. split; [exact Hr|].
    apply negb_true_iff, Nat.eqb_neq. rewrite Hroom. now apply Hfree.
Qed.

(** X4. Consistency of the tables is kept by every request of the two
    workflows and by every [manage_room] call, hence along every sequence
    of them: primary keys of bookings and leaves stay unique and below
    their counters, and every booking keeps referencing a room that
    exists (a room with bookings cannot be deleted). It holds when the
    booking and leave tables are empty. *)
Theorem tables_consistent_invariant :
  (forall rms nb nl, tables_consistent (mkDB rms [] nb [] nl))
  /\ (forall db r, tables_consistent db -> tables_consistent (serve_any db r))
  /\ (forall rs db,
        tables_consistent db -> tables_consistent (serve_any_all db rs)).
Proof.
  split; [|split].
  - intros rms nb nl. unfold tables_consistent, keys_below_counter,
      leave_keys_below_counter, rooms_referenced; simpl.
    repeat split; try constructor; intros x [].
  - exact tables_consistent_serve_any.
  - induction rs as [|r rs IH]; intros db H; simpl; [exact H|].
    apply IH. now apply tables_consistent_serve_any.
Qed.

(** X4 on the sample data: after a student's request, the coordinator's
    approval and an admin's attempt to delete room R, the tables are
    consistent, and room R is still there. *)
Lemma tables_consistent_invariant_witness :
  tables_consistent
    (serve_any_all db_empty
       [Workflow (POST_request_room 5 student_A
                    (booking_data 1 day_D 600 660 "club"));
        Workflow (POST_coordinator_action coordinator_A (Some "approve") 1);
        Manage_room admin_user DELETE (mkRoomData None None None) 1])
  /\ rooms
       (serve_any_all db_empty
          [Workflow (POST_request_room 5 student_A
                       (booking_data 1 day_D 600 660 "club"));
           Workflow (POST_coordinator_action coordinator_A (Some "approve") 1);
           Manage_room admin_user DELETE (mkRoomData None None None) 1])
     = [room_R].
Proof.
  split; [|reflexivity].
  destruct tables_consistent_invariant as (Hempty & _ & Hrun).
  apply Hrun. apply Hempty.
Defined.

Lemma position_consistent_serve (db : DB) (r : Request) :
  Forall position_consistent (bookings db) ->
  Forall position_consistent (bookings (serve db r)).
Proof.
  intros H.
  destruct (serve_bookings db r)
    as [[Hb _]|[(b & Hb & _ & _ & _ & Hc & Hh & Hs)
               |(b0 & b' & _ & _ & Hb & _ & _ & Hs)]]; rewrite Hb.
  - exact H.
  - apply Forall_app. split; [exact H|]. constructor; [|constructor].
    unfold position_consistent.
    destruct Hs as [[-> Hd]|[-> Hd]]; auto.
  - rewrite Forall_forall in *. intros x Hx.
    apply in_map_replace in Hx. destruct Hx as [[-> _]|Hx]; [|auto].
    unfold position_consistent.
    destruct Hs as [[-> Hc]|[[-> Hh]| ->]]; auto.
Qed.

(** X5. In every state reached from an empty booking table by requests
    of the workflows and [manage_room] calls, the status of a booking
    tells about its other columns: an APPROVED booking carries
    [hod_approved]; a booking waiting for the coordinator has a division
    and neither flag; a booking waiting for the HOD carries
    [coordinator_approved] or has no division. Every request keeps this. *)
Theorem position_consistent_invariant :
  (forall db r,
     Forall position_consistent (bookings db) ->
     Forall position_consistent (bookings (serve_any db r)))
  /\ (forall rs db,
        Forall position_consistent (bookings db) ->
        Forall position_consistent (bookings (serve_any_all db rs)))
  /\ (forall rs db b,
        bookings db = [] ->
        In b (bookings (serve_any_all db rs)) ->
        (status b = APPROVED -> hod_approved b = true)
        /\ (status b = PENDING_COORDINATOR ->
            division b <> None
            /\ coordinator_approved b = false /\ hod_approved b = false)
        /\ (status b = PENDING_HOD ->
            coordinator_approved b = true \/ division b = None)).
Proof.
  assert (Hstep : forall db r,
             Forall position_consistent (bookings db) ->
             Forall position_consistent (bookings (serve_any db r))).
  { intros db [r|user method data id] H; simpl.
    - now apply position_consistent_serve.
    - destruct (manage_room_cases user method data id db) as (Hb & _).
      now rewrite Hb. }
  assert (Hrun : forall rs db,
             Forall position_consistent (bookings db) ->
             Forall position_consistent (bookings (serve_any_all db rs))).
  { induction rs as [|r rs IH]; intros db H; simpl; auto. }
  split; [exact Hstep|]. split; [exact Hrun|].
  intros rs db b Hempty Hin.
  assert (H : Forall position_consistent (bookings (serve_any_all db rs)))
    by (apply Hrun; rewrite Hempty; constructor).
  rewrite Forall_forall in H. specialize (H b Hin).
  unfold position_consistent in H.
  destruct (status b); (split; [|split]); intros Hs;
    try discriminate Hs; tauto.
Qed.

(** X5 on the sample data: the run that approves two overlapping teacher
    requests. *)
Lemma position_consistent_invariant_witness :
  Forall (fun b => status b = APPROVED -> hod_approved b = true)
    (bookings
       (serve_any_all db_empty
          [Workflow (POST_request_room 5 plain_teacher
                       (booking_data 1 day_D 600 660 "talk"));
           Workflow (POST_hod_action hod_MCA (Some "approve") 1)])).
Proof.
  apply Forall_forall. intros b Hin.
  destruct position_consistent_invariant as (_ & _ & H).
  exact (proj1 (H _ db_empty b eq_refl Hin)).
Defined.

Lemma leave_consistent_serve (db : DB) (r : Request) :
  Forall leave_consistent (leaves db) ->
  Forall leave_consistent (leaves (serve db r)).
Proof.
  intros H.
  destruct (serve_leaves db r)
    as [[Hl _]|[(l & Hl & _ & _ & Hs & Hd & Hr & Hft & Hre)
               |(l0 & l' & _ & Hin & Hl & _ & Hsame & Hs & Hd)]];
    rewrite Hl.
  - exact H.
  - apply Forall_app. split; [exact H|]. constructor; [|constructor].
    unfold leave_consistent. rewrite Hs, Hd, Hr. tauto.
  - rewrite Forall_forall in *. intros x Hx.
    apply in_map_replace in Hx. destruct Hx as [[-> _]|Hx]; [|auto].
    destruct (H l0 Hin) as (Hft & Hre & _).
    destruct Hsame as (_ & _ & _ & Hreason & Hfrom & Hto & _).
    unfold leave_consistent. rewrite Hreason, Hfrom, Hto.
    repeat split; auto; intros Hp; try contradiction;
      destruct Hs as [Hs|Hs]; rewrite Hs in Hp; discriminate.
Qed.

(** X6. In every state reached from an empty leave table by requests of
    the workflows and [manage_room] calls, every stored leave has
    [to_date >= from_date] and a reason that is not blank, it is PENDING
    exactly when it has no decision time, and a PENDING leave has no
    coordinator remark. Every request keeps this. The converse on the
    remark is not kept: a decision whose body has a null remark leaves a
    decided leave without remark. *)
Theorem leave_consistent_invariant :
  (forall db r,
     Forall leave_consistent (leaves db) ->
     Forall leave_consistent (leaves (serve_any db r)))
  /\ (forall rs db,
        Forall leave_consistent (leaves db) ->
        Forall leave_consistent (leaves (serve_any_all db rs)))
  /\ (forall rs db l,
        leaves db = [] ->
        In l (leaves (serve_any_all db rs)) ->
        from_date l <= to_date l
        /\ reason l <> EmptyString
        /\ (leave_status l = LEAVE_PENDING <-> decision_at l = None)
        /\ (leave_status l = LEAVE_PENDING -> coordinator_remark l = None))
  /\ (exists l,
        In l (leaves
                (serve_any_all db_empty
                   [Workflow (POST_apply_leave 50 student_A
                                (mkLeaveData (Some "fever") (Some 738893)
                                   (Some 738895) None));
                    Workflow (POST_coordinator_leave_action 60 coordinator_A
                                (Some "reject") (Some None) 1)]))
        /\ leave_status l = LEAVE_REJECTED
        /\ coordinator_remark l = None).
Proof.
  assert (Hstep : forall db r,
             Forall leave_consistent (leaves db) ->
             Forall leave_consistent (leaves (serve_any db r))).
  { intros db [r|user method data id] H; simpl.
    - now apply leave_consistent_serve.
    - destruct (manage_room_cases user method data id db)
        as (_ & _ & Hl & _).
      now rewrite Hl. }
  assert (Hrun : forall rs db,
             Forall leave_consistent (leaves db) ->
             Forall leave_consistent (leaves (serve_any_all db rs))).
  { induction rs as [|r rs IH]; intros db H; simpl; auto. }
  split; [exact Hstep|]. split; [exact Hrun|]. split.
  - intros rs db l Hempty Hin.
    assert (H : Forall leave_consistent (leaves (serve_any_all db rs)))
      by (apply Hrun; rewrite Hempty; constructor).
    rewrite Forall_forall in H. exact (H l Hin).
  - exists (mkStudentLeave 1 "MCA-01" MCA_1_A "fever" 738893 738895 None
              LEAVE_REJECTED None 50 (Some 60)).
    split; [left; reflexivity|]. split; reflexivity.
Qed.

(** X6 on the sample data: a leave filed and then rejected. *)
Lemma leave_consistent_invariant_witness :
  Forall (fun l => from_date l <= to_date l
                   /\ (leave_status l = LEAVE_PENDING <-> decision_at l = None)
                   /\ (leave_status l = LEAVE_PENDING
                       -> coordinator_remark l = None))
    (leaves
       (serve_any_all db_empty
          [Workflow (POST_apply_leave 50 student_A
                       (mkLeaveData (Some "fever") (Some 738893)
                          (Some 738895) None));
           Workflow (POST_coordinator_leave_action 60 coordinator_A
                       (Some "reject") None 1)])).
Proof.
  apply Forall_forall. intros l Hin.
  destruct leave_consistent_invariant as (_ & _ & H & _).
  destruct (H _ db_empty l eq_refl Hin) as (H1 & _ & H2 & H3).
  split; [exact H1|]. split; [exact H2|exact H3].
Defined.

(* ================================================================= *)
(** ** What a decision cannot change *)

Lemma same_request_refl (b : RoomBooking) : same_request b b.
Proof. repeat split. Qed.

Lemma same_request_trans (a b c : RoomBooking) :
  same_request a b -> same_request b c -> same_request a c.
Proof.
  unfold same_request. intros H1 H2.
  repeat match goal with H : _ /\ _ |- _ => destruct H end.
  repeat split; congruence.
Qed.

Lemma same_application_refl (l : StudentLeave) : same_application l l.
Proof. repeat split. Qed.

Lemma same_application_trans (a b c : StudentLeave) :
  same_application a b -> same_application b c -> same_application a c.
Proof.
  unfold same_application. intros H1 H2.
  repeat match goal with H : _ /\ _ |- _ => destruct H end.
  repeat split; congruence.
Qed.

Lemma serve_same_request (db : DB) (r : Request) (id : nat) (b : RoomBooking) :
  RoomBooking_objects_get db id = inr b ->
  exists b', RoomBooking_objects_get (serve db r) id = inr b'
             /\ same_request b b'.
Proof.
  intros Hget.
  destruct (RoomBooking_objects_get_inr db id b Hget) as (Hfind & _ & _).
  destruct (serve_bookings db r)
    as [[Hb _]|[(bn & Hb & _)|(b0 & b' & H0 & _ & Hb & _ & Hsame & _)]].
  - exists b. split; [|apply same_request_refl].
    now rewrite (RoomBooking_objects_get_ext db _ id Hb).
  - exists b. split; [|apply same_request_refl].
    unfold RoomBooking_objects_get. rewrite Hb.
    now rewrite (find_app_some _ booking_id id _ _ b Hfind).
  - unfold RoomBooking_objects_get at 1. rewrite Hb.
    destruct (Nat.eq_dec id (booking_id b')) as [E|E].
    + subst id. exists b'.
      rewrite (find_replace_same _ booking_id b' (bookings db) b Hfind).
      split; [reflexivity|].
      assert (Hid : booking_id b' = booking_id b0) by apply Hsame.
      rewrite Hid in Hget. rewrite H0 in Hget. injection Hget as <-.
      exact Hsame.
    + exists b.
      rewrite (find_replace_other _ booking_id b' id (bookings db) E).
      rewrite Hfind. split; [reflexivity|apply same_request_refl].
Qed.

Lemma serve_same_application (db : DB) (r : Request) (id : nat)
    (l : StudentLeave) :
  StudentLeave_objects_get db id = inr l ->
  exists l', StudentLeave_objects_get (serve db r) id = inr l'
             /\ same_application l l'.
Proof.
  intros Hget.
  destruct (StudentLeave_objects_get_inr db id l Hget) as (Hfind & _ & _).
  destruct (serve_leaves db r)
    as [[Hl _]|[(ln & Hl & _)|(l0 & l' & H0 & _ & Hl & _ & Hsame & _)]].
  - exists l. split; [|apply same_application_refl].
    unfold StudentLeave_objects_get. now rewrite Hl, Hfind.
  - exists l. split; [|apply same_application_refl].
    unfold StudentLeave_objects_get. rewrite Hl.
    now rewrite (find_app_some _ leave_id id _ _ l Hfind).
  - unfold StudentLeave_objects_get at 1. rewrite Hl.
    destruct (Nat.eq_dec id (leave_id l')) as [E|E].
    + subst id. exists l'.
      rewrite (find_replace_same _ leave_id l' (leaves db) l Hfind).
      split; [reflexivity|].
      assert (Hid : leave_id l' = leave_id l0) by apply Hsame.
      rewrite Hid in Hget. rewrite H0 in Hget. injection Hget as <-.
      exact Hsame.
    + exists l.
      rewrite (find_replace_other _ leave_id l' id (leaves db) E).
      rewrite Hfind. split; [reflexivity|apply same_application_refl].
Qed.

(** X7. Once created, a booking is never deleted and what was requested
    is never rewritten: after any sequence of workflow requests and
    [manage_room] calls the booking is still fetched under its key, with
    the room, requester, division, purpose, date, start and end time and
    creation time it had. Only the status and the approval flags can
    differ. *)
Theorem booking_request_immutable (rs : list AnyRequest) (db : DB)
    (id : nat) (b : RoomBooking) :
  RoomBooking_objects_get db id = inr b ->
  exists b', RoomBooking_objects_get (serve_any_all db rs) id = inr b'
             /\ same_request b b'.
Proof.
  revert db b. induction rs as [|r rs IH]; intros db b Hget; simpl.
  - exists b. split; [exact Hget|apply same_request_refl].
  - assert (Hstep : exists b1,
               RoomBooking_objects_get (serve_any db r) id = inr b1
               /\ same_request b b1).
    { destruct r as [r|user method data id0]; simpl.
      - now apply serve_same_request.
      - exists b. split; [|apply same_request_refl].
        destruct (manage_room_cases user method data id0 db) as (Hb & _).
        now rewrite (RoomBooking_objects_get_ext db _ id Hb). }
    destruct Hstep as (b1 & H1 & Hs1).
    destruct (IH _ b1 H1) as (b' & H' & Hs').
    exists b'. split; [exact H'|].
    now apply same_request_trans with (b := b1).
Qed.

(** X7 on the sample data: the student request of division (MCA, 1, B),
    rejected by a coordinator and then approved by an HOD, still asks for
    room R from 10:00 to 11:00 for the same student. *)
Lemma booking_request_immutable_witness :
  exists b',
    RoomBooking_objects_get
      (serve_any_all db_pending_B
         [Workflow (POST_coordinator_action coordinator_A (Some "reject") 1);
          Workflow (POST_hod_action hod_MMS (Some "approve") 1)]) 1
    = inr b'
    /\ room b' = 1%nat /\ requested_by b' = 11%nat
    /\ start_time b' = 600 /\ end_time b' = 660.
Proof.
  destruct (booking_request_immutable
              [Workflow (POST_coordinator_action coordinator_A (Some "reject") 1);
               Workflow (POST_hod_action hod_MMS (Some "approve") 1)]
              db_pending_B 1
              (sample_booking 1 11 (Some MCA_1_B) 600 660
                 PENDING_COORDINATOR false false) eq_refl)
    as (b' & Hget & _ & Hr & Hu & _ & _ & _ & Hs & He & _).
  exists b'. auto.
Defined.

(** X8. Once filed, a leave is never deleted and what was applied for is
    never rewritten: after any sequence of workflow requests and
    [manage_room] calls the leave is still fetched under its key, with the
    student, division, reason, dates, document and application time it
    had. Only the status, the coordinator's remark and the decision time
    can differ. *)
Theorem leave_application_immutable (rs : list AnyRequest) (db : DB)
    (id : nat) (l : StudentLeave) :
  StudentLeave_objects_get db id = inr l ->
  exists l', StudentLeave_objects_get (serve_any_all db rs) id = inr l'
             /\ same_application l l'.
Proof.
  revert db l. induction rs as [|r rs IH]; intros db l Hget; simpl.
  - exists l. split; [exact Hget|apply same_application_refl].
  - assert (Hstep : exists l1,
               StudentLeave_objects_get (serve_any db r) id = inr l1
               /\ same_application l l1).
    { destruct r as [r|user method data id0]; simpl.
      - now apply serve_same_application.
      - exists l. split; [|apply same_application_refl].
        destruct (manage_room_cases user method data id0 db)
          as (_ & _ & Hl & _).
        unfold StudentLeave_objects_get in *. now rewrite Hl. }
    destruct Hstep as (l1 & H1 & Hs1).
    destruct (IH _ l1 H1) as (l' & H' & Hs').
    exists l'. split; [exact H'|].
    now apply same_application_trans with (b := l1).
Qed.

(** X8 on the sample data: a pending leave, approved and then rejected. *)
Lemma leave_application_immutable_witness :
  exists l',
    StudentLeave_objects_get
      (serve_any_all (db_leave (sample_leave LEAVE_PENDING None None))
         [Workflow (POST_coordinator_leave_action 60 coordinator_A
                      (Some "approve") (Some (Some "ok")) 1);
          Workflow (POST_coordinator_leave_action 70 coordinator_A
                      (Some "reject") None 1)]) 1
    = inr l'
    /\ reason l' = "fever" /\ from_date l' = 738893 /\ to_date l' = 738895.
Proof.
  destruct (leave_application_immutable
              [Workflow (POST_coordinator_leave_action 60 coordinator_A
                           (Some "approve") (Some (Some "ok")) 1);
               Workflow (POST_coordinator_leave_action 70 coordinator_A
                           (Some "reject") None 1)]
              (db_leave (sample_leave LEAVE_PENDING None None)) 1
              (sample_leave LEAVE_PENDING None None) eq_refl)
    as (l' & Hget & _ & _ & _ & Hr & Hf & Ht & _).
  exists l'. auto.
Defined.

(* ================================================================= *)
(** ** Refusals *)

(** X9. The refusals of [request_room]. The answer is 201, 400 or 404,
    and unless it is 201 the database is as it was. It is 404 exactly
    when [room_id] is given and no room has it, whatever else is missing.
    A missing key is answered with 400 and the quoted name of the key:
    [room_id] before the room is looked up; for a room that exists the
    first missing of [booking_date], [start_time], [end_time], before the
    clash check; and [purpose] only for a teacher whose slot does not
    clash. *)
Theorem request_room_refusals now user data db :
  (status_code (fst (request_room now user data db)) = 201%nat
   \/ status_code (fst (request_room now user data db)) = 400%nat
   \/ status_code (fst (request_room now user data db)) = 404%nat)
  /\ (status_code (fst (request_room now user data db)) <> 201%nat ->
      snd (request_room now user data db) = db)
  /\ (status_code (fst (request_room now user data db)) = 404%nat <->
      exists rid, data_room_id data = Some rid
                  /\ Room_objects_get db rid = inl Room_DoesNotExist)
  /\ (data_room_id data = None ->
      fst (request_room now user data db)
      = mkResponse (error "'room_id'") 400)
  /\ (forall rid rm,
        data_room_id data = Some rid -> Room_objects_get db rid = inr rm ->
        (data_booking_date data = None ->
         fst (request_room now user data db)
         = mkResponse (error "'booking_date'") 400)
        /\ (data_booking_date data <> None -> data_start_time data = None ->
            fst (request_room now user data db)
            = mkResponse (error "'start_time'") 400)
        /\ (data_booking_date data <> None -> data_start_time data <> None ->
            data_end_time data = None ->
            fst (request_room now user data db)
            = mkResponse (error "'end_time'") 400)
        /\ (forall d st en,
              data_booking_date data = Some d ->
              data_start_time data = Some st ->
              data_end_time data = Some en ->
              data_purpose data = None ->
              role user = "teacher" ->
              fst (request_room now user data db)
              = if clash_exists db rm d st en then Conflict
                else mkResponse (error "'purpose'") 400)).
Proof.
  split; [|split; [|split; [|split]]].
  - destruct (request_room_cases now user data db)
      as [(m & rm & dv & p & d & st & en & s & Heq & _)|_].
    + left. now rewrite Heq.
    + unfold request_room.
      destruct data as [[rid|] od ost oen op]; simpl; [|auto].
      destruct (Room_objects_get db rid) as [e|rm]; simpl;
        [destruct e; auto|].
      destruct od as [d|]; simpl; [|auto].
      destruct ost as [st|]; simpl; [|auto].
      destruct oen as [en|]; simpl; [|auto].
      destruct (clash_exists db rm d st en); simpl; [auto|].
      destruct (String.eqb (role user) "student"); simpl.
      * unfold get_student_profile.
        destruct (student_profile user); simpl; [|auto].
        destruct op; simpl; auto.
      * destruct (String.eqb (role user) "teacher"); simpl; [|auto].
        destruct op; simpl; auto.
  - intros Hne.
    destruct (request_room_cases now user data db)
      as [(m & rm & dv & p & d & st & en & s & Heq & _)|[Heq _]];
      [|exact Heq].
    rewrite Heq in Hne. simpl in Hne. contradiction.
  - unfold request_room.
    destruct data as [[rid|] od ost oen op]; simpl.
    + destruct (Room_objects_get db rid) as [e|rm] eqn:Hrm; simpl.
      * assert (He : e = Room_DoesNotExist).
        { unfold Room_objects_get in Hrm.
          destruct (find _ (rooms db)); [discriminate|].
          now injection Hrm. }
        subst e. simpl. split; [|reflexivity].
        intros _. now exists rid.
      * split.
        -- destruct od as [d|]; simpl; [|discriminate].
           destruct ost as [st|]; simpl; [|discriminate].
           destruct oen as [en|]; simpl; [|discriminate].
           destruct (clash_exists db rm d st en); simpl; [discriminate|].
           destruct (String.eqb (role user) "student"); simpl.
           ++ unfold get_student_profile.
              destruct (student_profile user); simpl; [|discriminate].
              destruct op; simpl; discriminate.
           ++ destruct (String.eqb (role user) "teacher"); simpl;
                [|discriminate].
              destruct op; simpl; discriminate.
        -- intros (rid' & Hid & Hno). injection Hid as <-. congruence.
    + split; [discriminate|]. intros (rid & Hid & _). discriminate.
  - intros Hnone. unfold request_room. now rewrite Hnone.
  - intros rid rm Hid Hrm. unfold request_room. rewrite Hid; simpl.
    rewrite Hrm; simpl. split; [|split; [|split]].
    + intros ->. reflexivity.
    + intros Hd ->. destruct (data_booking_date data); [reflexivity|].
      contradiction.
    + intros Hd Hs ->.
      destruct (data_booking_date data); [|contradiction].
      destruct (data_start_time data); [reflexivity|contradiction].
    + intros d st en -> -> -> -> Hr. simpl.
      destruct (clash_exists db rm d st en); [reflexivity|].
      now rewrite Hr.
Qed.

(** X9 on the sample data: a teacher's request for a room that does not
    exist, with every other key missing, is answered 404. *)
Lemma request_room_refusals_witness :
  status_code
    (fst (request_room 5 plain_teacher
            (mkBookingData (Some 7%nat) None None None None) db_empty))
  = 404%nat
  /\ snd (request_room 5 plain_teacher
            (mkBookingData (Some 7%nat) None None None None) db_empty)
     = db_empty.
Proof.
  destruct (request_room_refusals 5 plain_teacher
              (mkBookingData (Some 7%nat) None None None None) db_empty)
    as (_ & Hdb & H404 & _).
  assert (H : status_code
                (fst (request_room 5 plain_teacher
                        (mkBookingData (Some 7%nat) None None None None)
                        db_empty)) = 404%nat).
  { apply H404. exists 7%nat. split; reflexivity. }
  split; [exact H|]. apply Hdb. rewrite H. discriminate.
Defined.

(** X10. The three decision views test in the same order: first the
    guard, then the object, last the action. Whoever is not a teacher, and
    every teacher whose flag is not set, gets 403, also for a key that does
    not exist and for an unknown action; a teacher without profile makes
    the guard fail with an uncaught exception; a teacher with the flag set
    gets 404 for a key that does not exist, also with an unknown action.
    None of these calls changes the database. *)
Theorem decision_views_test_order (user : User) (action : option string)
    (remark : option (option string)) (now : datetime) (id : nat) (db : DB) :
  ((role user <> "teacher"
    \/ exists t, teacher_profile user = Some t
                 /\ is_batch_coordinator t = false) ->
   coordinator_action user action id db = (Returned Unauthorized, db)
   /\ coordinator_leave_action now user action remark id db
      = (Returned Unauthorized, db))
  /\ ((role user <> "teacher"
       \/ exists t, teacher_profile user = Some t /\ is_hod t = false) ->
      hod_action user action id db = (Returned Only_HOD_allowed, db))
  /\ (role user = "teacher" -> teacher_profile user = None ->
      coordinator_action user action id db
      = (Uncaught (RelatedObjectDoesNotExist "User has no teacher_profile."),
         db)
      /\ hod_action user action id db
         = (Uncaught (RelatedObjectDoesNotExist "User has no teacher_profile."),
            db)
      /\ coordinator_leave_action now user action remark id db
         = (Uncaught (RelatedObjectDoesNotExist "User has no teacher_profile."),
            db))
  /\ (forall t, role user = "teacher" -> teacher_profile user = Some t ->
        (is_batch_coordinator t = true ->
         (RoomBooking_objects_get db id = inl RoomBooking_DoesNotExist ->
          coordinator_action user action id db
          = (Returned (mkResponse (error "Booking not found") 404), db))
         /\ (StudentLeave_objects_get db id = inl StudentLeave_DoesNotExist ->
             coordinator_leave_action now user action remark id db
             = (Returned (mkResponse (error "Leave not found") 404), db)))
        /\ (is_hod t = true ->
            RoomBooking_objects_get db id = inl RoomBooking_DoesNotExist ->
            hod_action user action id db
            = (Returned (mkResponse (error "Booking not found") 404), db))).
Proof.
  assert (Hguard : forall flag,
             (role user <> "teacher"
              \/ exists t, teacher_profile user = Some t /\ flag t = false) ->
             not_teacher_with flag user = inr true).
  { intros flag [Hr|(t & Hp & Hf)].
    - unfold not_teacher_with. apply String.eqb_neq in Hr. now rewrite Hr.
    - unfold not_teacher_with, get_teacher_profile.
      destruct (String.eqb (role user) "teacher"); simpl; [|reflexivity].
      rewrite Hp; simpl. now rewrite Hf. }
  split; [|split; [|split]].
  - intros H. unfold coordinator_action, coordinator_leave_action.
    now rewrite (Hguard is_batch_coordinator H).
  - intros H. unfold hod_action. now rewrite (Hguard is_hod H).
  - intros Hr Hp.
    unfold coordinator_action, hod_action, coordinator_leave_action,
      not_teacher_with, get_teacher_profile.
    now rewrite Hr, Hp.
  - intros t Hr Hp. split.
    + intros Hf. split; intros Hno.
      * unfold coordinator_action.
        rewrite (not_teacher_with_teacher _ user t Hr Hp), Hf, Hno.
        reflexivity.
      * unfold coordinator_leave_action.
        rewrite (not_teacher_with_teacher _ user t Hr Hp), Hf, Hno.
        reflexivity.
    + intros Hf Hno. unfold hod_action.
      rewrite (not_teacher_with_teacher _ user t Hr Hp), Hf, Hno.
      reflexivity.
Qed.

(** X10 on the sample data: a teacher without flags, the HOD of MCA
    acting as coordinator, and a coordinator asking for a booking that
    does not exist with an unknown action. *)
Lemma decision_views_test_order_witness :
  coordinator_action plain_teacher (Some "approve") 1 db_pending_B
    = (Returned Unauthorized, db_pending_B)
  /\ coordinator_action hod_MCA (Some "approve") 1 db_pending_B
     = (Returned Unauthorized, db_pending_B)
  /\ coordinator_action coordinator_A (Some "cancel") 9 db_pending_B
     = (Returned (mkResponse (error "Booking not found") 404), db_pending_B).
Proof.
  split; [|split].
  - apply (decision_views_test_order plain_teacher (Some "approve") None 0 1
             db_pending_B).
    right. eexists. split; reflexivity.
  - apply (decision_views_test_order hod_MCA (Some "approve") None 0 1
             db_pending_B).
    right. eexists. split; reflexivity.
  - destruct (decision_views_test_order coordinator_A (Some "cancel") None 0 9
                db_pending_B) as (_ & _ & _ & H).
    destruct (H (mkTeacher true (Some "MCA") (Some 1) (Some "A") false None)
                eq_refl eq_refl) as [Hc _].
    now apply Hc.
Defined.

(** X11. The outcomes of [apply_leave]. It answers 201 exactly for a
    student with a profile who sends all three of [reason], [from_date]
    and [to_date], a reason that is not blank and [from_date <= to_date].
    Whoever is not a student gets 403. A student without profile, or one
    who leaves out a key, is not answered with 400: the exception leaves
    the view uncaught, naming the profile or the first missing key. A
    blank reason is answered with 400 and an error filed under [reason],
    together with the date error when the dates are reversed too. Unless
    the answer is 201 the database is as it was. *)
Theorem apply_leave_outcomes now user data db :
  ((exists r, fst (apply_leave now user data db) = Returned r
              /\ status_code r = 201%nat)
   <-> role user = "student"
       /\ student_profile user <> None
       /\ exists r f t,
            data_reason data = Some r /\ data_from_date data = Some f
            /\ data_to_date data = Some t
            /\ r <> EmptyString /\ f <= t)
  /\ (role user <> "student" ->
      apply_leave now user data db
      = (Returned (mkResponse (error "Only students can apply leave") 403),
         db))
  /\ (role user = "student" ->
      (student_profile user = None ->
       apply_leave now user data db
       = (Uncaught (RelatedObjectDoesNotExist "User has no student_profile."),
          db))
      /\ (student_profile user <> None ->
          (data_reason data = None ->
           apply_leave now user data db = (Uncaught (KeyError "reason"), db))
          /\ (data_reason data <> None -> data_from_date data = None ->
              apply_leave now user data db
              = (Uncaught (KeyError "from_date"), db))
          /\ (data_reason data <> None -> data_from_date data <> None ->
              data_to_date data = None ->
              apply_leave now user data db
              = (Uncaught (KeyError "to_date"), db))
          /\ (forall f t,
                data_reason data = Some EmptyString ->
                data_from_date data = Some f -> data_to_date data = Some t ->
                apply_leave now user data db
                = (Returned
                     (mkResponse
                        (error_dict
                           (("reason", ["This field cannot be blank."])
                            :: if t <? f
                               then [("__all__",
                                      ["To date cannot be before From date."])]
                               else []))
                        400),
                   db))))
  /\ ((forall r, fst (apply_leave now user data db) = Returned r ->
                 status_code r <> 201%nat) ->
      snd (apply_leave now user data db) = db).
Proof.
  split; [|split; [|split]].
  - destruct (apply_leave_cases now user data db)
      as [(sp & r & f & t & Hr & Hp & H1 & H2 & H3 & Hb & Hd & Heq)
         |[_ Hne]].
    + rewrite Heq; simpl. split.
      * intros _. split; [exact Hr|]. split; [congruence|].
        now exists r, f, t.
      * intros _. eexists. split; reflexivity.
    + split.
      * intros (r & Hr & H201). now apply Hne in Hr.
      * intros (Hr & Hp & r & f & t & H1 & H2 & H3 & Hb & Hd).
        exfalso. revert Hne. unfold apply_leave, get_student_profile.
        rewrite Hr; simpl.
        destruct (student_profile user) as [sp|]; [|contradiction]. simpl.
        rewrite H1, H2, H3; simpl.
        unfold StudentLeave_full_clean, StudentLeave_clean,
          StudentLeave_clean_fields; simpl.
        apply String.eqb_neq in Hb. apply Z.ltb_ge in Hd.
        rewrite Hb, Hd; simpl. intros Hne.
        now apply (Hne _ eq_refl).
  - intros Hr. unfold apply_leave. apply String.eqb_neq in Hr.
    now rewrite Hr.
  - intros Hr. unfold apply_leave, get_student_profile. rewrite Hr; simpl.
    split.
    + intros ->. reflexivity.
    + intros Hp. destruct (student_profile user) as [sp|]; [|contradiction].
      simpl. split; [|split; [|split]].
      * intros ->. reflexivity.
      * intros H1 ->. destruct (data_reason data); [reflexivity|].
        contradiction.
      * intros H1 H2 ->.
        destruct (data_reason data); [|contradiction].
        destruct (data_from_date data); [reflexivity|contradiction].
      * intros f t -> -> ->. simpl.
        unfold StudentLeave_full_clean, StudentLeave_clean,
          StudentLeave_clean_fields; simpl.
        now destruct (t <? f).
  - intros Hne.
    destruct (apply_leave_cases now user data db)
      as [(sp & r & f & t & _ & _ & _ & _ & _ & _ & _ & Heq)|[Heq _]];
      [|exact Heq].
    exfalso. rewrite Heq in Hne. now apply (Hne _ eq_refl).
Qed.

(** X11 on the sample data: a student who leaves out [to_date]. *)
Lemma apply_leave_outcomes_witness :
  apply_leave 50 student_A (mkLeaveData (Some "fever") (Some 738893) None None)
    db_empty
  = (Uncaught (KeyError "to_date"), db_empty).
Proof.
  destruct (apply_leave_outcomes 50 student_A
              (mkLeaveData (Some "fever") (Some 738893) None None) db_empty)
    as (_ & _ & H & _).
  destruct (H eq_refl) as [_ Hp].
  destruct (Hp ltac:(discriminate)) as (_ & _ & Hto & _).
  apply Hto; (discriminate || reflexivity).
Defined.

(* ================================================================= *)
(** ** Where a request shows up *)

Lemma in_map_filter (A : Type) (key : A -> nat) (f : A -> bool)
    (l : list A) (i : nat) :
  In i (map key (filter f l)) <->
  exists x, In x l /\ f x = true /\ key x = i.
Proof.
  rewrite in_map_iff. split.
  - intros (x & Hk & Hin). apply filter_In in Hin. exists x. tauto.
  - intros (x & Hin & Hf & Hk). exists x. split; [exact Hk|].
    apply filter_In. tauto.
Qed.

Lemma lookup_string (f : string) (v : option string) :
  lookup String.eqb (Some f) v = true <-> v = Some f.
Proof.
  destruct v as [v|]; simpl; [|split; discriminate].
  rewrite String.eqb_eq. split; congruence.
Qed.

Lemma lookup_Z (f : Z) (v : option Z) :
  lookup Z.eqb (Some f) v = true <-> v = Some f.
Proof.
  destruct v as [v|]; simpl; [|split; discriminate].
  rewrite Z.eqb_eq. split; congruence.
Qed.

(** After [UPDATE ... WHERE id = key row], the rows of that key are all
    the saved row. *)
Lemma replaced_rows_of_key (A : Type) (key : A -> nat) (row x : A)
    (l : list A) :
  In x (map (fun y => if Nat.eqb (key y) (key row) then row else y) l) ->
  key x = key row -> x = row.
Proof.
  rewrite in_map_iff. intros (y & Hy & _) Hk.
  destruct (Nat.eqb (key y) (key row)) eqn:E; [congruence|].
  apply Nat.eqb_neq in E. congruence.
Qed.

(** [coordinator_requests] for a batch coordinator. *)
Lemma coordinator_requests_found (user : User) (t : Teacher) (db : DB) :
  role user = "teacher" -> teacher_profile user = Some t ->
  is_batch_coordinator t = true ->
  lists (coordinator_requests user db)
    (map booking_id
       (filter
          (fun b =>
             BookingStatus_eqb (status b) PENDING_COORDINATOR
             && lookup String.eqb (option_map div_course (division b))
                  (coordinator_course t)
             && lookup Z.eqb (option_map div_semester (division b))
                  (coordinator_semester t)
             && lookup String.eqb (option_map div_division (division b))
                  (coordinator_division t))
          (bookings db))).
Proof.
  intros Hr Hp Hf. unfold lists, coordinator_requests, get_teacher_profile.
  now rewrite (not_teacher_with_teacher _ user t Hr Hp), Hf, Hp.
Qed.

(** [hod_requests] for an HOD. *)
Lemma hod_requests_found (user : User) (t : Teacher) (db : DB) :
  role user = "teacher" -> teacher_profile user = Some t ->
  is_hod t = true ->
  lists (hod_requests user db)
    (map booking_id
       (filter
          (fun b =>
             negb match division b with
                  | Some dv =>
                      match hod_course t with
                      | Some c => negb (String.eqb (div_course dv) c)
                      | None => true
                      end
                  | None => false
                  end)
          (filter (fun b => BookingStatus_eqb (status b) PENDING_HOD)
             (bookings db)))).
Proof.
  intros Hr Hp Hf. unfold lists, hod_requests, get_teacher_profile.
  now rewrite (not_teacher_with_teacher _ user t Hr Hp), Hf, Hp.
Qed.

(** [coordinator_leave_requests] for a batch coordinator. *)
Lemma coordinator_leave_requests_found (user : User) (t : Teacher) (db : DB) :
  role user = "teacher" -> teacher_profile user = Some t ->
  is_batch_coordinator t = true ->
  lists (coordinator_leave_requests user db)
    (map leave_id
       (filter
          (fun l =>
             LeaveStatus_eqb (leave_status l) LEAVE_PENDING
             && lookup String.eqb (Some (div_course (leave_division l)))
                  (coordinator_course t)
             && lookup Z.eqb (Some (div_semester (leave_division l)))
                  (coordinator_semester t)
             && lookup String.eqb (Some (div_division (leave_division l)))
                  (coordinator_division t))
          (leaves db))).
Proof.
  intros Hr Hp Hf.
  unfold lists, coordinator_leave_requests, get_teacher_profile.
  now rewrite (not_teacher_with_teacher _ user t Hr Hp), Hf, Hp.
Qed.

Section StudentRequest.

Variables (now : datetime) (user : User) (sp : Student) (data : BookingData).
Variables (db : DB).

Hypothesis Hkeys : keys_below_counter db.
Hypothesis Hrole : role user = "student".
Hypothesis Hprofile : student_profile user = Some sp.
Hypothesis Hcreated :
  status_code (fst (request_room now user data db)) = 201%nat.

(** X12. A student's request that has been created is shown by
    [coordinator_requests] to exactly the batch coordinators whose scope
    is the student's division, and by [my_room_requests] to the student;
    no HOD is shown it yet. *)
Theorem student_request_routed :
  (forall c t,
     role c = "teacher" -> teacher_profile c = Some t ->
     is_batch_coordinator t = true ->
     exists ids,
       lists (coordinator_requests c (snd (request_room now user data db))) ids
       /\ (In (next_booking_id db) ids <-> scope_is t (student_division sp)))
  /\ (exists ids,
        lists (my_room_requests user (snd (request_room now user data db))) ids
        /\ In (next_booking_id db) ids)
  /\ (forall h t,
        role h = "teacher" -> teacher_profile h = Some t -> is_hod t = true ->
        exists ids,
          lists (hod_requests h (snd (request_room now user data db))) ids
          /\ ~ In (next_booking_id db) ids).
Proof.
  destruct (request_room_cases now user data db)
    as [(m & rm & dv & p & d & st & en & s & Heq & Hcase)|[_ Hne]];
    [|contradiction].
  destruct Hcase as [(_ & (sp' & Hsp' & ->) & ->)|(Hr & _)];
    [|rewrite Hrole in Hr; discriminate].
  assert (sp' = sp) by congruence. subst sp'.
  rewrite Heq; simpl.
  set (n := next_booking_id db).
  assert (Hfresh : forall x, In x (bookings db) -> booking_id x <> n).
  { intros x Hx. apply Hkeys in Hx. unfold n. lia. }
  split; [|split].
  - intros c t Hr Hp Hf. eexists.
    split; [apply (coordinator_requests_found c t _ Hr Hp Hf)|].
    rewrite in_map_filter, RoomBooking_objects_create_bookings. split.
    + intros (x & Hin & Hsel & Hid). apply in_app_iff in Hin.
      destruct Hin as [Hin|[<-|[]]]; [now apply Hfresh in Hin|].
      simpl in Hsel. rewrite !andb_true_iff in Hsel.
      rewrite !lookup_string, lookup_Z in Hsel. unfold scope_is. tauto.
    + intros (H1 & H2 & H3). eexists.
      split; [apply in_app_iff; right; left; reflexivity|].
      split; [|reflexivity]. simpl.
      rewrite !andb_true_iff, !lookup_string, lookup_Z. tauto.
  - eexists. split; [reflexivity|].
    rewrite in_map_filter, RoomBooking_objects_create_bookings. eexists.
    split; [apply in_app_iff; right; left; reflexivity|].
    split; [|reflexivity]. simpl. apply Nat.eqb_refl.
  - intros h t Hr Hp Hf. eexists.
    split; [apply (hod_requests_found h t _ Hr Hp Hf)|].
    rewrite in_map_filter, RoomBooking_objects_create_bookings.
    intros (x & Hin & _ & Hid). apply filter_In in Hin.
    destruct Hin as [Hin Hpend]. apply in_app_iff in Hin.
    destruct Hin as [Hin|[<-|[]]]; [now apply Hfresh in Hin|].
    discriminate Hpend.
Qed.

End StudentRequest.

(** X12 on the sample data: the request of student A is shown to the
    coordinator of (MCA, 1, A). *)
Lemma student_request_routed_witness :
  exists ids,
    lists (coordinator_requests coordinator_A
             (snd (request_room 5 student_A
                     (booking_data 1 day_D 600 660 "club") db_empty))) ids
    /\ In 1%nat ids.
Proof.
  destruct (student_request_routed 5 student_A (mkStudent "MCA-01" MCA_1_A)
              (booking_data 1 day_D 600 660 "club") db_empty
              (fun b (H : In b []) => match H with end)
              eq_refl eq_refl eq_refl) as (Hc & _).
  destruct (Hc coordinator_A
              (mkTeacher true (Some "MCA") (Some 1) (Some "A") false None)
              eq_refl eq_refl eq_refl) as (ids & Hl & Hin).
  exists ids. split; [exact Hl|]. apply Hin. repeat split.
Defined.

Section CoordinatorApproval.

Variables (user : User) (id : nat) (db : DB).

Hypothesis Hdone :
  answered_200 (fst (coordinator_action user (Some "approve") id db)).

(** X13. After a coordinator's approve has been answered with 200, no
    coordinator is shown the booking any more, and [hod_requests] shows it
    to exactly the HODs it does not skip: every HOD when the booking has
    no division, and otherwise the HODs whose [hod_course] is the course of
    the booking's division. *)
Theorem coordinator_approval_routed :
  exists b,
    RoomBooking_objects_get db id = inr b
    /\ (forall c t,
          role c = "teacher" -> teacher_profile c = Some t ->
          is_batch_coordinator t = true ->
          exists ids,
            lists (coordinator_requests c
                     (snd (coordinator_action user (Some "approve") id db)))
              ids
            /\ ~ In id ids)
    /\ (forall h t,
          role h = "teacher" -> teacher_profile h = Some t ->
          is_hod t = true ->
          exists ids,
            lists (hod_requests h
                     (snd (coordinator_action user (Some "approve") id db)))
              ids
            /\ (In id ids <->
                forall dv, division b = Some dv ->
                           hod_course t = Some (div_course dv))).
Proof.
  destruct (coordinator_action_cases user (Some "approve") id db)
    as [(b & Hget & _ & Heq)|[(b & _ & Ha & _)|[_ Hno]]];
    [|discriminate|contradiction].
  exists b. split; [exact Hget|]. rewrite Heq; simpl.
  destruct (RoomBooking_objects_get_inr db id b Hget) as (_ & Hin & Hid).
  set (b' := set_coordinator_approved true (set_status PENDING_HOD b)).
  assert (Hb : bookings (RoomBooking_save b' db)
               = map (fun x => if Nat.eqb (booking_id x) (booking_id b')
                               then b' else x) (bookings db))
    by exact (RoomBooking_save_bookings b b' db Hin eq_refl).
  assert (Hid' : booking_id b' = id) by exact Hid.
  split.
  - intros c t Hr Hp Hf. eexists.
    split; [apply (coordinator_requests_found c t _ Hr Hp Hf)|].
    rewrite in_map_filter, Hb. intros (x & Hx & Hsel & Hk).
    assert (x = b')
      by (apply (replaced_rows_of_key _ booking_id b' x _ Hx); congruence).
    subst x. discriminate Hsel.
  - intros h t Hr Hp Hf. eexists.
    split; [apply (hod_requests_found h t _ Hr Hp Hf)|].
    rewrite in_map_filter, Hb. split.
    + intros (x & Hx & Hsel & Hk). apply filter_In in Hx.
      destruct Hx as [Hx _].
      assert (x = b')
        by (apply (replaced_rows_of_key _ booking_id b' x _ Hx); congruence).
      subst x. simpl in Hsel. intros dv Hdv. rewrite Hdv in Hsel.
      destruct (hod_course t) as [c|]; [|discriminate].
      apply negb_true_iff, negb_false_iff, String.eqb_eq in Hsel.
      congruence.
    + intros Hcourse. exists b'. split; [|split; [|exact Hid']].
      * apply filter_In. split; [|reflexivity].
        apply in_map_iff. exists b. split; [|exact Hin].
        change (booking_id b') with (booking_id b).
        now rewrite Nat.eqb_refl.
      * simpl. destruct (division b) as [dv|]; [|reflexivity].
        rewrite (Hcourse dv eq_refl).
        now rewrite String.eqb_refl.
Qed.

End CoordinatorApproval.

(** X13 on the sample data: the request of division (MCA, 1, B), approved
    by a coordinator, is shown to the HOD of MCA and not to the HOD of
    MMS. *)
Lemma coordinator_approval_routed_witness :
  (exists ids,
     lists (hod_requests hod_MCA
              (snd (coordinator_action coordinator_A (Some "approve") 1
                      db_pending_B))) ids
     /\ In 1%nat ids)
  /\ (exists ids,
        lists (hod_requests hod_MMS
                 (snd (coordinator_action coordinator_A (Some "approve") 1
                         db_pending_B))) ids
        /\ ~ In 1%nat ids).
Proof.
  destruct (coordinator_approval_routed coordinator_A 1 db_pending_B)
    as (b & Hget & _ & Hh).
  { eexists. split; reflexivity. }
  injection Hget as <-. split.
  - destruct (Hh hod_MCA (mkTeacher false None None None true (Some "MCA"))
                eq_refl eq_refl eq_refl) as (ids & Hl & Hin).
    exists ids. split; [exact Hl|]. apply Hin.
    intros dv Hdv. injection Hdv as <-. reflexivity.
  - destruct (Hh hod_MMS (mkTeacher false None None None true (Some "MMS"))
                eq_refl eq_refl eq_refl) as (ids & Hl & Hin).
    exists ids. split; [exact Hl|]. intros H.
    pose proof (proj1 Hin H MCA_1_B eq_refl) as Hc. discriminate Hc.
Defined.

Section HodApproval.

Variables (user : User) (id : nat) (db : DB).

Hypothesis Hdone :
  answered_200 (fst (hod_action user (Some "approve") id db)).

(** X14. In the database that an HOD's approve answered with 200
    leaves, the booking is in [room_booking_log]; [coordinator_requests]
    lists it for no coordinator and [hod_requests] for no HOD; and a
    [request_room] served on that database for its room, which exists,
    and its date, with an interval that overlaps its own, is answered with
    the clash response and changes nothing, whoever asks. *)
Theorem hod_approval_published :
  exists b',
    RoomBooking_objects_get (snd (hod_action user (Some "approve") id db)) id
    = inr b'
    /\ In b' (room_booking_log (snd (hod_action user (Some "approve") id db)))
    /\ (forall c t,
          role c = "teacher" -> teacher_profile c = Some t ->
          is_batch_coordinator t = true ->
          exists ids,
            lists (coordinator_requests c
                     (snd (hod_action user (Some "approve") id db))) ids
            /\ ~ In id ids)
    /\ (forall h t,
          role h = "teacher" -> teacher_profile h = Some t ->
          is_hod t = true ->
          exists ids,
            lists (hod_requests h
                     (snd (hod_action user (Some "approve") id db))) ids
            /\ ~ In id ids)
    /\ (forall now u rm st en p,
          Room_objects_get db (room b') = inr rm ->
          st < end_time b' -> en > start_time b' ->
          request_room now u
            (booking_data (room b') (booking_date b') st en p)
            (snd (hod_action user (Some "approve") id db))
          = (Conflict, snd (hod_action user (Some "approve") id db))).
Proof.
  destruct (hod_action_cases user (Some "approve") id db)
    as [(b & Hget & _ & Heq)|[(b & _ & Ha & _)|[_ Hno]]];
    [|discriminate|contradiction].
  rewrite Heq; simpl.
  destruct (RoomBooking_objects_get_inr db id b Hget) as (_ & Hin & Hid).
  set (b' := set_hod_approved true (set_status APPROVED b)).
  assert (Hb : bookings (RoomBooking_save b' db)
               = map (fun x => if Nat.eqb (booking_id x) (booking_id b')
                               then b' else x) (bookings db))
    by exact (RoomBooking_save_bookings b b' db Hin eq_refl).
  assert (Hid' : booking_id b' = id) by exact Hid.
  assert (Hin' : In b' (bookings (RoomBooking_save b' db))).
  { rewrite Hb. apply in_map_iff. exists b. split; [|exact Hin].
    change (booking_id b') with (booking_id b). now rewrite Nat.eqb_refl. }
  exists b'. split; [|split; [|split; [|split]]].
  - now apply (RoomBooking_get_save_same db id b b' Hget).
  - unfold room_booking_log.
    apply (Permutation_in _ (order_by_perm _ by_date_then_start _)).
    apply filter_In. split; [exact Hin'|reflexivity].
  - intros c t Hr Hp Hf. eexists.
    split; [apply (coordinator_requests_found c t _ Hr Hp Hf)|].
    rewrite in_map_filter, Hb. intros (x & Hx & Hsel & Hk).
    assert (x = b')
      by (apply (replaced_rows_of_key _ booking_id b' x _ Hx); congruence).
    subst x. discriminate Hsel.
  - intros h t Hr Hp Hf. eexists.
    split; [apply (hod_requests_found h t _ Hr Hp Hf)|].
    rewrite in_map_filter, Hb. intros (x & Hx & _ & Hk).
    apply filter_In in Hx. destruct Hx as [Hx Hpend].
    assert (x = b')
      by (apply (replaced_rows_of_key _ booking_id b' x _ Hx); congruence).
    subst x. discriminate Hpend.
  - intros now u rm st en p Hrm Hst Hen.
    assert (Hrm' : Room_objects_get (RoomBooking_save b' db) (room b')
                   = inr rm) by exact Hrm.
    rewrite (request_room_found now u _ (room b') rm (booking_date b')
               st en p Hrm').
    assert (Hclash : clash_exists (RoomBooking_save b' db) rm
                       (booking_date b') st en = true).
    { apply clash_exists_spec. exists b'. split; [exact Hin'|].
      destruct (Room_objects_get_inr _ _ _ Hrm) as [_ Hrid].
      unfold overlapping_approved. rewrite Hrid. repeat split; auto. }
    now rewrite Hclash.
Qed.

End HodApproval.

(** X14 on the sample data: the request of division (MCA, 1, B) approved
    by the HOD of MCA; an admin's later request for 10:30-11:30 clashes. *)
Lemma hod_approval_published_witness :
  fst (request_room 9 admin_user (booking_data 1 day_D 630 690 "party")
         (snd (hod_action hod_MCA (Some "approve") 1 db_pending_hod_B)))
  = Conflict.
Proof.
  destruct (hod_approval_published hod_MCA 1 db_pending_hod_B)
    as (b' & Hget & _ & _ & _ & Hclash).
  { eexists. split; reflexivity. }
  injection Hget as <-.
  exact (f_equal fst (Hclash 9 admin_user room_R 630 690 "party" eq_refl
                        eq_refl eq_refl)).
Defined.

Section LeaveFiled.

Variables (now : datetime) (user : User) (sp : Student) (data : LeaveData).
Variables (db : DB).

Hypothesis Hkeys : leave_keys_below_counter db.
Hypothesis Hprofile : student_profile user = Some sp.
Hypothesis Hfiled :
  exists r, fst (apply_leave now user data db) = Returned r
            /\ status_code r = 201%nat.

(** X15. A leave that has been filed is shown by
    [coordinator_leave_requests] to exactly the batch coordinators whose
    scope is the student's division, and by [my_leaves] to the student;
    [leave_log] does not show it. *)
Theorem leave_application_routed :
  (forall c t,
     role c = "teacher" -> teacher_profile c = Some t ->
     is_batch_coordinator t = true ->
     exists ids,
       lists (coordinator_leave_requests c (snd (apply_leave now user data db)))
         ids
       /\ (In (next_leave_id db) ids <-> scope_is t (student_division sp)))
  /\ (exists ids,
        lists (my_leaves user (snd (apply_leave now user data db))) ids
        /\ In (next_leave_id db) ids)
  /\ (forall viewer rows,
        leave_log viewer (snd (apply_leave now user data db)) = Rows rows ->
        forall l, In l rows -> leave_id l <> next_leave_id db).
Proof.
  destruct (apply_leave_cases now user data db)
    as [(sp' & r & f & t & Hr & Hp & _ & _ & _ & _ & _ & Heq)|[_ Hne]].
  2:{ destruct Hfiled as (x & Hx & H201). now apply Hne in Hx. }
  assert (sp' = sp) by congruence. subst sp'.
  rewrite Heq; simpl.
  set (n := next_leave_id db).
  assert (Hfresh : forall x, In x (leaves db) -> leave_id x <> n).
  { intros x Hx. apply Hkeys in Hx. unfold n. lia. }
  split; [|split].
  - intros c tc Hrc Hpc Hfc. eexists.
    split; [apply (coordinator_leave_requests_found c tc _ Hrc Hpc Hfc)|].
    rewrite in_map_filter. simpl. split.
    + intros (x & Hin & Hsel & Hid). apply in_app_iff in Hin.
      destruct Hin as [Hin|[<-|[]]]; [now apply Hfresh in Hin|].
      simpl in Hsel. rewrite !andb_true_iff in Hsel.
      rewrite !lookup_string, lookup_Z in Hsel. unfold scope_is. tauto.
    + intros (H1 & H2 & H3). eexists.
      split; [apply in_app_iff; right; left; reflexivity|].
      split; [|reflexivity]. simpl.
      rewrite !andb_true_iff, !lookup_string, lookup_Z. tauto.
  - unfold my_leaves, get_student_profile. rewrite Hr, Hp; simpl.
    eexists. split; [reflexivity|].
    apply in_map_iff. eexists. split; [|
      apply (Permutation_in _ (order_by_perm _ by_applied_desc _));
      apply filter_In; split;
      [apply in_app_iff; right; left; reflexivity|]].
    + reflexivity.
    + simpl. apply String.eqb_refl.
  - intros viewer rows Hrows l Hl Hid. unfold leave_log in Hrows.
    destruct (not_teacher_with _ viewer) as [e|[|]]; try discriminate.
    injection Hrows as <-.
    apply (Permutation_in _ (Permutation_sym
             (order_by_perm _ by_decision_desc _))) in Hl.
    apply filter_In in Hl. destruct Hl as [Hl Hs]. simpl in Hl.
    apply in_app_iff in Hl.
    destruct Hl as [Hl|[<-|[]]]; [now apply Hfresh in Hl|].
    discriminate Hs.
Qed.

End LeaveFiled.

(** X15 on the sample data: the leave of student A is shown to the
    coordinator of (MCA, 1, A). *)
Lemma leave_application_routed_witness :
  exists ids,
    lists (coordinator_leave_requests coordinator_A
             (snd (apply_leave 50 student_A
                     (mkLeaveData (Some "fever") (Some 738893) (Some 738895)
                        None) db_empty))) ids
    /\ In 1%nat ids.
Proof.
  destruct (leave_application_routed 50 student_A (mkStudent "MCA-01" MCA_1_A)
              (mkLeaveData (Some "fever") (Some 738893) (Some 738895) None)
              db_empty
              (fun l (H : In l []) => match H with end)
              eq_refl
              (ex_intro _ _ (conj eq_refl eq_refl))) as (Hc & _).
  destruct (Hc coordinator_A
              (mkTeacher true (Some "MCA") (Some 1) (Some "A") false None)
              eq_refl eq_refl eq_refl) as (ids & Hl & Hin).
  exists ids. split; [exact Hl|]. apply Hin. repeat split.
Defined.

Section LeaveDecided.

Variables (now : datetime) (user : User) (action : option string).
Variable remark : option (option string).
Variables (id : nat) (db : DB).

Hypothesis Hdone :
  answered_200 (fst (coordinator_leave_action now user action remark id db)).

(** X16. After a leave decision has been answered with 200, no
    coordinator is shown the leave any more; [leave_log] shows the leave
    when it was approved and no leave of that key when it was rejected. *)
Theorem leave_decision_routed :
  exists l',
    StudentLeave_objects_get
      (snd (coordinator_leave_action now user action remark id db)) id
    = inr l'
    /\ (forall c t,
          role c = "teacher" -> teacher_profile c = Some t ->
          is_batch_coordinator t = true ->
          exists ids,
            lists (coordinator_leave_requests c
                     (snd (coordinator_leave_action now user action remark
                             id db))) ids
            /\ ~ In id ids)
    /\ (forall viewer rows,
          leave_log viewer
            (snd (coordinator_leave_action now user action remark id db))
          = Rows rows ->
          (action = Some "approve" -> In l' rows)
          /\ (action = Some "reject" ->
              forall x, In x rows -> leave_id x <> id)).
Proof.
  destruct (coordinator_leave_action_cases now user action remark id db)
    as [(l & s & Hget & Hs & Heq)|[_ Hno]]; [|contradiction].
  rewrite Heq; simpl.
  destruct (StudentLeave_objects_get_inr db id l Hget) as (_ & Hin & Hid).
  set (l' := set_decision_at (Some now)
               (set_coordinator_remark
                  (data_get_default remark EmptyString)
                  (set_leave_status s l))).
  assert (Hl : leaves (StudentLeave_save l' db)
               = map (fun x => if Nat.eqb (leave_id x) (leave_id l')
                               then l' else x) (leaves db))
    by exact (StudentLeave_save_leaves l l' db Hin eq_refl).
  assert (Hid' : leave_id l' = id) by exact Hid.
  assert (Hin' : In l' (leaves (StudentLeave_save l' db))).
  { rewrite Hl. apply in_map_iff. exists l. split; [|exact Hin].
    change (leave_id l') with (leave_id l). now rewrite Nat.eqb_refl. }
  assert (Hstatus : leave_status l' = s) by reflexivity.
  exists l'. split; [|split].
  - now apply (StudentLeave_get_save_same db id l l' Hget).
  - intros c t Hr Hp Hf. eexists.
    split; [apply (coordinator_leave_requests_found c t _ Hr Hp Hf)|].
    rewrite in_map_filter, Hl. intros (x & Hx & Hsel & Hk).
    assert (x = l')
      by (apply (replaced_rows_of_key _ leave_id l' x _ Hx); congruence).
    subst x. rewrite !andb_true_iff, LeaveStatus_eqb_eq, Hstatus in Hsel.
    destruct Hs as [[_ Hs]|[_ Hs]]; rewrite Hs in Hsel;
      destruct Hsel as [[[Hsel _] _] _]; discriminate.
  - intros viewer rows Hrows. unfold leave_log in Hrows.
    destruct (not_teacher_with _ viewer) as [e|[|]]; try discriminate.
    injection Hrows as <-. split.
    + intros Ha.
      assert (Hsa : s = LEAVE_APPROVED)
        by (destruct Hs as [[_ Hs]|[Hs _]]; congruence).
      apply (Permutation_in _ (order_by_perm _ by_decision_desc _)).
      apply filter_In. split; [exact Hin'|].
      rewrite Hstatus, Hsa. reflexivity.
    + intros Ha x Hx Hk.
      assert (Hsr : s = LEAVE_REJECTED)
        by (destruct Hs as [[Hs _]|[_ Hs]]; congruence).
      apply (Permutation_in _ (Permutation_sym
               (order_by_perm _ by_decision_desc _))) in Hx.
      apply filter_In in Hx. destruct Hx as [Hx Happ].
      change (In x (leaves (StudentLeave_save l' db))) in Hx.
      rewrite Hl in Hx.
      assert (x = l')
        by (apply (replaced_rows_of_key _ leave_id l' x _ Hx); congruence).
      subst x. rewrite Hstatus, Hsr in Happ. discriminate Happ.
Qed.

End LeaveDecided.

(** X16 on the sample data: the pending leave of student A, approved. *)
Lemma leave_decision_routed_witness :
  exists rows,
    leave_log hod_MMS
      (snd (coordinator_leave_action 60 coordinator_A (Some "approve")
              (Some (Some "ok")) 1
              (db_leave (sample_leave LEAVE_PENDING None None))))
    = Rows rows
    /\ In (sample_leave LEAVE_APPROVED (Some "ok") (Some 60)) rows.
Proof.
  destruct (leave_decision_routed 60 coordinator_A (Some "approve")
              (Some (Some "ok")) 1 (db_leave (sample_leave LEAVE_PENDING None None)))
    as (l' & Hget & _ & Hlog).
  { eexists. split; reflexivity. }
  injection Hget as <-.
  eexists. split; [reflexivity|].
  exact (proj1 (Hlog hod_MMS _ eq_refl) eq_refl).
Defined.

(* ================================================================= *)
(** ** Validated teachers *)

(** An accepted batch coordinator has a scope with all three parts. *)
Lemma Teacher_clean_scope (t : Teacher) :
  Teacher_clean t = inr tt -> is_batch_coordinator t = true ->
  exists c s l,
    coordinator_course t = Some c /\ coordinator_semester t = Some s
    /\ coordinator_division t = Some l
    /\ c <> EmptyString /\ s <> 0 /\ l <> EmptyString.
Proof.
  unfold Teacher_clean, invalid. intros Hok Hc. rewrite Hc in Hok.
  destruct (truthy_str (coordinator_course t)) eqn:H1; [|discriminate].
  destruct (truthy_int (coordinator_semester t)) eqn:H2; [|discriminate].
  destruct (truthy_str (coordinator_division t)) eqn:H3; [|discriminate].
  unfold truthy_str, truthy_int in *.
  destruct (coordinator_course t) as [c|]; [|discriminate].
  destruct (coordinator_semester t) as [s|]; [|discriminate].
  destruct (coordinator_division t) as [l|]; [|discriminate].
  exists c, s, l.
  apply negb_true_iff in H1, H2, H3.
  apply String.eqb_neq in H1, H3. apply Z.eqb_neq in H2.
  repeat split; assumption.
Qed.

(** An accepted HOD has a course. *)
Lemma Teacher_clean_hod_course (t : Teacher) :
  Teacher_clean t = inr tt -> is_hod t = true ->
  exists c, hod_course t = Some c /\ c <> EmptyString.
Proof.
  unfold Teacher_clean, invalid. intros Hok Hh. rewrite Hh in Hok.
  destruct (truthy_str (hod_course t)) eqn:H.
  - unfold truthy_str in H.
    destruct (hod_course t) as [c|]; [|discriminate].
    exists c. apply negb_true_iff, String.eqb_neq in H. auto.
  - exfalso. simpl in Hok.
    destruct (is_batch_coordinator t);
      [destruct (truthy_str (coordinator_course t));
       [destruct (truthy_int (coordinator_semester t));
        [destruct (truthy_str (coordinator_division t))|]|]
      |destruct (truthy_str (coordinator_course t)
                 || truthy_int (coordinator_semester t)
                 || truthy_str (coordinator_division t))];
      discriminate.
Qed.

(** X17. [Teacher.clean] accepts a teacher exactly when both authorities
    are all-or-nothing: a batch coordinator has a course, a semester and
    a division letter; a teacher who is not has none of the three; and
    the teacher is HOD exactly when [hod_course] is filled. An empty
    string and semester 0 count as missing. An accepted batch coordinator
    thus has a scope with all three parts, and an accepted HOD a course. *)
Theorem Teacher_clean_all_or_nothing (t : Teacher) :
  (Teacher_clean t = inr tt <->
   (if is_batch_coordinator t
    then truthy_str (coordinator_course t) = true
         /\ truthy_int (coordinator_semester t) = true
         /\ truthy_str (coordinator_division t) = true
    else truthy_str (coordinator_course t) = false
         /\ truthy_int (coordinator_semester t) = false
         /\ truthy_str (coordinator_division t) = false)
   /\ is_hod t = truthy_str (hod_course t))
  /\ (Teacher_clean t = inr tt -> is_batch_coordinator t = true ->
      exists c s l,
        coordinator_course t = Some c /\ coordinator_semester t = Some s
        /\ coordinator_division t = Some l
        /\ c <> EmptyString /\ s <> 0 /\ l <> EmptyString)
  /\ (Teacher_clean t = inr tt -> is_hod t = true ->
      exists c, hod_course t = Some c /\ c <> EmptyString).
Proof.
  split; [|split; [apply Teacher_clean_scope|apply Teacher_clean_hod_course]].
  unfold Teacher_clean, invalid.
  destruct (is_batch_coordinator t), (truthy_str (coordinator_course t)),
    (truthy_int (coordinator_semester t)),
    (truthy_str (coordinator_division t)),
    (is_hod t), (truthy_str (hod_course t)); simpl;
    split; try discriminate; try tauto;
    intros [H1 H2]; try discriminate;
    destruct H1 as (? & ? & ?); discriminate.
Qed.

(** X17 on the sample data: the coordinator of (MCA, 1, A) is accepted; a
    coordinator whose semester is 0 is not. *)
Lemma Teacher_clean_all_or_nothing_witness :
  (exists c s l,
     coordinator_course
       (mkTeacher true (Some "MCA") (Some 1) (Some "A") false None) = Some c
     /\ coordinator_semester
          (mkTeacher true (Some "MCA") (Some 1) (Some "A") false None) = Some s
     /\ coordinator_division
          (mkTeacher true (Some "MCA") (Some 1) (Some "A") false None) = Some l)
  /\ Teacher_clean (mkTeacher true (Some "MCA") (Some 0) (Some "A") false None)
     <> inr tt.
Proof.
  split.
  - destruct (Teacher_clean_all_or_nothing
                (mkTeacher true (Some "MCA") (Some 1) (Some "A") false None))
      as (_ & H & _).
    destruct (H eq_refl eq_refl) as (c & s & l & H1 & H2 & H3 & _).
    now exists c, s, l.
  - destruct (Teacher_clean_all_or_nothing
                (mkTeacher true (Some "MCA") (Some 0) (Some "A") false None))
      as (H & _).
    intros Hok. apply H in Hok. simpl in Hok.
    destruct Hok as ((_ & H2 & _) & _). discriminate H2.
Defined.

Section ValidatedOfficer.

Variables (user : User) (t : Teacher) (db : DB).

Hypothesis Hrole : role user = "teacher".
Hypothesis Hprofile : teacher_profile user = Some t.
Hypothesis Hclean : Teacher_clean t = inr tt.

(** X18. What the listings show to a teacher that [Teacher.clean]
    accepts. A batch coordinator is shown exactly the bookings in
    PENDING_COORDINATOR that have a division and whose division is the
    coordinator's scope, never a booking without division; an HOD is shown
    exactly the bookings in PENDING_HOD that have no division or whose
    division is of the HOD's course. *)
Theorem validated_officer_listings :
  (is_batch_coordinator t = true ->
   exists ids,
     lists (coordinator_requests user db) ids
     /\ forall id,
          In id ids <->
          exists b dv,
            In b (bookings db) /\ booking_id b = id
            /\ status b = PENDING_COORDINATOR
            /\ division b = Some dv /\ scope_is t dv)
  /\ (is_hod t = true ->
      exists ids c,
        hod_course t = Some c
        /\ lists (hod_requests user db) ids
        /\ forall id,
             In id ids <->
             exists b,
               In b (bookings db) /\ booking_id b = id
               /\ status b = PENDING_HOD
               /\ (division b = None
                   \/ exists dv, division b = Some dv /\ div_course dv = c)).
Proof.
  pose proof (Teacher_clean_scope t) as Hscope.
  pose proof (Teacher_clean_hod_course t) as Hcourse.
  split.
  - intros Hf.
    destruct (Hscope Hclean Hf) as (c & s & l & Hc & Hs & Hl & _).
    eexists. split; [apply (coordinator_requests_found user t db Hrole
                              Hprofile Hf)|].
    intros id. rewrite in_map_filter. rewrite Hc, Hs, Hl. split.
    + intros (b & Hin & Hsel & Hid).
      rewrite !andb_true_iff, BookingStatus_eqb_eq in Hsel.
      destruct Hsel as (((Hst & H1) & H2) & H3).
      destruct (division b) as [dv|] eqn:Hdv; [|discriminate].
      simpl in H1, H2, H3.
      apply String.eqb_eq in H1, H3. apply Z.eqb_eq in H2.
      exists b, dv. unfold scope_is. rewrite Hc, Hs, Hl.
      repeat split; congruence.
    + intros (b & dv & Hin & Hid & Hst & Hdv & (H1 & H2 & H3)).
      exists b. split; [exact Hin|]. split; [|exact Hid].
      rewrite Hdv, Hst; simpl.
      rewrite Hc in H1. rewrite Hs in H2. rewrite Hl in H3.
      injection H1 as ->. injection H2 as ->. injection H3 as ->.
      now rewrite !String.eqb_refl, Z.eqb_refl.
  - intros Hf. destruct (Hcourse Hclean Hf) as (c & Hc & _).
    eexists. exists c. split; [exact Hc|].
    split; [apply (hod_requests_found user t db Hrole Hprofile Hf)|].
    intros id. rewrite in_map_filter. rewrite Hc. split.
    + intros (b & Hin & Hsel & Hid). apply filter_In in Hin.
      destruct Hin as [Hin Hpend]. apply BookingStatus_eqb_eq in Hpend.
      exists b. repeat split; auto.
      destruct (division b) as [dv|]; [right|now left].
      exists dv. split; [reflexivity|].
      apply negb_true_iff, negb_false_iff, String.eqb_eq in Hsel. exact Hsel.
    + intros (b & Hin & Hid & Hst & Hdiv). exists b.
      split; [apply filter_In; split;
              [exact Hin|now apply BookingStatus_eqb_eq]|].
      split; [|exact Hid].
      destruct Hdiv as [->|(dv & -> & <-)]; [reflexivity|].
      now rewrite String.eqb_refl.
Qed.

End ValidatedOfficer.

(** X18 on the sample data: the coordinator of (MCA, 1, A) is not shown
    the pending request of division (MCA, 1, B). *)
Lemma validated_officer_listings_witness :
  exists ids,
    lists (coordinator_requests coordinator_A db_pending_B) ids
    /\ ~ In 1%nat ids.
Proof.
  destruct (validated_officer_listings coordinator_A
              (mkTeacher true (Some "MCA") (Some 1) (Some "A") false None)
              db_pending_B eq_refl eq_refl eq_refl) as [Hc _].
  destruct (Hc eq_refl) as (ids & Hl & Hin).
  exists ids. split; [exact Hl|].
  intros H. apply (proj1 (Hin 1%nat)) in H.
  destruct H as (b & dv & [<-|[]] & _ & _ & Hdv & (_ & _ & Hl3)).
  injection Hdv as <-. discriminate Hl3.
Defined.

(* ================================================================= *)
(** ** Room administration *)

Lemma find_filter_out (A : Type) (key : A -> nat) (i : nat) (l : list A) :
  find (fun x => Nat.eqb (key x) i)
    (filter (fun x => negb (Nat.eqb (key x) i)) l) = None.
Proof.
  induction l as [|x l IH]; simpl; [reflexivity|].
  destruct (Nat.eqb (key x) i) eqn:E; simpl; [exact IH|].
  now rewrite E.
Qed.

Lemma NoDup_map_filter (A B : Type) (f : A -> B) (g : A -> bool)
    (l : list A) :
  NoDup (map f l) -> NoDup (map f (filter g l)).
Proof.
  induction l as [|x l IH]; simpl; intros H; [constructor|].
  inversion H as [|? ? Hnotin Hrest]; subst.
  destruct (g x); simpl; [|auto].
  constructor; [|auto].
  rewrite in_map_iff in *. intros (y & Hy & Hin).
  apply Hnotin. exists y. split; [exact Hy|].
  apply filter_In in Hin. tauto.
Qed.

(** Rewriting the row of a key with a number no other row holds keeps the
    numbers unique. *)
Lemma NoDup_numbers_replace (rm' : Room) (l : list Room) :
  NoDup (map room_id l) -> NoDup (map room_number l) ->
  (forall x, In x l -> room_id x <> room_id rm' ->
             room_number x <> room_number rm') ->
  NoDup (map room_number
           (map (fun x => if Nat.eqb (room_id x) (room_id rm') then rm' else x)
              l)).
Proof.
  induction l as [|x l IH]; simpl; intros Hid Hnum Hother; [constructor|].
  inversion Hid as [|? ? Hid1 Hid2]; subst.
  inversion Hnum as [|? ? Hnum1 Hnum2]; subst.
  assert (IH' := IH Hid2 Hnum2 (fun y Hy => Hother y (or_intror Hy))).
  constructor; [|exact IH'].
  rewrite in_map_iff. intros (y & Hy & Hin).
  apply in_map_iff in Hin. destruct Hin as (z & Hz & Hzin).
  destruct (Nat.eqb (room_id x) (room_id rm')) eqn:Ex;
    destruct (Nat.eqb (room_id z) (room_id rm')) eqn:Ez; subst y.
  - apply Nat.eqb_eq in Ex, Ez. apply Hid1.
    apply in_map_iff. exists z. split; [congruence|exact Hzin].
  - apply Nat.eqb_neq in Ez.
    apply (Hother z (or_intror Hzin) Ez). exact Hy.
  - apply Nat.eqb_neq in Ex.
    apply (Hother x (or_introl eq_refl) Ex). symmetry. exact Hy.
  - apply Hnum1. apply in_map_iff. exists z. split; [exact Hy|exact Hzin].
Qed.

Section ManageRoom.

Variables (user : User) (data : RoomData) (id : nat) (db : DB) (rm : Room).

Hypothesis Hadmin : role user = "admin".
Hypothesis Hroom : Room_objects_get db id = inr rm.

(** The Python values of the three fields after the assignments of
    [PUT]. *)
Let number : option string :=
  data_get_default (data_room_number data) (room_number rm).

Let cap : option IntValue :=
  data_get_default (data_capacity data) (inr (Z.of_nat (capacity rm))).

Let type : option string :=
  data_get_default (data_room_type data) (room_type rm).

(** [PUT] by an admin on a room that exists comes to the save. *)
Lemma manage_room_put :
  manage_room user PUT data id db =
  match Room_save id number cap type db with
  | inl e => (Crashed e, db)
  | inr db' =>
      (Answered (mkResponse (message "Room updated successfully") 200), db')
  end.
Proof.
  destruct (Room_objects_get_inr db id rm Hroom) as [_ Hid].
  unfold manage_room. rewrite Hadmin, Hroom, Hid. reflexivity.
Qed.

Lemma sqlite_integer_true (z : Z) :
  sqlite_integer z = true <-> - 2 ^ 63 <= z < 2 ^ 63.
Proof.
  unfold sqlite_integer. rewrite andb_true_iff, Z.leb_le, Z.ltb_lt. tauto.
Qed.

(** X19. [manage_room] by an admin on a room that exists. DELETE fails
    with an uncaught [ProtectedError], changing nothing, exactly when some
    booking references the room, in whatever status; otherwise it is
    answered with 200 and the room can no longer be fetched nor booked.
    PUT, with the three fields as the body leaves them (a field whose key
    is absent being kept, a JSON null giving [None]): it fails with the
    exception of [int()] when the capacity is no number; with an uncaught
    [OverflowError] when the capacity is an integer outside 64 bits; with
    an uncaught [IntegrityError] when the capacity fits or is null and a
    field is null, the capacity is negative or another room holds the
    number; all three changing nothing. Otherwise (no field null, a
    capacity from 0 to 2^63 - 1, a number that no other room holds) it is
    answered with 200 and the room is fetched with these fields. *)
Theorem manage_room_effects :
  ((exists b, In b (bookings db) /\ room b = id) ->
   manage_room user DELETE data id db = (Crashed ProtectedError, db))
  /\ ((forall b, In b (bookings db) -> room b <> id) ->
      fst (manage_room user DELETE data id db)
      = Answered (mkResponse (message "Room deleted successfully") 200)
      /\ Room_objects_get (snd (manage_room user DELETE data id db)) id
         = inl Room_DoesNotExist
      /\ forall now u d st en p,
           fst (request_room now u (booking_data id d st en p)
                  (snd (manage_room user DELETE data id db)))
           = mkResponse (error "Room not found") 404)
  /\ (forall e,
        cap = Some (inl e) ->
        manage_room user PUT data id db = (Crashed (Conversion e), db))
  /\ (forall z,
        cap = Some (inr z) -> z < - 2 ^ 63 \/ 2 ^ 63 <= z ->
        manage_room user PUT data id db = (Crashed OverflowError, db))
  /\ ((cap = None \/ exists z, cap = Some (inr z) /\ - 2 ^ 63 <= z < 2 ^ 63) ->
      (number = None \/ cap = None \/ type = None
       \/ (exists z, cap = Some (inr z) /\ z < 0)
       \/ (exists x, In x (rooms db) /\ room_id x <> id
                     /\ number = Some (room_number x))) ->
      manage_room user PUT data id db = (Crashed IntegrityError, db))
  /\ (forall n z t,
        number = Some n -> cap = Some (inr z) -> type = Some t ->
        0 <= z < 2 ^ 63 ->
        (forall x, In x (rooms db) -> room_id x <> id -> room_number x <> n) ->
        fst (manage_room user PUT data id db)
        = Answered (mkResponse (message "Room updated successfully") 200)
        /\ Room_objects_get (snd (manage_room user PUT data id db)) id
           = inr (mkRoom id n (Z.to_nat z) t)).
Proof.
  destruct (Room_objects_get_inr db id rm Hroom) as [Hin Hid].
  assert (Hfind : find (fun r => Nat.eqb (room_id r) id) (rooms db) = Some rm).
  { unfold Room_objects_get in Hroom.
    destruct (find _ (rooms db)); [|discriminate]. now injection Hroom as ->. }
  split; [|split; [|split; [|split; [|split]]]].
  - intros (b & Hb & Hr).
    unfold manage_room. rewrite Hadmin, Hroom; simpl. unfold Room_delete.
    assert (E : existsb (fun b => Nat.eqb (room b) (room_id rm)) (bookings db)
                = true).
    { apply existsb_exists. exists b. split; [exact Hb|].
      apply Nat.eqb_eq. congruence. }
    now rewrite E.
  - intros Hfree.
    unfold manage_room. rewrite Hadmin, Hroom; simpl. unfold Room_delete.
    assert (E : existsb (fun b => Nat.eqb (room b) (room_id rm)) (bookings db)
                = false).
    { destruct (existsb _ (bookings db)) eqn:E; [|reflexivity].
      apply existsb_exists in E. destruct E as (b & Hb & Hr).
      apply Nat.eqb_eq in Hr. exfalso. apply (Hfree b Hb). congruence. }
    rewrite E; simpl. split; [reflexivity|].
    assert (Hgone : Room_objects_get
                      {| rooms := filter
                                    (fun x => negb (Nat.eqb (room_id x)
                                                      (room_id rm)))
                                    (rooms db);
                         bookings := bookings db;
                         next_booking_id := next_booking_id db;
                         leaves := leaves db;
                         next_leave_id := next_leave_id db |} id
                    = inl Room_DoesNotExist).
    { unfold Room_objects_get; simpl. rewrite Hid.
      now rewrite (find_filter_out _ room_id id (rooms db)). }
    split; [exact Hgone|].
    intros now u d st en p.
    now rewrite (request_room_not_found now u _ id d st en p Hgone).
  - intros e He. rewrite manage_room_put. unfold Room_save.
    now rewrite He.
  - intros z Hz Hout. rewrite manage_room_put. unfold Room_save.
    rewrite Hz; simpl.
    assert (E : sqlite_integer z = false).
    { destruct (sqlite_integer z) eqn:E; [|reflexivity].
      apply sqlite_integer_true in E. lia. }
    now rewrite E.
  - intros Hfit Hbad. rewrite manage_room_put. unfold Room_save.
    destruct Hfit as [Hc|(z & Hc & Hz)]; rewrite Hc; simpl.
    + now destruct number.
    + apply sqlite_integer_true in Hz. rewrite Hz; simpl.
      destruct Hbad
        as [Hn|[Hn|[Ht|[(z' & Hc' & Hneg)|(x & Hx & Hne & Hn)]]]].
      * now rewrite Hn.
      * congruence.
      * rewrite Ht. now destruct number.
      * assert (z' = z) by congruence. subst z'.
        apply Z.ltb_lt in Hneg. rewrite Hneg; simpl.
        now destruct number, type.
      * rewrite Hn.
        assert (E : existsb
                      (fun y => negb (Nat.eqb (room_id y) id)
                                && String.eqb (room_number y) (room_number x))
                      (rooms db) = true).
        { apply existsb_exists. exists x. split; [exact Hx|].
          apply andb_true_iff. split.
          - now apply negb_true_iff, Nat.eqb_neq.
          - apply String.eqb_refl. }
        rewrite E, orb_true_r. now destruct type.
  - intros n z t Hn Hc Ht Hz Hfree. rewrite manage_room_put. unfold Room_save.
    rewrite Hn, Hc, Ht; simpl.
    assert (Efit : sqlite_integer z = true)
      by (apply sqlite_integer_true; lia).
    assert (Eneg : (z <? 0) = false) by (apply Z.ltb_ge; lia).
    assert (E : existsb
                  (fun x => negb (Nat.eqb (room_id x) id)
                            && String.eqb (room_number x) n) (rooms db)
                = false).
    { destruct (existsb _ (rooms db)) eqn:E; [|reflexivity].
      apply existsb_exists in E. destruct E as (x & Hx & Hcond).
      apply andb_true_iff in Hcond. destruct Hcond as [Hne Hnum].
      apply negb_true_iff, Nat.eqb_neq in Hne. apply String.eqb_eq in Hnum.
      exfalso. exact (Hfree x Hx Hne Hnum). }
    rewrite Efit, Eneg, E; simpl. split; [reflexivity|].
    exact (f_equal
             (fun found => match found with
                           | Some r => ret r
                           | None => raise Room_DoesNotExist
                           end)
             (find_replace_same _ room_id (mkRoom id n (Z.to_nat z) t)
                (rooms db) rm Hfind)).
Qed.

End ManageRoom.

(** X19 on the sample data. Room R cannot be deleted while the approved
    booking references it; from the empty database it can, and is then no
    longer bookable. A [PUT] with capacity 2^63 fails with
    [OverflowError], one with a null capacity or with capacity -1 fails
    with [IntegrityError], and one with capacity 45 is answered with 200
    and rewrites the room. *)
Lemma manage_room_effects_witness :
  manage_room admin_user DELETE (mkRoomData None None None) 1 db_approved
    = (Crashed ProtectedError, db_approved)
  /\ fst (request_room 5 plain_teacher (booking_data 1 day_D 600 660 "talk")
            (snd (manage_room admin_user DELETE (mkRoomData None None None) 1
                    db_empty)))
     = mkResponse (error "Room not found") 404
  /\ manage_room admin_user PUT
       (mkRoomData None (Some (Some (inr (2 ^ 63)))) None) 1 db_empty
     = (Crashed OverflowError, db_empty)
  /\ manage_room admin_user PUT (mkRoomData None (Some None) None) 1 db_empty
     = (Crashed IntegrityError, db_empty)
  /\ manage_room admin_user PUT
       (mkRoomData None (Some (Some (inr (-1)))) None) 1 db_empty
     = (Crashed IntegrityError, db_empty)
  /\ Room_objects_get
       (snd (manage_room admin_user PUT
               (mkRoomData (Some (Some "R2")) (Some (Some (inr 45))) None) 1
               db_empty)) 1
     = inr (mkRoom 1 "R2" 45 "lab").
Proof.
  split; [|split; [|split; [|split; [|split]]]].
  - apply (manage_room_effects admin_user (mkRoomData None None None) 1
             db_approved room_R eq_refl eq_refl).
    eexists. split; [left; reflexivity|reflexivity].
  - destruct (manage_room_effects admin_user (mkRoomData None None None) 1
                db_empty room_R eq_refl eq_refl) as (_ & H & _).
    destruct (H (fun b (Hb : In b []) => match Hb with end)) as (_ & _ & Hreq).
    apply Hreq.
  - destruct (manage_room_effects admin_user
                (mkRoomData None (Some (Some (inr (2 ^ 63)))) None) 1
                db_empty room_R eq_refl eq_refl) as (_ & _ & _ & H & _).
    apply (H (2 ^ 63)); [reflexivity|lia].
  - destruct (manage_room_effects admin_user
                (mkRoomData None (Some None) None) 1
                db_empty room_R eq_refl eq_refl) as (_ & _ & _ & _ & H & _).
    apply H; [left; reflexivity|right; left; reflexivity].
  - destruct (manage_room_effects admin_user
                (mkRoomData None (Some (Some (inr (-1)))) None) 1
                db_empty room_R eq_refl eq_refl) as (_ & _ & _ & _ & H & _).
    apply H.
    + right. exists (-1). split; [reflexivity|lia].
    + do 3 right. left. exists (-1). split; [reflexivity|lia].
  - destruct (manage_room_effects admin_user
                (mkRoomData (Some (Some "R2")) (Some (Some (inr 45))) None) 1
                db_empty room_R eq_refl eq_refl) as (_ & _ & _ & _ & _ & H).
    destruct (H "R2" 45 "lab" eq_refl eq_refl eq_refl ltac:(lia)) as [_ Hget].
    + intros x [<-|[]] Hne. exfalso. apply Hne. reflexivity.
    + exact Hget.
Defined.

(** X20. Room keys and room numbers stay unique under every request of
    the workflows and every [manage_room] call, hence along every sequence
    of them; and [manage_room] answers 403 to whoever is not an admin and
    404 for a room that does not exist, changing nothing. *)
Theorem rooms_unique_invariant :
  (forall db r, rooms_unique db -> rooms_unique (serve_any db r))
  /\ (forall rs db, rooms_unique db -> rooms_unique (serve_any_all db rs))
  /\ (forall user method data id db,
        role user <> "admin" ->
        manage_room user method data id db
        = (Answered (mkResponse (error "Only admin allowed") 403), db))
  /\ (forall user method data id db,
        role user = "admin" ->
        Room_objects_get db id = inl Room_DoesNotExist ->
        manage_room user method data id db
        = (Answered (mkResponse (error "Room not found") 404), db)).
Proof.
  assert (Hstep : forall db r, rooms_unique db -> rooms_unique (serve_any db r)).
  { intros db [r|user method data id] [Hid Hnum]; unfold rooms_unique; simpl.
    - now rewrite serve_rooms.
    - destruct (manage_room_cases user method data id db)
        as (_ & _ & _ & _ & Hrooms).
      destruct Hrooms
        as [->|[(rm & rm' & _ & _ & Hother & ->)|(rm & _ & _ & ->)]].
      + now split.
      + split; [now rewrite map_replace_keys|].
        now apply NoDup_numbers_replace.
      + split; now apply NoDup_map_filter. }
  split; [exact Hstep|]. split; [|split].
  - induction rs as [|r rs IH]; intros db H; simpl; auto.
  - intros user method data id db Hr. unfold manage_room.
    apply String.eqb_neq in Hr. now rewrite Hr.
  - intros user method data id db Hr Hno. unfold manage_room.
    now rewrite Hr, Hno.
Qed.

(** X20 on the sample data: a teacher's attempt to delete room R. *)
Lemma rooms_unique_invariant_witness :
  manage_room plain_teacher DELETE (mkRoomData None None None) 1 db_empty
  = (Answered (mkResponse (error "Only admin allowed") 403), db_empty)
  /\ rooms_unique
       (serve_any_all db_empty
          [Manage_room admin_user PUT (mkRoomData (Some (Some "R2")) None None) 1]).
Proof.
  destruct rooms_unique_invariant as (_ & Hrun & H403 & _).
  split.
  - apply H403. discriminate.
  - apply Hrun. unfold rooms_unique; simpl.
    split; (constructor; [intros []|constructor]).
Defined.

(* ================================================================= *)
(** ** Promotion of students *)

Lemma Division_objects_get_some divisions c s l d :
  Division_objects_get divisions c s l = Some d ->
  In d divisions /\ div_course d = c /\ div_semester d = s
  /\ div_division d = l.
Proof.
  unfold Division_objects_get. intros H. apply find_some in H.
  rewrite !andb_true_iff, !String.eqb_eq, Z.eqb_eq in H. tauto.
Qed.

(** One turn of the loop: a promotable student is saved promoted and
    counted, any other student gets a message. *)
Lemma promote_one_cases divisions st s :
  (promotable divisions s = true
   /\ exists r,
        promoted_from divisions s r
        /\ promote_one divisions st s
           = mkPromotion (StudentRow_save r (table st)) (messages st)
               (S (success_count st)))
  \/ (promotable divisions s = false
      /\ promote_one divisions st s
         = mkPromotion (table st) (messages st ++ [skip_message s])
             (success_count st)).
Proof.
  unfold promote_one, promotable, skip_message, student_letter.
  destruct (student_semester s >=? 4) eqn:E; simpl; [now right|].
  destruct (Division_objects_get divisions (student_course s)
              (student_semester s + 1)
              (div_division (student_division (student_profile_of s))))
    as [d|] eqn:Hd; [left|now right].
  split; [reflexivity|].
  apply Division_objects_get_some in Hd.
  destruct Hd as (Hin & Hc & Hs & Hl).
  eexists. split; [|reflexivity].
  unfold promoted_from, student_letter; simpl.
  assert (student_semester s < 4)
    by (rewrite Z.geb_leb in E; apply Z.leb_gt in E; lia).
  repeat split; auto.
Qed.

Lemma promote_fold divisions qs st :
  let st' := fold_left (promote_one divisions) qs st in
  success_count st'
  = (success_count st + length (filter (promotable divisions) qs))%nat
  /\ messages st'
     = (messages st
        ++ map skip_message
             (filter (fun s => negb (promotable divisions s)) qs))%list
  /\ map student_pk (table st') = map student_pk (table st)
  /\ (forall r, In r (table st') ->
        In r (table st)
        \/ exists s, In s qs /\ promotable divisions s = true
                     /\ promoted_from divisions s r).
Proof.
  revert st. induction qs as [|s qs IH]; intros st; simpl.
  - rewrite Nat.add_0_r, app_nil_r. auto.
  - destruct (promote_one_cases divisions st s)
      as [(Hp & r0 & Hfrom & Heq)|(Hp & Heq)];
      rewrite Heq, Hp; simpl;
      match goal with |- context [fold_left _ qs ?st0] =>
        destruct (IH st0) as (Hc & Hm & Hk & Hr) end;
      simpl in Hc, Hm, Hk, Hr.
    + split; [rewrite Hc; lia|]. split; [exact Hm|]. split.
      * rewrite Hk. unfold StudentRow_save.
        apply (map_replace_keys _ student_pk r0).
      * intros r Hin. destruct (Hr r Hin) as [H|(s' & Hs' & H)].
        -- unfold StudentRow_save in H.
           apply (in_map_replace _ student_pk r0) in H.
           destruct H as [[-> _]|H]; [right|now left].
           exists s. auto.
        -- right. exists s'. tauto.
    + split; [exact Hc|]. split; [now rewrite Hm, <- app_assoc|].
      split; [exact Hk|].
      intros r Hin. destruct (Hr r Hin) as [H|(s' & Hs' & H)]; [now left|].
      right. exists s'. tauto.
Qed.

(** X21. [promote_students] rewrites rows and never adds or removes one:
    the keys of the student table are as before. Every row of the table
    afterwards is a row that was there or the promotion of a selected
    student who was below semester 4: one semester up, moved to the
    division of the table with the student's course, the new semester and
    the old letter. So no student is taken beyond semester 4. *)
Theorem promote_students_rows divisions queryset students :
  map student_pk (fst (promote_students divisions queryset students))
  = map student_pk students
  /\ (forall r,
        In r (fst (promote_students divisions queryset students)) ->
        In r students
        \/ exists s, In s queryset /\ promoted_from divisions s r)
  /\ ((forall s, In s students -> student_semester s <= 4) ->
      forall r,
        In r (fst (promote_students divisions queryset students)) ->
        student_semester r <= 4).
Proof.
  unfold promote_students; simpl.
  destruct (promote_fold divisions queryset (mkPromotion students [] 0))
    as (_ & _ & Hk & Hr). simpl in Hk, Hr.
  split; [exact Hk|]. split.
  - intros r Hin. destruct (Hr r Hin) as [H|(s & Hs & _ & H)]; [now left|].
    right. now exists s.
  - intros Hle r Hin. destruct (Hr r Hin) as [H|(s & Hs & _ & H)].
    + now apply Hle.
    + destruct H as (_ & _ & _ & Hlt & Hnext & _). lia.
Qed.

(** [student.save()] writes the rows of the student's key and no
    other. *)
Lemma StudentRow_save_same (r : StudentRow) (rows : list StudentRow) :
  In (student_pk r) (map student_pk rows) -> In r (StudentRow_save r rows).
Proof.
  rewrite in_map_iff. intros (y & Hy & Hin).
  unfold StudentRow_save. apply in_map_iff. exists y.
  split; [|exact Hin]. apply Nat.eqb_eq in Hy. now rewrite Hy.
Qed.

Lemma StudentRow_save_other (r row : StudentRow) (rows : list StudentRow) :
  In row rows -> student_pk row <> student_pk r ->
  In row (StudentRow_save r rows).
Proof.
  intros Hin Hne. unfold StudentRow_save. apply in_map_iff. exists row.
  split; [|exact Hin]. apply Nat.eqb_neq in Hne. now rewrite Hne.
Qed.

(** A row stays in the table through the loop unless a promotable
    student of the selection has its key. *)
Lemma promote_fold_kept divisions qs st row :
  In row (table st) ->
  (forall s, In s qs -> promotable divisions s = true ->
             student_pk s <> student_pk row) ->
  In row (table (fold_left (promote_one divisions) qs st)).
Proof.
  revert st. induction qs as [|s qs IH]; intros st Hin Hother; simpl;
    [exact Hin|].
  apply IH; [|intros s' Hs'; apply Hother; now right].
  destruct (promote_one_cases divisions st s)
    as [(Hp & r & Hfrom & Heq)|(_ & Heq)]; rewrite Heq; simpl;
    [|exact Hin].
  apply StudentRow_save_other; [exact Hin|].
  destruct Hfrom as (Hpk & _). rewrite Hpk.
  intros Hsame. apply (Hother s (or_introl eq_refl) Hp). now symmetry.
Qed.

(** A promotable student of the selection whose key is in the table is in
    the table promoted after the loop, when the selection holds no key
    twice. *)
Lemma promote_fold_saved divisions qs st s :
  NoDup (map student_pk qs) -> In s qs ->
  promotable divisions s = true ->
  In (student_pk s) (map student_pk (table st)) ->
  exists r, In r (table (fold_left (promote_one divisions) qs st))
            /\ promoted_from divisions s r.
Proof.
  revert st. induction qs as [|s0 qs IH]; intros st Hnd Hin Hp Hkey;
    simpl in *; [contradiction|].
  inversion Hnd as [|? ? Hfresh Hnd']; subst.
  destruct Hin as [->|Hin].
  - destruct (promote_one_cases divisions st s)
      as [(_ & r & Hfrom & Heq)|(Hnp & _)]; [|congruence].
    exists r. split; [|exact Hfrom]. rewrite Heq.
    destruct Hfrom as (Hpk & _).
    apply promote_fold_kept; simpl.
    + apply StudentRow_save_same. now rewrite Hpk.
    + intros s' Hs' _ Hsame. apply Hfresh. apply in_map_iff.
      exists s'. split; [congruence|exact Hs'].
  - apply (IH (promote_one divisions st s0) Hnd' Hin Hp).
    destruct (promote_one_cases divisions st s0)
      as [(_ & r & _ & Heq)|(_ & Heq)]; rewrite Heq; simpl; [|exact Hkey].
    unfold StudentRow_save.
    now rewrite (map_replace_keys _ student_pk r).
Qed.

(** X22. The messages and the effect of [promote_students]. Every
    selected student who is in semester 4 or above or has no division for
    the next semester gets its message, in the order of the selection; the
    success message, with the number of the other selected students, is
    sent last, exactly when that number is not zero. The other selected
    students are the promoted ones: when the selection holds no key twice,
    each of them whose key is in the table is in the table promoted
    afterwards; and a row of the table is still there unless its key is
    that of such a student. *)
Theorem promote_students_messages divisions queryset students :
  snd (promote_students divisions queryset students)
  = (map skip_message
       (filter (fun s => negb (promotable divisions s)) queryset)
     ++ match length (filter (promotable divisions) queryset) with
        | O => []
        | S n => [Promoted_successfully (S n)]
        end)%list
  /\ (NoDup (map student_pk queryset) ->
      forall s,
        In s queryset -> promotable divisions s = true ->
        In (student_pk s) (map student_pk students) ->
        exists r,
          In r (fst (promote_students divisions queryset students))
          /\ promoted_from divisions s r)
  /\ (forall row,
        In row students ->
        (forall s, In s queryset -> promotable divisions s = true ->
                   student_pk s <> student_pk row) ->
        In row (fst (promote_students divisions queryset students))).
Proof.
  unfold promote_students; simpl.
  destruct (promote_fold divisions queryset (mkPromotion students [] 0))
    as (Hc & Hm & _). simpl in Hc, Hm.
  split; [|split].
  - rewrite Hc, Hm.
    destruct (length (filter (promotable divisions) queryset));
      [now rewrite app_nil_r|reflexivity].
  - intros Hnd s Hin Hp Hkey.
    exact (promote_fold_saved divisions queryset (mkPromotion students [] 0)
             s Hnd Hin Hp Hkey).
  - intros row Hin Hother.
    exact (promote_fold_kept divisions queryset (mkPromotion students [] 0)
             row Hin Hother).
Qed.

(** X23. A student whom [Student.clean] accepts is in semester 1. The
    promotion action then either finds no division of semester 2 for the
    student, reports it and leaves the table as it was; or it saves the
    student promoted: the row it saves has the student's key, is in
    semester 2, and is refused by [Student.clean], which accepts semester
    1 only; when the student's key is in the table, the table holds this
    row afterwards, and no other row under the key. *)
Theorem promoted_student_fails_clean divisions st s :
  Student_clean s = inr tt ->
  student_semester s = 1
  /\ (promotable divisions s = false
      /\ promote_one divisions st s
         = mkPromotion (table st)
             (messages st ++ [Division_does_not_exist (student_letter s) 2])
             (success_count st)
      \/ promotable divisions s = true
         /\ exists r,
              promoted_from divisions s r
              /\ promote_one divisions st s
                 = mkPromotion (StudentRow_save r (table st)) (messages st)
                     (S (success_count st))
              /\ student_semester r = 2
              /\ Student_clean r
                 = invalid "New students must be in Semester 1."
              /\ (In (student_pk s) (map student_pk (table st)) ->
                  In r (table (promote_one divisions st s)))
              /\ (forall x,
                    In x (table (promote_one divisions st s)) ->
                    student_pk x = student_pk s -> x = r)).
Proof.
  intros Hclean.
  assert (Hsem : student_semester s = 1).
  { unfold Student_clean, invalid in Hclean.
    destruct (student_semester s =? 1) eqn:E; [|discriminate].
    now apply Z.eqb_eq. }
  split; [exact Hsem|].
  destruct (promote_one_cases divisions st s)
    as [(Hp & r & Hfrom & Heq)|(Hp & Heq)].
  - right. split; [exact Hp|]. exists r.
    split; [exact Hfrom|]. split; [exact Heq|].
    destruct Hfrom as (Hpk & _ & _ & _ & Hnext & _).
    rewrite Hsem in Hnext. split; [exact Hnext|].
    split; [unfold Student_clean; now rewrite Hnext|].
    rewrite Heq; simpl. split.
    + intros Hkey. apply StudentRow_save_same. now rewrite Hpk.
    + intros x Hx Hk.
      apply (replaced_rows_of_key _ student_pk r x (table st) Hx).
      congruence.
  - left. split; [exact Hp|]. rewrite Heq. unfold skip_message.
    now rewrite Hsem.
Qed.

(** X21 on the sample data: students A and B selected; A moves to
    (MCA, 2, A), B stays, and both stay at or below semester 4. *)
Lemma promote_students_rows_witness :
  fst (promote_students division_table [row_A; row_B] [row_A; row_B])
  = [mkStudentRow 1 (mkStudent "MCA-01" MCA_2_A) "MCA" 2; row_B]
  /\ forall r,
       In r (fst (promote_students division_table [row_A; row_B]
                    [row_A; row_B])) ->
       student_semester r <= 4.
Proof.
  split; [reflexivity|].
  destruct (promote_students_rows division_table [row_A; row_B]
              [row_A; row_B]) as (_ & _ & H).
  apply H. intros s [<-|[<-|[]]]; simpl; lia.
Defined.

(** X22 on the sample data: students A and B selected; A is in the
    table promoted afterwards, B's row is as it was. *)
Lemma promote_students_messages_witness :
  (exists r,
     In r (fst (promote_students division_table [row_A; row_B]
                  [row_A; row_B]))
     /\ promoted_from division_table row_A r)
  /\ In row_B (fst (promote_students division_table [row_A; row_B]
                      [row_A; row_B])).
Proof.
  destruct (promote_students_messages division_table [row_A; row_B]
              [row_A; row_B]) as (_ & Hsaved & Hkept).
  split.
  - apply Hsaved.
    + constructor; [intros [H|[]]; discriminate H|].
      constructor; [intros []|constructor].
    + left; reflexivity.
    + reflexivity.
    + left; reflexivity.
  - apply Hkept.
    + right; left; reflexivity.
    + intros s [<-|[<-|[]]] Hp; [discriminate|discriminate Hp].
Defined.

(** X23 on the sample data: student A passes [Student.clean] before the
    promotion; the row saved for A is in the table afterwards and does
    not pass it. *)
Lemma promoted_student_fails_clean_witness :
  Student_clean row_A = inr tt
  /\ exists r,
       In r (table (promote_one division_table
                      (mkPromotion [row_A; row_B] [] 0) row_A))
       /\ student_pk r = student_pk row_A
       /\ student_semester r = 2
       /\ Student_clean r = invalid "New students must be in Semester 1.".
Proof.
  split; [reflexivity|].
  destruct (promoted_student_fails_clean division_table
              (mkPromotion [row_A; row_B] [] 0) row_A eq_refl)
    as (_ & [(Hnone & _)|(_ & r & Hfrom & _ & Hsem & Hclean & Hin & _)]).
  - discriminate Hnone.
  - exists r. split; [apply Hin; left; reflexivity|].
    split; [exact (proj1 Hfrom)|]. split; [exact Hsem|exact Hclean].
Defined.

(* ================================================================= *)
(** ** A decision sent twice *)

Lemma map_replace_twice (A : Type) (key : A -> nat) (row : A) (l : list A) :
  map (fun x => if Nat.eqb (key x) (key row) then row else x)
    (map (fun x => if Nat.eqb (key x) (key row) then row else x) l)
  = map (fun x => if Nat.eqb (key x) (key row) then row else x) l.
Proof.
  rewrite map_map. apply map_ext. intros x.
  destruct (Nat.eqb (key x) (key row)) eqn:E.
  - now rewrite Nat.eqb_refl.
  - now rewrite E.
Qed.

Lemma RoomBooking_save_twice (b0 b' : RoomBooking) (db : DB) :
  In b0 (bookings db) -> booking_id b' = booking_id b0 ->
  RoomBooking_save b' (RoomBooking_save b' db) = RoomBooking_save b' db.
Proof.
  intros Hin Hid.
  assert (Hb := RoomBooking_save_bookings b0 b' db Hin Hid).
  assert (Hin' : In b' (bookings (RoomBooking_save b' db))).
  { rewrite Hb. apply in_map_iff. exists b0. split; [|exact Hin].
    rewrite Hid. now rewrite Nat.eqb_refl. }
  assert (Hb2 := RoomBooking_save_bookings b' b' (RoomBooking_save b' db)
                   Hin' eq_refl).
  rewrite Hb, map_replace_twice, <- Hb in Hb2.
  unfold RoomBooking_save at 1. simpl.
  unfold RoomBooking_save at 1 in Hb2. simpl in Hb2.
  rewrite Hb2. unfold RoomBooking_save; simpl. reflexivity.
Qed.

(** X24. A booking decision sent a second time changes nothing further:
    for every actor, action and key, [coordinator_action] and [hod_action]
    give the same answer and leave the same database when they are called
    again on the database the first call left. *)
Theorem booking_decision_idempotent user action id db :
  coordinator_action user action id
    (snd (coordinator_action user action id db))
  = coordinator_action user action id db
  /\ hod_action user action id (snd (hod_action user action id db))
     = hod_action user action id db.
Proof.
  split.
  - destruct (coordinator_action_cases user action id db)
      as [(b & Hget & Ha & Heq)|[(b & Hget & Ha & Heq)|[Heq _]]].
    + rewrite Heq; simpl.
      destruct (RoomBooking_objects_get_inr db id b Hget) as (_ & Hin & Hid).
      set (b' := set_coordinator_approved true (set_status PENDING_HOD b)).
      assert (Hget' : RoomBooking_objects_get (RoomBooking_save b' db) id
                      = inr b')
        by now apply (RoomBooking_get_save_same db id b b' Hget).
      revert Heq. unfold coordinator_action.
      destruct (not_teacher_with is_batch_coordinator user) as [e|[|]];
        try discriminate.
      rewrite Hget, Hget'; simpl. subst action; simpl. intros _.
      change (set_coordinator_approved true (set_status PENDING_HOD b'))
        with b'.
      now rewrite (RoomBooking_save_twice b b' db Hin eq_refl).
    + rewrite Heq; simpl.
      destruct (RoomBooking_objects_get_inr db id b Hget) as (_ & Hin & Hid).
      set (b' := set_status REJECTED b).
      assert (Hget' : RoomBooking_objects_get (RoomBooking_save b' db) id
                      = inr b')
        by now apply (RoomBooking_get_save_same db id b b' Hget).
      revert Heq. unfold coordinator_action.
      destruct (not_teacher_with is_batch_coordinator user) as [e|[|]];
        try discriminate.
      rewrite Hget, Hget'; simpl. subst action; simpl. intros _.
      change (set_status REJECTED b') with b'.
      now rewrite (RoomBooking_save_twice b b' db Hin eq_refl).
    + now rewrite Heq.
  - destruct (hod_action_cases user action id db)
      as [(b & Hget & Ha & Heq)|[(b & Hget & Ha & Heq)|[Heq _]]].
    + rewrite Heq; simpl.
      destruct (RoomBooking_objects_get_inr db id b Hget) as (_ & Hin & Hid).
      set (b' := set_hod_approved true (set_status APPROVED b)).
      assert (Hget' : RoomBooking_objects_get (RoomBooking_save b' db) id
                      = inr b')
        by now apply (RoomBooking_get_save_same db id b b' Hget).
      revert Heq. unfold hod_action.
      destruct (not_teacher_with is_hod user) as [e|[|]]; try discriminate.
      rewrite Hget, Hget'; simpl. subst action; simpl. intros _.
      change (set_hod_approved true (set_status APPROVED b')) with b'.
      now rewrite (RoomBooking_save_twice b b' db Hin eq_refl).
    + rewrite Heq; simpl.
      destruct (RoomBooking_objects_get_inr db id b Hget) as (_ & Hin & Hid).
      set (b' := set_status REJECTED b).
      assert (Hget' : RoomBooking_objects_get (RoomBooking_save b' db) id
                      = inr b')
        by now apply (RoomBooking_get_save_same db id b b' Hget).
      revert Heq. unfold hod_action.
      destruct (not_teacher_with is_hod user) as [e|[|]]; try discriminate.
      rewrite Hget, Hget'; simpl. subst action; simpl. intros _.
      change (set_status REJECTED b') with b'.
      now rewrite (RoomBooking_save_twice b b' db Hin eq_refl).
    + now rewrite Heq.
Qed.
